(** * Placeholder substitution engine of [report_generator.py]

    A shallow embedding of [PowerPointModifier] (src/report_generator.py) and
    of the parts of Python, [re], [pandas] and [python-pptx] it leans on,
    followed by the properties of the engine.

    Conventions.
    - A Python [str] is a [string]; a character is a code point below 256, so
      the character classes below are Python's, restricted to that range.
    - A [dict] is an association list in insertion order with unique keys
      ([Py.dict_set] overwrites in place or appends), since the engine
      iterates over [content.items()].
    - An exception is a value of [pyerr]; a method that mutates the slide is a
      function from the slide state to a [result]. *)

From Stdlib Require Import String Ascii List ZArith QArith Bool Lia DecimalString.
Import ListNotations.
Local Close Scope Q_scope.
Local Open Scope nat_scope.
Local Open Scope string_scope.
Local Open Scope list_scope.

(** ** Python built-ins *)

Module Py.

(** [str.isspace] on one character: TAB..CR, FS..US, space, NEL, NBSP. *)
Definition is_space (c : ascii) : bool :=
  let n := nat_of_ascii c in
  (((9 <=? n) && (n <=? 13)) || ((28 <=? n) && (n <=? 32))
   || (n =? 133) || (n =? 160))%nat.

Fixpoint lstrip (s : string) : string :=
  match s with
  | EmptyString => EmptyString
  | String c tl => if is_space c then lstrip tl else s
  end.

Fixpoint rstrip (s : string) : string :=
  match s with
  | EmptyString => EmptyString
  | String c tl =>
      match rstrip tl with
      | EmptyString => if is_space c then EmptyString else String c EmptyString
      | r => String c r
      end
  end.

(** [s.strip()] *)
Definition strip (s : string) : string := rstrip (lstrip s).

(** [str.lower] on one character: A-Z, and the upper-case letters of the
    range 192..222 (all but the multiplication sign 215). *)
Definition lower_char (c : ascii) : ascii :=
  let n := nat_of_ascii c in
  if (((65 <=? n) && (n <=? 90))
      || ((192 <=? n) && (n <=? 222) && negb (n =? 215)))%nat
  then ascii_of_nat (n + 32) else c.

Fixpoint lower (s : string) : string :=
  match s with
  | EmptyString => EmptyString
  | String c tl => String (lower_char c) (lower tl)
  end.

(** [s.endswith(suffix)] *)
Fixpoint endswith (s suffix : string) : bool :=
  if String.eqb s suffix then true
  else match s with
       | EmptyString => false
       | String _ tl => endswith tl suffix
       end.

(** [key in text] for two strings. *)
Fixpoint contains (key text : string) : bool :=
  if prefix key text then true
  else match text with
       | EmptyString => false
       | String _ tl => contains key tl
       end.

(** [sep.join(parts)] *)
Fixpoint join (sep : string) (parts : list string) : string :=
  match parts with
  | [] => EmptyString
  | [p] => p
  | p :: rest => p ++ sep ++ join sep rest
  end.

(** The code points for which [str.isdigit] holds: 0-9 and the superscript
    digits 178, 179, 185. *)
Definition is_digit_char (c : ascii) : bool :=
  let n := nat_of_ascii c in
  (((48 <=? n) && (n <=? 57)) || (n =? 178) || (n =? 179) || (n =? 185))%nat.

(** The characters [int] accepts as digits: 0-9 only. *)
Definition is_decimal_char (c : ascii) : bool :=
  let n := nat_of_ascii c in ((48 <=? n) && (n <=? 57))%nat.

Definition digit_val (c : ascii) : Z := (Z.of_nat (nat_of_ascii c) - 48)%Z.

Fixpoint all_chars (p : ascii -> bool) (s : string) : bool :=
  match s with
  | EmptyString => true
  | String c tl => p c && all_chars p tl
  end.

(** [s.isdigit()]: at least one character, and all of them digits. *)
Definition isdigit (s : string) : bool :=
  match s with
  | EmptyString => false
  | _ => all_chars is_digit_char s
  end.

(** The digits of an [int] literal, left to right: decimal digits, with
    single underscores allowed between two digits. [prev] tells whether the
    previous character was a digit. *)
Fixpoint int_body (prev : bool) (acc : Z) (s : string) : option Z :=
  match s with
  | EmptyString => if prev then Some acc else None
  | String c tl =>
      if is_decimal_char c then int_body true (10 * acc + digit_val c)%Z tl
      else if Ascii.eqb c "_" && prev then int_body false acc tl
      else None
  end.

(** How many decimal digits a literal holds (underscores are not counted). *)
Fixpoint digit_count (s : string) : nat :=
  match s with
  | EmptyString => 0
  | String c tl => (if is_decimal_char c then 1 else 0) + digit_count tl
  end.

(** [sys.int_max_str_digits], at its default: [int] refuses a decimal literal
    of more digits with [ValueError]. *)
Definition int_max_str_digits : Z := 4300.

Definition int_digits (body : string) : option Z :=
  if (Z.of_nat (digit_count body) <=? int_max_str_digits)%Z
  then int_body false 0%Z body
  else None.

(** [int(s)] for a string: surrounding whitespace, an optional sign, the
    digits, at most [int_max_str_digits] of them. [None] stands for
    [ValueError]. *)
Definition int_of_str (s : string) : option Z :=
  match strip s with
  | String "+" body => int_digits body
  | String "-" body => option_map Z.opp (int_digits body)
  | body => int_digits body
  end.

(** ** Dictionaries, in insertion order *)

Section Dict.
Context {K V : Type} (eqb : K -> K -> bool).

(** [d.get(k)] *)
Fixpoint dict_get (d : list (K * V)) (k : K) : option V :=
  match d with
  | [] => None
  | (k', v) :: rest => if eqb k' k then Some v else dict_get rest k
  end.

(** [d.get(k, default)] *)
Definition dict_get_default (d : list (K * V)) (k : K) (default : V) : V :=
  match dict_get d k with
  | Some v => v
  | None => default
  end.

(** [d[k] = v]: an existing key keeps its place, a new one goes last. *)
Fixpoint dict_set (d : list (K * V)) (k : K) (v : V) : list (K * V) :=
  match d with
  | [] => [(k, v)]
  | (k', v') :: rest =>
      if eqb k' k then (k', v) :: rest else (k', v') :: dict_set rest k v
  end.

(** [k in d] *)
Definition dict_mem (d : list (K * V)) (k : K) : bool :=
  match dict_get d k with Some _ => true | None => false end.

Definition dict_keys (d : list (K * V)) : list K := map fst d.
Definition dict_values (d : list (K * V)) : list V := map snd d.
End Dict.

End Py.

(** ** The token pattern *)

Module Re.

(** A match object of [\{\{(.*?)\}\}]: [group0] is the whole span, braces
    included, [group1] the text between the braces. *)
Record re_match : Type := mk_match { group0 : string; group1 : string }.

(** The text before the first ["}}"] of [s], if there is one: what the
    lazy [(.*?)] captures under DOTALL. *)
Fixpoint find_close (s : string) : option string :=
  match s with
  | EmptyString => None
  | String c tl =>
      if prefix "}}" s then Some EmptyString
      else option_map (String c) (find_close tl)
  end.

(** The match of the pattern that starts at the first character of [s]. *)
Definition match_at (s : string) : option re_match :=
  match s with
  | String "{" (String "{" rest) =>
      match find_close rest with
      | Some inner => Some (mk_match ("{{" ++ inner ++ "}}") inner)
      | None => None
      end
  | _ => None
  end.

(** What [pattern.sub] sees of a string: the characters outside any match
    and the matches, leftmost first and not overlapping. *)
Inductive piece : Type :=
| Lit (c : ascii)
| Tok (m : re_match).

(** [skip] counts the characters of the current match still to pass. *)
Fixpoint scan (skip : nat) (s : string) : list piece :=
  match s with
  | EmptyString => []
  | String c tl =>
      match skip with
      | S k => scan k tl
      | O =>
          match match_at s with
          | Some m => Tok m :: scan (String.length (group0 m) - 1) tl
          | None => Lit c :: scan 0 tl
          end
      end
  end.

Definition pieces (s : string) : list piece := scan 0 s.

(** [pattern.sub(repl, s)] for a replacement function without effects. *)
Definition emit (repl : re_match -> string) (p : piece) : string :=
  match p with
  | Lit c => String c EmptyString
  | Tok m => repl m
  end.

Definition sub (repl : re_match -> string) (s : string) : string :=
  String.concat EmptyString (map (emit repl) (pieces s)).

End Re.

(** ** Exceptions and results *)

Inductive pyerr : Type :=
| ValueError
| AttributeError
| KeyError
| FileNotFoundError
| UnidentifiedImageError.

Inductive result (A : Type) : Type :=
| Ok (a : A)
| Err (e : pyerr).
Arguments Ok {A} a.
Arguments Err {A} e.

(** ** The file system *)

(** What a path names when [os.path.isfile] or [add_picture] looks at it. *)
Inductive file_kind : Type :=
| NoFile
| ImageFile
| OtherFile.

Definition filesystem : Type := string -> file_kind.

(** [os.path.isfile(path)] *)
Definition isfile (disk : filesystem) (path : string) : bool :=
  match disk path with
  | NoFile => false
  | _ => true
  end.

(** ** The table read by [pd.read_csv] *)

(** A cell of a row of [df.iterrows()]: text, an integer, a finite float
    (given by its exact value) or NaN, the missing value. *)
Inductive cell : Type :=
| CStr (s : string)
| CInt (z : Z)
| CFloat (q : Q)
| CNaN.

(** The [placeholder] column is text: the engine calls [isdigit] on it and
    uses it as a key of [Dict[str, str]]. A table whose [placeholder] column
    pandas reads as numbers is outside this model. *)
Record row : Type := mk_row {
  row_slide_num : cell;
  row_placeholder : string;
  row_value : cell
}.

(** [pd.isnull(c)] *)
Definition isnull (c : cell) : bool :=
  match c with
  | CNaN => true
  | _ => false
  end.

(** [int(c)]: a float is truncated towards zero, NaN and text that is not an
    integer literal raise [ValueError]. The floats of the model are the finite
    ones; an infinite slide number is outside it. *)
Definition py_int (c : cell) : result Z :=
  match c with
  | CStr s =>
      match Py.int_of_str s with
      | Some z => Ok z
      | None => Err ValueError
      end
  | CInt z => Ok z
  | CFloat q => Ok (Z.quot (Qnum q) (Zpos (Qden q)))
  | CNaN => Err ValueError
  end.

Definition int_repr (z : Z) : string := NilZero.string_of_int (Z.to_int z).

(** ** Slide records *)

Record SlideData : Type := mk_SlideData {
  slide_num : Z;
  content : list (string * string);
  images : list (Z * string)
}.

Definition content_get := @Py.dict_get string string String.eqb.
Definition content_set := @Py.dict_set string string String.eqb.
Definition images_get := @Py.dict_get Z string Z.eqb.
Definition images_set := @Py.dict_set Z string Z.eqb.
Definition slides_get := @Py.dict_get Z SlideData Z.eqb.
Definition slides_set := @Py.dict_set Z SlideData Z.eqb.

Section DataIndex.

(** The files present when the table is loaded. *)
Variable disk : filesystem.

(** [str(x)] of a float, as Python prints it. *)
Variable float_repr : Q -> string.

(** [str(c)] *)
Definition py_str (c : cell) : string :=
  match c with
  | CStr s => s
  | CInt z => int_repr z
  | CFloat q => float_repr q
  | CNaN => "nan"
  end.

(** [str(row['value']) if not pd.isnull(row['value']) else ''] *)
Definition value_of (r : row) : string :=
  if negb (isnull (row_value r)) then py_str (row_value r) else "".

(** The body of the loop of [load_slide_data] on one row. *)
Definition load_row (slide_data_dict : list (Z * SlideData)) (r : row)
  : result (list (Z * SlideData)) :=
  match py_int (row_slide_num r) with
  | Err e => Err e
  | Ok n =>
      let placeholder := row_placeholder r in
      let value := value_of r in
      let d :=
        if negb (Py.dict_mem Z.eqb slide_data_dict n)
        then slides_set slide_data_dict n (mk_SlideData n [] [])
        else slide_data_dict in
      match slides_get d n with
      | None => Err KeyError
      | Some sd =>
          if isfile disk value && Py.isdigit placeholder then
            match Py.int_of_str placeholder with
            | None => Err ValueError
            | Some placeholder_idx =>
                let sd1 := mk_SlideData (slide_num sd) (content sd)
                             (images_set (images sd) placeholder_idx value) in
                Ok (slides_set d n
                      (mk_SlideData (slide_num sd1)
                         (content_set (content sd1) placeholder value)
                         (images sd1)))
            end
          else
            Ok (slides_set d n
                  (mk_SlideData (slide_num sd)
                     (content_set (content sd) placeholder value)
                     (images sd)))
      end
  end.

Fixpoint load_rows (slide_data_dict : list (Z * SlideData)) (rows : list row)
  : result (list (Z * SlideData)) :=
  match rows with
  | [] => Ok slide_data_dict
  | r :: rest =>
      match load_row slide_data_dict r with
      | Ok d => load_rows d rest
      | Err e => Err e
      end
  end.

(** [load_slide_data], from the rows of the data frame on. *)
Definition load_slide_data (rows : list row) : result (list SlideData) :=
  match load_rows [] rows with
  | Ok d => Ok (Py.dict_values d)
  | Err e => Err e
  end.

End DataIndex.

(** ** The presentation object model *)

(** A run of text with its inline hyperlink: [run_link] is what
    [run.hyperlink.address] returns, [None] when the run has no link. *)
Record run : Type := mk_run {
  run_text : string;
  run_link : option string
}.

(** A paragraph, taken as its runs (line breaks and fields left aside). *)
Definition paragraph : Type := list run.

(** [shape.click_action]: no action, a plain hyperlink (with its address, if
    any), or another kind of action (slide jump, macro, ...). *)
Inductive action : Type :=
| NoAction
| HyperlinkAction (address : option string)
| OtherAction.

(** A shape of a slide, by its capabilities: [text_frame] is [Some] when
    [has_text_frame], [table] (rows of cells of paragraphs) when [has_table],
    [placeholder_idx] when [is_placeholder]; [image] is the file of a picture
    shape. *)
Record shape : Type := mk_shape {
  shape_left : Z;
  shape_top : Z;
  shape_width : Z;
  shape_height : Z;
  text_frame : option (list paragraph);
  table : option (list (list (list paragraph)));
  placeholder_idx : option Z;
  click_action : action;
  image : option string
}.

(** The picture that [slide.shapes.add_picture] builds. *)
Definition picture (image_path : string) (left top width height : Z) : shape :=
  mk_shape left top width height None None None NoAction (Some image_path).

(** [paragraph.text], [text_frame.text] and [shape.text] *)
Definition paragraph_text (p : paragraph) : string :=
  String.concat "" (map run_text p).

Definition frame_text (tf : list paragraph) : string :=
  Py.join (String (ascii_of_nat 10) "") (map paragraph_text tf).

(** What the setter of [run.text] stores: python-pptx writes every control
    character below U+0020, the tab and the line feed apart, as [_xHHHH_]
    with its code in four upper-case hexadecimal digits; the getter returns
    the stored text as it is. *)
Definition is_control (c : ascii) : bool :=
  let n := nat_of_ascii c in ((n <=? 8) || ((11 <=? n) && (n <=? 31)))%nat.

Definition hex_digit (n : nat) : ascii :=
  if (n <? 10)%nat then ascii_of_nat (48 + n) else ascii_of_nat (55 + n).

Definition escape_char (c : ascii) : string :=
  let n := nat_of_ascii c in
  if is_control c
  then ("_x00"
          ++ String (hex_digit (n / 16)) (String (hex_digit (n mod 16)) "")
          ++ "_")%string
  else String c "".

Fixpoint escape (s : string) : string :=
  match s with
  | EmptyString => EmptyString
  | String c tl => (escape_char c ++ escape tl)%string
  end.

(** [x.address = url] on a hyperlink: python-pptx drops the old link and
    creates a new one only for a non-empty [url]. *)
Definition new_address (url : string) : option string :=
  if String.eqb url "" then None else Some url.

(** The truth value of [run.hyperlink.address]. *)
Definition has_address (r : run) : bool :=
  match run_link r with
  | Some a => negb (String.eqb a "")
  | None => false
  end.

Definition with_text_frame (sh : shape) (tf : option (list paragraph)) : shape :=
  mk_shape (shape_left sh) (shape_top sh) (shape_width sh) (shape_height sh)
    tf (table sh) (placeholder_idx sh) (click_action sh) (image sh).

Definition with_table (sh : shape) (t : option (list (list (list paragraph))))
  : shape :=
  mk_shape (shape_left sh) (shape_top sh) (shape_width sh) (shape_height sh)
    (text_frame sh) t (placeholder_idx sh) (click_action sh) (image sh).

Definition with_click_action (sh : shape) (a : action) : shape :=
  mk_shape (shape_left sh) (shape_top sh) (shape_width sh) (shape_height sh)
    (text_frame sh) (table sh) (placeholder_idx sh) a (image sh).

Fixpoint update_nth {A : Type} (n : nat) (f : A -> A) (l : list A) : list A :=
  match l, n with
  | [], _ => []
  | x :: tl, O => f x :: tl
  | x :: tl, S k => x :: update_nth k f tl
  end.

(** ** The slide while one of its shapes is processed *)

(** The calls of the two helper methods, in order: a log kept beside the
    model to state how often and with what they are called. *)
Inductive call : Type :=
| CallHyperlink
| CallImageSwap (image_path : string).

(** The Python variables [slide] and [shape] of the methods below.
    [st_shape] is the object [shape] refers to, [st_attached] tells whether
    its element is still in the shape tree, [st_before] and [st_after] are
    the shapes of the tree before and after it. *)
Record slide_state : Type := mk_state {
  st_before : list shape;
  st_shape : shape;
  st_attached : bool;
  st_after : list shape;
  st_calls : list call
}.

(** [slide.shapes], in tree order. *)
Definition slide_shapes (st : slide_state) : list shape :=
  st_before st ++ (if st_attached st then [st_shape st] else []) ++ st_after st.

Definition M (A : Type) : Type := slide_state -> result (A * slide_state).

Definition ret {A : Type} (a : A) : M A := fun st => Ok (a, st).

Definition bind {A B : Type} (c : M A) (k : A -> M B) : M B :=
  fun st =>
    match c st with
    | Ok (a, st') => k a st'
    | Err e => Err e
    end.

Definition raise {A : Type} (e : pyerr) : M A := fun _ => Err e.

Declare Scope py_scope.
Delimit Scope py_scope with py.
Notation "x <- c ;; k" := (bind c (fun x => k))
  (at level 61, c at next level, right associativity) : py_scope.
Notation "c ;; k" := (bind c (fun _ => k))
  (at level 61, right associativity) : py_scope.
Local Open Scope py_scope.

Definition get_shape : M shape := fun st => Ok (st_shape st, st).

Definition set_shape (sh : shape) : M unit :=
  fun st =>
    Ok (tt, mk_state (st_before st) sh (st_attached st) (st_after st) (st_calls st)).

Definition log_call (c : call) : M unit :=
  fun st =>
    Ok (tt, mk_state (st_before st) (st_shape st) (st_attached st) (st_after st)
              (st_calls st ++ [c])).

Fixpoint for_each {A : Type} (l : list A) (body : A -> M unit) : M unit :=
  match l with
  | [] => ret tt
  | x :: rest => body x ;; for_each rest body
  end.

(** [pattern.sub(repl, s)] for a replacement function with effects: the
    function is called on the matches from left to right. *)
Fixpoint sub_pieces (repl : Re.re_match -> M string) (ps : list Re.piece)
  : M string :=
  match ps with
  | [] => ret ""
  | Re.Lit c :: tl => rest <- sub_pieces repl tl ;; ret (String c rest)
  | Re.Tok m :: tl =>
      r <- repl m ;; rest <- sub_pieces repl tl ;; ret (r ++ rest)%string
  end.

Definition sub_with (repl : Re.re_match -> M string) (s : string) : M string :=
  sub_pieces repl (Re.pieces s).

(** ** The methods of [PowerPointModifier] *)

Definition image_extensions : list string := [".png"; ".jpg"; ".jpeg"; ".gif"].

(** [any(placeholder.lower().endswith(ext) for ext in self.image_extensions)] *)
Definition is_image_name (placeholder : string) : bool :=
  existsb (fun ext => Py.endswith (Py.lower placeholder) ext) image_extensions.

Section Engine.

(** The files present while the slides are filled. *)
Variable disk : filesystem.

(** [slide.shapes.add_picture(image_path, left, top, width, height)]: the
    file is opened and decoded, the picture goes last in the shape tree. *)
Definition add_picture (image_path : string) (left top width height : Z)
  : M unit :=
  fun st =>
    match disk image_path with
    | NoFile => Err FileNotFoundError
    | OtherFile => Err UnidentifiedImageError
    | ImageFile =>
        Ok (tt, mk_state (st_before st) (st_shape st) (st_attached st)
                  (st_after st ++ [picture image_path left top width height])
                  (st_calls st))
    end.

(** [shape.element.getparent().remove(shape.element)]: a detached element
    has no parent, and [None.remove] raises [AttributeError]. *)
Definition remove_shape : M unit :=
  fun st =>
    if st_attached st
    then Ok (tt, mk_state (st_before st) (st_shape st) false (st_after st)
                   (st_calls st))
    else Err AttributeError.

Definition _replace_image_placeholder (image_path : string) : M unit :=
  log_call (CallImageSwap image_path) ;;
  sh <- get_shape ;;
  let left := shape_left sh in
  let top := shape_top sh in
  let width := shape_width sh in
  let height := shape_height sh in
  add_picture image_path left top width height ;;
  remove_shape.

Definition _replace_text_or_image (m : Re.re_match)
    (content : list (string * string)) : M string :=
  let placeholder := Py.strip (Re.group1 m) in
  if is_image_name placeholder then
    let image_path :=
      Py.dict_get_default String.eqb content placeholder (Re.group0 m) in
    if isfile disk image_path then
      _replace_image_placeholder image_path ;; ret ""
    else ret (Re.group0 m)
  else ret (Py.dict_get_default String.eqb content placeholder (Re.group0 m)).

Definition _replace_text (m : Re.re_match) (content : list (string * string))
  : string :=
  let placeholder := Py.strip (Re.group1 m) in
  Py.dict_get_default String.eqb content placeholder (Re.group0 m).

(** The two assignments of [_identify_and_replace_hyperlink] under
    [if content_key in text]. *)
Definition relink_run (new_link : string) (r : run) : run :=
  if has_address r then mk_run (run_text r) (new_address new_link) else r.

Definition relink_action (new_link : string) (a : action) : action :=
  match a with
  | HyperlinkAction _ =>
      match new_address new_link with
      | Some url => HyperlinkAction (Some url)
      | None => NoAction
      end
  | other => other
  end.

Definition relink (new_link : string) (sh : shape) : shape :=
  let sh1 := with_click_action sh (relink_action new_link (click_action sh)) in
  with_text_frame sh1
    (option_map (map (map (relink_run new_link))) (text_frame sh1)).

(** The loop over [content.items()], with [text] read once before it. *)
Fixpoint relink_items (text : string) (items : list (string * string))
    (sh : shape) : shape :=
  match items with
  | [] => sh
  | (content_key, new_link) :: rest =>
      relink_items text rest
        (if Py.contains content_key text then relink new_link sh else sh)
  end.

Definition _identify_and_replace_hyperlink (content : list (string * string))
  : M unit :=
  log_call CallHyperlink ;;
  sh <- get_shape ;;
  match text_frame sh with
  | None => raise AttributeError
  | Some tf => set_shape (relink_items (frame_text tf) content sh)
  end.

(** The positions (paragraph, run) of a text frame, in reading order. *)
Fixpoint run_positions (i : nat) (tf : list paragraph) : list (nat * nat) :=
  match tf with
  | [] => []
  | p :: rest => map (pair i) (seq 0 (length p)) ++ run_positions (S i) rest
  end.

(** [run.text] and [run.text = new_text] for the run at a position of the
    text frame of [shape]. *)
Definition run_text_at (i j : nat) : M string :=
  sh <- get_shape ;;
  match text_frame sh with
  | None => raise AttributeError
  | Some tf =>
      match nth_error (nth i tf []) j with
      | Some r => ret (run_text r)
      | None => raise AttributeError
      end
  end.

(** [run.text = new_text]: the setter stores the escaped text. *)
Definition set_run_text (i j : nat) (new_text : string) : M unit :=
  sh <- get_shape ;;
  set_shape
    (with_text_frame sh
       (option_map
          (update_nth i
             (update_nth j (fun r => mk_run (escape new_text) (run_link r))))
          (text_frame sh))).

Definition _replace_text_placeholders (content : list (string * string))
  : M unit :=
  sh <- get_shape ;;
  match text_frame sh with
  | None => raise AttributeError
  | Some tf =>
      for_each (run_positions 0 tf) (fun '(i, j) =>
        text <- run_text_at i j ;;
        new_text <- sub_with (fun m => _replace_text_or_image m content) text ;;
        set_run_text i j new_text ;;
        _identify_and_replace_hyperlink content)
  end.

Definition sub_run (content : list (string * string)) (r : run) : run :=
  mk_run (escape (Re.sub (fun m => _replace_text m content) (run_text r)))
    (run_link r).

Definition _replace_table_placeholder (content : list (string * string))
  : M unit :=
  sh <- get_shape ;;
  match table sh with
  | None => raise AttributeError
  | Some rows =>
      set_shape
        (with_table sh (Some (map (map (map (map (sub_run content)))) rows)))
  end.

(** The body of [for shape in slide.shapes] in [replace_placeholders]. *)
Definition visit_shape (data : SlideData) : M unit :=
  sh <- get_shape ;;
  (match text_frame sh with
   | Some _ => _replace_text_placeholders (content data)
   | None => ret tt
   end) ;;
  sh <- get_shape ;;
  (match table sh with
   | Some _ => _replace_table_placeholder (content data)
   | None => ret tt
   end) ;;
  sh <- get_shape ;;
  match placeholder_idx sh with
  | Some idx =>
      match images_get (images data) idx with
      | Some image_path => _replace_image_placeholder image_path
      | None => ret tt
      end
  | None => ret tt
  end.

(** [for shape in slide.shapes]: the [n] shapes that were in the tree when
    the loop began are visited in order; a picture appended meanwhile has
    no text frame, no table and no placeholder index, so that visiting it
    would do nothing. *)
Fixpoint walk_shapes (data : SlideData) (n : nat)
    (before after : list shape) (calls : list call)
  : result (list shape * list call) :=
  match n, after with
  | S k, sh :: rest =>
      match visit_shape data (mk_state before sh true rest calls) with
      | Ok (_, st) =>
          walk_shapes data k
            (st_before st ++ (if st_attached st then [st_shape st] else []))
            (st_after st) (st_calls st)
      | Err e => Err e
      end
  | _, _ => Ok (before ++ after, calls)
  end.

(** [for data in self.slide_data: if slide_index + 1 == data.slide_num] *)
Fixpoint walk_data (slide_index : nat) (slide_data : list SlideData)
    (slide : list shape) (calls : list call)
  : result (list shape * list call) :=
  match slide_data with
  | [] => Ok (slide, calls)
  | data :: rest =>
      if Z.eqb (Z.of_nat slide_index + 1) (slide_num data) then
        match walk_shapes data (length slide) [] slide calls with
        | Ok (slide', calls') => walk_data slide_index rest slide' calls'
        | Err e => Err e
        end
      else walk_data slide_index rest slide calls
  end.

(** [for slide_index, slide in enumerate(self.prs.slides)] *)
Fixpoint walk_slides (slide_index : nat) (slide_data : list SlideData)
    (slides : list (list shape)) (calls : list call)
  : result (list (list shape) * list call) :=
  match slides with
  | [] => Ok ([], calls)
  | slide :: rest =>
      match walk_data slide_index slide_data slide calls with
      | Ok (slide', calls') =>
          match walk_slides (S slide_index) slide_data rest calls' with
          | Ok (rest', calls'') => Ok (slide' :: rest', calls'')
          | Err e => Err e
          end
      | Err e => Err e
      end
  end.

End Engine.

(** The object [self]: the presentation (slides of shapes) and the slide
    records. *)
Record PowerPointModifier : Type := mk_modifier {
  prs : list (list shape);
  slide_data : list SlideData
}.


(** [replace_placeholders]: the new [self] and the calls made. *)
Definition replace_placeholders (disk : filesystem) (self : PowerPointModifier)
  : result (PowerPointModifier * list call) :=
  match walk_slides disk 0 (slide_data self) (prs self) [] with
  | Ok (slides, calls) => Ok (mk_modifier slides (slide_data self), calls)
  | Err e => Err e
  end.

(** ** Notions used in the statements *)

(** The literal-text rule for one token: the mapped string, or the token
    itself when its trimmed name is no key of [content]. *)
Definition resolve (content : list (string * string)) (m : Re.re_match) : string :=
  match content_get content (Py.strip (Re.group1 m)) with
  | Some v => v
  | None => Re.group0 m
  end.

(** One turn of the loop of [_replace_text_placeholders], at run [j] of
    paragraph [i]: the text of the run is read, its tokens are resolved, the
    new text is assigned to the run, and the hyperlink rewriter is called. *)
Definition run_step (disk : filesystem) (content : list (string * string))
    (i j : nat) : M unit :=
  text <- run_text_at i j ;;
  new_text <- sub_with (fun m => _replace_text_or_image disk m content) text ;;
  set_run_text i j new_text ;;
  _identify_and_replace_hyperlink content.

(** The text holds no control character that the setter of [run.text]
    escapes. *)
Definition no_control (s : string) : bool :=
  Py.all_chars (fun c => negb (is_control c)) s.

(** The number of calls of [_identify_and_replace_hyperlink] in a log. *)
Fixpoint hyperlink_calls (calls : list call) : nat :=
  match calls with
  | [] => 0
  | CallHyperlink :: rest => S (hyperlink_calls rest)
  | CallImageSwap _ :: rest => hyperlink_calls rest
  end.

(** The image swaps recorded in a log. *)
Fixpoint image_swaps (calls : list call) : list string :=
  match calls with
  | [] => []
  | CallHyperlink :: rest => image_swaps rest
  | CallImageSwap p :: rest => p :: image_swaps rest
  end.

(** The values of the keys of [content] that occur in [text], in the order
    of [content.items()]. *)
Definition matching_links (text : string) (content : list (string * string))
  : list string :=
  map snd (filter (fun kv => Py.contains (fst kv) text) content).

(** The distinct elements of [l] that are not in [seen], each at its first
    occurrence. *)
Fixpoint first_seen (seen l : list Z) : list Z :=
  match l with
  | [] => []
  | x :: tl =>
      if existsb (Z.eqb x) seen then first_seen seen tl
      else x :: first_seen (seen ++ [x]) tl
  end.

(** The record of slide [n] in the dictionary built by [load_slide_data],
    or the fresh record that the first row of the slide creates. *)
Definition record_at (d : list (Z * SlideData)) (n : Z) : SlideData :=
  match slides_get d n with
  | Some sd => sd
  | None => mk_SlideData n [] []
  end.

(** The row binds position [k] of slide [n] to its value: what makes
    [load_slide_data] write [images[k]]. *)
Definition binds_image (disk : filesystem) (float_repr : Q -> string)
    (n k : Z) (r : row) : Prop :=
  py_int (row_slide_num r) = Ok n
  /\ isfile disk (value_of float_repr r) = true
  /\ Py.isdigit (row_placeholder r) = true
  /\ Py.int_of_str (row_placeholder r) = Some k.

(** The row is for slide [n] and placeholder [p]: what makes
    [load_slide_data] write [content[p]] of that slide. *)
Definition binds_content (n : Z) (p : string) (r : row) : Prop :=
  py_int (row_slide_num r) = Ok n /\ row_placeholder r = p.

(** Every record of the dictionary sits under its own slide number. *)
Definition keyed (d : list (Z * SlideData)) : Prop :=
  Forall (fun e => slide_num (snd e) = fst e) d.

(** Every image binding of a record was written by one of the rows [done],
    whose placeholder is then a key of the content of the record. *)
Definition sourced (disk : filesystem) (float_repr : Q -> string)
    (done : list row) (e : Z * SlideData) : Prop :=
  forall k v,
    images_get (images (snd e)) k = Some v ->
    exists r,
      In r done
      /\ binds_image disk float_repr (fst e) k r
      /\ value_of float_repr r = v
      /\ Py.dict_mem String.eqb (content (snd e)) (row_placeholder r) = true.

(** The texts of the runs of a text frame, paragraph by paragraph. *)
Definition frame_texts (tf : list paragraph) : list (list string) :=
  map (map run_text) tf.

(** [r'] is [r] up to the address of its link, and is [r] itself when [r]
    had no address. *)
Definition relinked (r r' : run) : Prop :=
  run_text r' = run_text r
  /\ (has_address r = false -> r' = r)
  /\ (has_address r' = true -> has_address r = true).

(** The two shapes have the same position, size, placeholder index and
    picture file. *)
Definition same_box (sh sh' : shape) : Prop :=
  shape_left sh' = shape_left sh
  /\ shape_top sh' = shape_top sh
  /\ shape_width sh' = shape_width sh
  /\ shape_height sh' = shape_height sh
  /\ placeholder_idx sh' = placeholder_idx sh
  /\ image sh' = image sh.

(** From [st] to [st'] the shapes before the processed one are untouched
    and the processed one keeps its box; and either it stays where it is in
    the tree with nothing added and no swap logged, or it was attached, is
    now detached, and one picture of file [p] with its box was appended,
    with the one swap logged. *)
Definition kept_or_swapped (st st' : slide_state) : Prop :=
  st_before st' = st_before st
  /\ same_box (st_shape st) (st_shape st')
  /\ ((st_attached st' = st_attached st
       /\ st_after st' = st_after st
       /\ image_swaps (st_calls st') = image_swaps (st_calls st))
      \/ (st_attached st = true
          /\ st_attached st' = false
          /\ exists p,
               st_after st'
               = st_after st
                 ++ [picture p (shape_left (st_shape st)) (shape_top (st_shape st))
                       (shape_width (st_shape st)) (shape_height (st_shape st))]
               /\ image_swaps (st_calls st')
                  = image_swaps (st_calls st) ++ [p])).

(** A method keeps to [kept_or_swapped] whenever it returns. *)
Definition respects {A : Type} (c : M A) : Prop :=
  forall st a st', c st = Ok (a, st') -> kept_or_swapped st st'.

(** The token names an image and the path it resolves to is a file: the
    case in which [_replace_text_or_image] calls the image swap. *)
Definition file_token (disk : filesystem) (content : list (string * string))
    (m : Re.re_match) : Prop :=
  is_image_name (Py.strip (Re.group1 m)) = true
  /\ isfile disk
       (Py.dict_get_default String.eqb content (Py.strip (Re.group1 m))
          (Re.group0 m)) = true.


(** What a token of a text run becomes when no image is swapped for it: a
    token that names an image stays as it is, any other one follows the
    literal-text rule. *)
Definition literal (content : list (string * string)) (m : Re.re_match)
  : string :=
  if is_image_name (Py.strip (Re.group1 m)) then Re.group0 m
  else resolve content m.

(** From [st] to [st'] nothing but the text frame and the click action of
    the processed shape has changed, and the hyperlink rewriter was called
    [n] times and nothing else. *)
Definition text_only (n : nat) (st st' : slide_state) : Prop :=
  st_before st' = st_before st
  /\ st_attached st' = st_attached st
  /\ st_after st' = st_after st
  /\ st_calls st' = st_calls st ++ repeat CallHyperlink n
  /\ same_box (st_shape st) (st_shape st')
  /\ table (st_shape st') = table (st_shape st).

(** The distinct names of [l] that are not in [seen], each at its first
    occurrence. *)
Fixpoint first_names (seen l : list string) : list string :=
  match l with
  | [] => []
  | x :: tl =>
      if existsb (String.eqb x) seen then first_names seen tl
      else x :: first_names (seen ++ [x]) tl
  end.

(** The placeholders of the rows of slide [n], in the order of the rows. *)
Definition placeholders_of (n : Z) (rows : list row) : list string :=
  map row_placeholder
    (filter (fun r => match py_int (row_slide_num r) with
                      | Ok k => Z.eqb k n
                      | Err _ => false
                      end) rows).

(** ** Sample inputs *)

(** A disk whose only file is the picture [/tmp/exists.png]. *)
Definition exists_png : filesystem :=
  fun p => if String.eqb p "/tmp/exists.png" then ImageFile else NoFile.

(** A disk whose only file is a picture named ["{{photo.png}}"]. *)
Definition braced_png : filesystem :=
  fun p => if String.eqb p "{{photo.png}}" then ImageFile else NoFile.

(** A disk whose only file, [/tmp/notes.png], is no picture. *)
Definition notes_file : filesystem :=
  fun p => if String.eqb p "/tmp/notes.png" then OtherFile else NoFile.

Definition photo_token : Re.re_match := Re.mk_match "{{photo.png}}" "photo.png".
Definition name_token : Re.re_match := Re.mk_match "{{ name }}" " name ".

(** A disk with the two pictures [/tmp/a.png] and [/tmp/b.png]. *)
Definition two_pictures : filesystem :=
  fun p =>
    if String.eqb p "/tmp/a.png" || String.eqb p "/tmp/b.png"
    then ImageFile else NoFile.

(** A disk with the three pictures [/tmp/a.png], [/tmp/b.png] and
    [/tmp/c.png]. *)
Definition three_pictures : filesystem :=
  fun p =>
    if String.eqb p "/tmp/a.png" || String.eqb p "/tmp/b.png"
       || String.eqb p "/tmp/c.png"
    then ImageFile else NoFile.

(** For tables without floats in the [value] column, where the way a float
    prints plays no part. *)
Definition no_floats : Q -> string := fun _ => "".

(** A text box with one paragraph. *)
Definition text_box (runs : list run) (a : action) : shape :=
  mk_shape 10 20 300 40 (Some [runs]) None None a None.

(** A graphic frame with a table of one cell. *)
Definition table_frame (runs : list run) : shape :=
  mk_shape 10 20 300 40 None (Some [[[runs]]]) None NoAction None.

(** A slide with the one shape [sh], about to be processed. *)
Definition alone (sh : shape) : slide_state := mk_state [] sh true [] [].

(** ** Lemmas on strings and substitution *)

Lemma concat_empty_cons (x : string) (xs : list string) :
  String.concat "" (x :: xs) = (x ++ String.concat "" xs)%string.
Proof.
  destruct xs as [|y ys]; simpl.
  - induction x as [|c x IH]; simpl; [reflexivity | now rewrite <- IH].
  - reflexivity.
Qed.

Lemma resolve_replace_text (content : list (string * string)) (m : Re.re_match) :
  _replace_text m content = resolve content m.
Proof. reflexivity. Qed.

(** A replacement function that leaves the state alone on every token of
    the string makes [sub_with] the pure [Re.sub]. *)
Lemma sub_pieces_pure (repl : Re.re_match -> M string)
    (f : Re.re_match -> string) (st : slide_state) (ps : list Re.piece) :
  (forall m, In (Re.Tok m) ps -> repl m st = Ok (f m, st)) ->
  sub_pieces repl ps st = Ok (String.concat "" (map (Re.emit f) ps), st).
Proof.
  induction ps as [|p ps IH]; intros Hpure.
  - reflexivity.
  - assert (Htl : forall m, In (Re.Tok m) ps -> repl m st = Ok (f m, st))
      by (intros m Hm; apply Hpure; now right).
    specialize (IH Htl).
    destruct p as [c|m]; cbn [sub_pieces map]; rewrite concat_empty_cons;
      unfold bind.
    + now rewrite IH.
    + rewrite (Hpure m (or_introl eq_refl)). now rewrite IH.
Qed.

Lemma literal_token_step (disk : filesystem) (m : Re.re_match)
    (content : list (string * string)) (st : slide_state) :
  is_image_name (Py.strip (Re.group1 m)) = false ->
  _replace_text_or_image disk m content st = Ok (resolve content m, st).
Proof.
  intros Hname. unfold _replace_text_or_image. rewrite Hname. reflexivity.
Qed.

(** ** Strings *)

Lemma append_empty_r (s : string) : (s ++ "")%string = s.
Proof. induction s as [|c s IH]; cbn; [reflexivity | now rewrite IH]. Qed.

Lemma append_assoc (a b c : string) :
  ((a ++ b) ++ c)%string = (a ++ (b ++ c))%string.
Proof. induction a as [|x a IH]; cbn; [reflexivity | now rewrite IH]. Qed.

Lemma length_append (a b : string) :
  String.length (a ++ b) = String.length a + String.length b.
Proof. induction a as [|x a IH]; cbn; [reflexivity | now rewrite IH]. Qed.

Lemma prefix_iff (a s : string) :
  prefix a s = true <-> exists rest, s = (a ++ rest)%string.
Proof.
  revert s. induction a as [|x a IH]; intros s.
  - split; [intros _; now exists s | intros _; now destruct s].
  - destruct s as [|y s]; cbn [prefix append].
    + split; [discriminate | intros [rest H]; discriminate].
    + destruct (ascii_dec x y) as [->|Hxy].
      * rewrite IH. split; intros [rest H]; exists rest.
        -- now rewrite H.
        -- now injection H.
      * split; [discriminate|]. intros [rest H]. injection H as Hx _.
        now subst.
Qed.

Lemma contains_eq (key text : string) :
  Py.contains key text
  = if prefix key text then true
    else match text with
         | EmptyString => false
         | String _ tl => Py.contains key tl
         end.
Proof. destruct text; reflexivity. Qed.

Lemma endswith_eq (s suffix : string) :
  Py.endswith s suffix
  = if String.eqb s suffix then true
    else match s with
         | EmptyString => false
         | String _ tl => Py.endswith tl suffix
         end.
Proof. destruct s; reflexivity. Qed.

(** [key in text] holds exactly when [text] is some text, [key], some text. *)
Lemma contains_iff (key text : string) :
  Py.contains key text = true
  <-> exists before after, text = (before ++ key ++ after)%string.
Proof.
  induction text as [|c text IH]; rewrite contains_eq.
  - destruct (prefix key "") eqn:Hp.
    + apply prefix_iff in Hp. destruct Hp as [rest Hrest].
      split; [intros _; now exists "", rest | reflexivity].
    + split; [discriminate|]. intros [before [after H]].
      destruct before; cbn [append] in H; [|discriminate].
      assert (Hp' : prefix key "" = true) by (apply prefix_iff; now exists after).
      congruence.
  - destruct (prefix key (String c text)) eqn:Hp.
    + apply prefix_iff in Hp. destruct Hp as [rest Hrest].
      split; [intros _; now exists "", rest | reflexivity].
    + rewrite IH. split; intros [before [after H]].
      * exists (String c before), after. cbn [append]. now rewrite H.
      * destruct before as [|x before]; cbn [append] in H.
        -- assert (Hp' : prefix key (String c text) = true)
             by (apply prefix_iff; now exists after).
           congruence.
        -- injection H as _ H. now exists before, after.
Qed.

(** [s.endswith(suffix)] holds exactly when [s] is some text and [suffix]. *)
Lemma endswith_iff (s suffix : string) :
  Py.endswith s suffix = true <-> exists stem, s = (stem ++ suffix)%string.
Proof.
  induction s as [|c s IH]; rewrite endswith_eq.
  - destruct (String.eqb_spec "" suffix) as [<-|Hne].
    + split; [intros _; now exists "" | reflexivity].
    + split; [discriminate|]. intros [stem H].
      destruct stem; cbn [append] in H; [congruence | discriminate].
  - destruct (String.eqb_spec (String c s) suffix) as [<-|Hne].
    + split; [intros _; now exists "" | reflexivity].
    + rewrite IH. split; intros [stem H].
      * exists (String c stem). cbn [append]. now rewrite H.
      * destruct stem as [|x stem]; cbn [append] in H; [congruence|].
        injection H as _ H. now exists stem.
Qed.

(** ** The token pattern *)

Lemma find_close_split (s inner : string) :
  Re.find_close s = Some inner ->
  (exists rest, s = (inner ++ "}}" ++ rest)%string)
  /\ Py.contains "}}" inner = false.
Proof.
  revert inner. induction s as [|c s IH]; intros inner; [discriminate|].
  cbn [Re.find_close].
  destruct (prefix "}}" (String c s)) eqn:Hp.
  - intros [= <-]. apply prefix_iff in Hp. split; [exact Hp | reflexivity].
  - destruct (Re.find_close s) as [inner'|] eqn:Hs; [|discriminate].
    intros [= <-]. destruct (IH inner' eq_refl) as [[rest Hrest] Hnone].
    split; [exists rest; cbn [append]; now rewrite Hrest|].
    rewrite contains_eq, Hnone.
    destruct (prefix "}}" (String c inner')) eqn:Hp'; [|reflexivity].
    apply prefix_iff in Hp'. destruct Hp' as [rest' Hrest'].
    assert (Hp'' : prefix "}}" (String c s) = true).
    { apply prefix_iff. subst s.
      exists (rest' ++ "}}" ++ rest)%string.
      change (String c (inner' ++ "}}" ++ rest))
        with (String c inner' ++ "}}" ++ rest)%string.
      rewrite Hrest'. now rewrite append_assoc. }
    congruence.
Qed.

Lemma match_at_split (s : string) (m : Re.re_match) :
  Re.match_at s = Some m ->
  Re.group0 m = ("{{" ++ Re.group1 m ++ "}}")%string
  /\ Py.contains "}}" (Re.group1 m) = false
  /\ exists rest, s = (Re.group0 m ++ rest)%string.
Proof.
  unfold Re.match_at.
  destruct s as [|c1 [|c2 s]]; try discriminate;
    [destruct c1 as [[] [] [] [] [] [] [] []]; discriminate|].
  destruct (ascii_dec c1 "{") as [->|H1];
    [|destruct c1 as [[] [] [] [] [] [] [] []]; try discriminate; contradiction].
  destruct (ascii_dec c2 "{") as [->|H2];
    [|destruct c2 as [[] [] [] [] [] [] [] []]; try discriminate; contradiction].
  destruct (Re.find_close s) as [inner|] eqn:Hclose; [|discriminate].
  intros [= <-]. cbn [Re.group0 Re.group1].
  destruct (find_close_split s inner Hclose) as [[rest Hrest] Hnone].
  split; [reflexivity|]. split; [exact Hnone|].
  exists rest. cbn. rewrite Hrest. now rewrite append_assoc.
Qed.

(** Passing the characters of a match leads to the text behind it. *)
Lemma scan_skip (a rest : string) :
  Re.scan (String.length a) (a ++ rest) = Re.scan 0 rest.
Proof. induction a as [|c a IH]; cbn; [now destruct rest | exact IH]. Qed.

Lemma scan_match (s : string) (m : Re.re_match) :
  Re.match_at s = Some m ->
  exists rest,
    s = (Re.group0 m ++ rest)%string
    /\ Re.scan 0 s = Re.Tok m :: Re.scan 0 rest.
Proof.
  intros Hm. destruct (match_at_split s m Hm) as [Hg [_ [rest Hrest]]].
  exists rest. split; [exact Hrest|].
  destruct s as [|c s]; [discriminate|].
  cbn [Re.scan]. rewrite Hm. f_equal.
  rewrite Hg in Hrest. cbn in Hrest. injection Hrest as _ Hs.
  rewrite Hg. cbn [String.length append]. rewrite Nat.sub_succ, Nat.sub_0_r.
  rewrite Hs. apply (scan_skip (String "{" (Re.group1 m ++ "}}")) rest).
Qed.

(** Induction on a text along its pieces: a character outside any token, or
    a token, followed by the pieces of the text behind. *)
Lemma pieces_ind (P : string -> Prop) :
  P "" ->
  (forall c s,
     Re.pieces (String c s) = Re.Lit c :: Re.pieces s ->
     Re.match_at (String c s) = None ->
     P s -> P (String c s)) ->
  (forall m rest,
     Re.pieces (Re.group0 m ++ rest) = Re.Tok m :: Re.pieces rest ->
     Re.group0 m = ("{{" ++ Re.group1 m ++ "}}")%string ->
     Py.contains "}}" (Re.group1 m) = false ->
     P rest -> P (Re.group0 m ++ rest)%string) ->
  forall s, P s.
Proof.
  intros Hnil Hlit Htok s.
  assert (H : forall n s, String.length s <= n -> P s).
  { induction n as [|n IH]; intros s0 Hlen.
    - destruct s0; [exact Hnil | cbn in Hlen; lia].
    - destruct s0 as [|c s0]; [exact Hnil|].
      destruct (Re.match_at (String c s0)) as [m|] eqn:Hm.
      + destruct (match_at_split _ m Hm) as [Hg [Hnone _]].
        destruct (scan_match _ m Hm) as [rest [Hrest Hscan]].
        rewrite Hrest. apply Htok; [now rewrite <- Hrest | exact Hg | exact Hnone|].
        apply IH. assert (Hl := f_equal String.length Hrest).
        rewrite length_append, Hg in Hl. cbn in Hl, Hlen. lia.
      + apply Hlit; [unfold Re.pieces; cbn [Re.scan]; now rewrite Hm | exact Hm|].
        apply IH. cbn in Hlen. lia. }
  now apply (H (String.length s)).
Qed.

(** ** A text that begins with plain text and a token *)

Lemma pieces_plain_prefix (pre s : string) :
  Py.contains "{" pre = false ->
  Re.pieces (pre ++ s)
  = map Re.Lit (list_ascii_of_string pre) ++ Re.pieces s.
Proof.
  induction pre as [|c pre IH]; intros Hno; [reflexivity|].
  rewrite contains_eq in Hno.
  destruct (prefix "{" (String c pre)) eqn:Hp; [discriminate|].
  unfold Re.pieces in *. cbn [append list_ascii_of_string map app Re.scan].
  assert (Hm : Re.match_at (String c (pre ++ s)) = None).
  { unfold Re.match_at. cbn [prefix] in Hp.
    destruct (ascii_dec "{" c) as [<-|Hc]; [now destruct pre|].
    destruct c as [[] [] [] [] [] [] [] []]; try reflexivity.
    now destruct Hc. }
  rewrite Hm. f_equal. now apply IH.
Qed.

Lemma find_close_cons (c : ascii) (x y : string) :
  prefix "}" (String c x) = false ->
  Re.find_close (String c y) = option_map (String c) (Re.find_close y).
Proof.
  intros Hp. cbn [Re.find_close].
  destruct (prefix "}}" (String c y)) eqn:Hpp; [|reflexivity].
  exfalso. cbn [prefix] in Hp, Hpp.
  destruct (ascii_dec "}" c); [now destruct x | discriminate].
Qed.

Lemma find_close_plain (name rest : string) :
  Py.contains "}" name = false ->
  Re.find_close (name ++ "}}" ++ rest) = Some name.
Proof.
  induction name as [|c name IH]; intros Hno; [now destruct rest|].
  rewrite contains_eq in Hno.
  destruct (prefix "}" (String c name)) eqn:Hp; [discriminate|].
  change (String c name ++ "}}" ++ rest)%string
    with (String c (name ++ "}}" ++ rest)).
  now rewrite (find_close_cons c name _ Hp), IH.
Qed.

Lemma append_inv_head (a s t : string) :
  (a ++ s)%string = (a ++ t)%string -> s = t.
Proof. induction a as [|c a IH]; cbn; [trivial | intros [= H]; now apply IH]. Qed.

Lemma concat_lits (f : Re.re_match -> string) (pre : string) (ps : list Re.piece) :
  String.concat "" (map (Re.emit f) (map Re.Lit (list_ascii_of_string pre) ++ ps))
  = (pre ++ String.concat "" (map (Re.emit f) ps))%string.
Proof.
  induction pre as [|c pre IH]; [reflexivity|].
  cbn [list_ascii_of_string map app Re.emit].
  rewrite concat_empty_cons, IH. reflexivity.
Qed.

(** The pieces of a text that begins with plain text and a token. *)
Lemma pieces_by_parts (pre name post : string) :
  Py.contains "{" pre = false ->
  Py.contains "}" name = false ->
  Re.pieces (pre ++ "{{" ++ name ++ "}}" ++ post)
  = map Re.Lit (list_ascii_of_string pre)
      ++ Re.Tok (Re.mk_match ("{{" ++ name ++ "}}") name) :: Re.pieces post.
Proof.
  intros Hpre Hname. rewrite (pieces_plain_prefix pre _ Hpre). f_equal.
  assert (Hm : Re.match_at ("{{" ++ name ++ "}}" ++ post)
               = Some (Re.mk_match ("{{" ++ name ++ "}}") name)).
  { change ("{{" ++ name ++ "}}" ++ post)%string
      with (String "{" (String "{" (name ++ "}}" ++ post))).
    unfold Re.match_at. cbv beta iota.
    now rewrite (find_close_plain name post Hname). }
  destruct (scan_match _ _ Hm) as [rest [Hrest Hscan]].
  unfold Re.pieces. rewrite Hscan. cbn [Re.group0] in Hrest.
  rewrite !append_assoc in Hrest. cbn [append] in Hrest.
  injection Hrest as Hrest. apply append_inv_head in Hrest.
  cbn [append] in Hrest. injection Hrest as <-.
  reflexivity.
Qed.

(** ** Text tokens *)

(** What [sub_with] makes of plain text, a token and the text behind, when
    the token is resolved without touching the slide. *)
Lemma sub_with_by_parts (repl : Re.re_match -> M string)
    (f : Re.re_match -> string) (st : slide_state) (pre name post : string) :
  Py.contains "{" pre = false ->
  Py.contains "}" name = false ->
  repl (Re.mk_match ("{{" ++ name ++ "}}") name) st
  = Ok (f (Re.mk_match ("{{" ++ name ++ "}}") name), st) ->
  (forall m, In (Re.Tok m) (Re.pieces post) -> repl m st = Ok (f m, st)) ->
  sub_with repl (pre ++ "{{" ++ name ++ "}}" ++ post) st
  = Ok ((pre ++ f (Re.mk_match ("{{" ++ name ++ "}}") name) ++ Re.sub f post)%string,
        st).
Proof.
  intros Hpre Hname Htok Hpost. unfold sub_with.
  rewrite (pieces_by_parts pre name post Hpre Hname).
  rewrite (sub_pieces_pure repl f).
  - rewrite concat_lits. cbn [map Re.emit]. now rewrite concat_empty_cons.
  - intros m Hin. apply in_app_or in Hin. destruct Hin as [Hin|[Hin|Hin]].
    + apply in_map_iff in Hin. now destruct Hin as [c [Hc _]].
    + injection Hin as <-. exact Htok.
    + now apply Hpost.
Qed.

(** C1. A token of a text run whose trimmed name does not end with an image
    extension is replaced by the string mapped to the name, or by itself,
    braces included, when the name is no key of [content], and the slide is
    left as it was. So the new text of a run that is plain text, such a
    token [{{name}}] and more text is the plain text, the string mapped to
    the trimmed [name] (or the token) and the substitution of the rest; a
    run all of whose tokens are such gets the literal substitution of its
    text; with an empty [content] the run text ["Hi {{missing}}"] stays as
    it is, and with ["name"] mapped to ["Alice"] the run
    ["Hello {{ name }}, {{missing}}!"] becomes
    ["Hello Alice, {{missing}}!"], also as the text frame of its shape. *)
Theorem literal_token_substitution (disk : filesystem)
    (content : list (string * string)) (st : slide_state) :
  (forall m, is_image_name (Py.strip (Re.group1 m)) = false ->
     _replace_text_or_image disk m content st
     = Ok (match content_get content (Py.strip (Re.group1 m)) with
           | Some v => v
           | None => Re.group0 m
           end, st))
  /\ (forall pre name post,
        Py.contains "{" pre = false ->
        Py.contains "}" name = false ->
        is_image_name (Py.strip name) = false ->
        (forall m, In (Re.Tok m) (Re.pieces post) ->
           is_image_name (Py.strip (Re.group1 m)) = false) ->
        sub_with (fun m => _replace_text_or_image disk m content)
          (pre ++ "{{" ++ name ++ "}}" ++ post) st
        = Ok ((pre
               ++ match content_get content (Py.strip name) with
                  | Some v => v
                  | None => "{{" ++ name ++ "}}"
                  end
               ++ Re.sub (resolve content) post)%string, st))
  /\ (forall text,
        (forall m, In (Re.Tok m) (Re.pieces text) ->
           is_image_name (Py.strip (Re.group1 m)) = false) ->
        sub_with (fun m => _replace_text_or_image disk m content) text st
        = Ok (Re.sub (resolve content) text, st))
  /\ sub_with (fun m => _replace_text_or_image disk m []) "Hi {{missing}}" st
     = Ok ("Hi {{missing}}", st)
  /\ sub_with (fun m => _replace_text_or_image disk m [("name", "Alice")])
       "Hello {{ name }}, {{missing}}!" st
     = Ok ("Hello Alice, {{missing}}!", st)
  /\ _replace_text_placeholders disk [("name", "Alice")]
       (alone (text_box [mk_run "Hello {{ name }}, {{missing}}!" None] NoAction))
     = Ok (tt, mk_state []
                 (text_box [mk_run "Hello Alice, {{missing}}!" None] NoAction)
                 true [] [CallHyperlink]).
Proof.
  split; [|split; [|split; [|split; [|split]]]].
  - intros m Hname. now apply literal_token_step.
  - intros pre name post Hpre Hname Himg Hpost.
    apply (sub_with_by_parts _ (resolve content) st pre name post Hpre Hname).
    + now apply literal_token_step.
    + intros m Hm. apply literal_token_step. now apply Hpost.
  - intros text Htoks. unfold sub_with, Re.sub.
    apply sub_pieces_pure. intros m Hm.
    apply literal_token_step. now apply Htoks.
  - reflexivity.
  - reflexivity.
  - reflexivity.
Qed.

Lemma literal_token_substitution_witness :
  sub_with (fun m => _replace_text_or_image exists_png m [("name", "Alice")])
    ("Dear " ++ "{{" ++ " name " ++ "}}" ++ ", hello {{missing}}")
    (alone (text_box [mk_run "Dear {{ name }}, hello {{missing}}" None] NoAction))
  = Ok ("Dear Alice, hello {{missing}}",
        alone (text_box [mk_run "Dear {{ name }}, hello {{missing}}" None] NoAction)).
Proof.
  apply (proj1 (proj2 (literal_token_substitution exists_png [("name", "Alice")]
                         (alone (text_box
                                   [mk_run "Dear {{ name }}, hello {{missing}}" None]
                                   NoAction))))
           "Dear " " name " ", hello {{missing}}").
  - reflexivity.
  - reflexivity.
  - reflexivity.
  - intros m Hm. vm_compute in Hm.
    repeat (destruct Hm as [Hm|Hm];
            [try discriminate Hm; injection Hm as <-; reflexivity|]).
    destruct Hm.
Defined.

(** ** The image swap *)

Lemma image_swap_result (disk : filesystem) (image_path : string)
    (st : slide_state) :
  _replace_image_placeholder disk image_path st
  = match disk image_path with
    | NoFile => Err FileNotFoundError
    | OtherFile => Err UnidentifiedImageError
    | ImageFile =>
        if st_attached st then
          Ok (tt, mk_state (st_before st) (st_shape st) false
                    (st_after st
                     ++ [picture image_path
                           (shape_left (st_shape st)) (shape_top (st_shape st))
                           (shape_width (st_shape st)) (shape_height (st_shape st))])
                    (st_calls st ++ [CallImageSwap image_path]))
        else Err AttributeError
    end.
Proof.
  unfold _replace_image_placeholder, bind, log_call, get_shape, add_picture,
    remove_shape; cbn.
  destruct (disk image_path); reflexivity.
Qed.

Lemma image_swap_ok (disk : filesystem) (image_path : string)
    (st st' : slide_state) :
  _replace_image_placeholder disk image_path st = Ok (tt, st') ->
  st' = mk_state (st_before st) (st_shape st) false
          (st_after st
           ++ [picture image_path
                 (shape_left (st_shape st)) (shape_top (st_shape st))
                 (shape_width (st_shape st)) (shape_height (st_shape st))])
          (st_calls st ++ [CallImageSwap image_path]).
Proof.
  rewrite image_swap_result.
  destruct (disk image_path); try discriminate.
  destruct (st_attached st); try discriminate.
  now intros [= <-].
Qed.

(** C3. Called on a shape that is in the shape tree of the slide, with the
    path of a picture file, the image swap succeeds; afterwards the tree is
    the old one without the shape, followed by one new picture, which has
    the left, top, width and height of the shape: the picture goes last,
    whatever the place of the shape was. *)
Theorem image_swap_keeps_geometry (disk : filesystem) (image_path : string)
    (st : slide_state) :
  st_attached st = true ->
  disk image_path = ImageFile ->
  exists st' pic,
    _replace_image_placeholder disk image_path st = Ok (tt, st')
    /\ slide_shapes st = st_before st ++ [st_shape st] ++ st_after st
    /\ slide_shapes st' = st_before st ++ st_after st ++ [pic]
    /\ image pic = Some image_path
    /\ shape_left pic = shape_left (st_shape st)
    /\ shape_top pic = shape_top (st_shape st)
    /\ shape_width pic = shape_width (st_shape st)
    /\ shape_height pic = shape_height (st_shape st)
    /\ st_attached st' = false.
Proof.
  intros Hatt Hfile.
  eexists. eexists.
  rewrite image_swap_result, Hfile, Hatt.
  split; [reflexivity|].
  unfold slide_shapes; rewrite Hatt; cbn.
  repeat split; reflexivity.
Qed.

Lemma image_swap_keeps_geometry_witness :
  exists st' pic,
    _replace_image_placeholder exists_png "/tmp/exists.png"
      (mk_state [table_frame []] (text_box [mk_run "{{photo.png}}" None] NoAction)
         true [table_frame []] [])
    = Ok (tt, st')
    /\ slide_shapes
         (mk_state [table_frame []]
            (text_box [mk_run "{{photo.png}}" None] NoAction)
            true [table_frame []] [])
       = [table_frame []] ++ [text_box [mk_run "{{photo.png}}" None] NoAction]
         ++ [table_frame []]
    /\ slide_shapes st' = [table_frame []] ++ [table_frame []] ++ [pic]
    /\ image pic = Some "/tmp/exists.png"
    /\ shape_left pic = 10%Z
    /\ shape_top pic = 20%Z
    /\ shape_width pic = 300%Z
    /\ shape_height pic = 40%Z
    /\ st_attached st' = false.
Proof.
  apply (image_swap_keeps_geometry exists_png "/tmp/exists.png"
           (mk_state [table_frame []]
              (text_box [mk_run "{{photo.png}}" None] NoAction)
              true [table_frame []] [])); reflexivity.
Defined.

(** ** Image tokens *)

(** What a token that names an image gives, by the file its path leads to. *)
Lemma image_token_result (disk : filesystem) (m : Re.re_match)
    (content : list (string * string)) (st : slide_state) :
  is_image_name (Py.strip (Re.group1 m)) = true ->
  _replace_text_or_image disk m content st
  = let image_path :=
      match content_get content (Py.strip (Re.group1 m)) with
      | Some v => v
      | None => Re.group0 m
      end in
    match disk image_path with
    | NoFile => Ok (Re.group0 m, st)
    | OtherFile => Err UnidentifiedImageError
    | ImageFile =>
        if st_attached st then
          Ok ("", mk_state (st_before st) (st_shape st) false
                    (st_after st
                     ++ [picture image_path
                           (shape_left (st_shape st)) (shape_top (st_shape st))
                           (shape_width (st_shape st)) (shape_height (st_shape st))])
                    (st_calls st ++ [CallImageSwap image_path]))
        else Err AttributeError
    end.
Proof.
  intros Hname. unfold _replace_text_or_image. rewrite Hname.
  unfold Py.dict_get_default, content_get, isfile.
  destruct (Py.dict_get String.eqb content (Py.strip (Re.group1 m))) as [v|];
    cbv zeta.
  - destruct (disk v) eqn:Hd; [reflexivity| |].
    + unfold bind. rewrite image_swap_result, Hd.
      now destruct (st_attached st).
    + unfold bind. now rewrite image_swap_result, Hd.
  - destruct (disk (Re.group0 m)) eqn:Hd; [reflexivity| |].
    + unfold bind. rewrite image_swap_result, Hd.
      now destruct (st_attached st).
    + unfold bind. now rewrite image_swap_result, Hd.
Qed.

(** C2, as the code has it. For a token of a text run whose trimmed name
    ends, whatever the case of its letters, with .png, .jpg, .jpeg or .gif,
    the path is the string mapped to the name, or the text of the token when
    the name is no key. If the path is no file, the token gives back its own text, no error
    is raised and the slide, its shapes included, is as before. If the path
    is a file, the image swap is called on the shape that owns the run, and
    what the token gives is what the swap allows: the empty string, with
    the picture appended and the swap logged, when the file is a picture
    and the shape is still in the tree of the slide; [UnidentifiedImageError]
    when the file is no picture; [AttributeError] when the shape has left
    the tree. On a disk with the picture [/tmp/exists.png], the run
    ["Logo: {{ Photo.PNG }}"] with ["Photo.PNG"] mapped to that file becomes
    ["Logo: "] and the shape is swapped; with ["photo.png"] mapped to a path
    that is no file the run ["Logo: {{photo.png}}"] and the slide stay as
    they are. Names such as ["a.png"], ["b.JPG"], ["c.Jpeg"] and ["d.gif"]
    are image names, ["notes.txt"], ["png"] and ["e.png.bak"] are not. *)
Theorem image_token_dispatch :
  (forall (disk : filesystem) (m : Re.re_match)
          (content : list (string * string)) (st : slide_state),
     let placeholder := Py.strip (Re.group1 m) in
     let image_path :=
       match content_get content placeholder with
       | Some v => v
       | None => Re.group0 m
       end in
     is_image_name placeholder = true ->
     (isfile disk image_path = false ->
        _replace_text_or_image disk m content st = Ok (Re.group0 m, st))
     /\ (isfile disk image_path = true ->
         _replace_text_or_image disk m content st
         = (_replace_image_placeholder disk image_path ;; ret "") st)
     /\ (disk image_path = ImageFile -> st_attached st = true ->
         _replace_text_or_image disk m content st
         = Ok ("", mk_state (st_before st) (st_shape st) false
                     (st_after st
                      ++ [picture image_path
                            (shape_left (st_shape st)) (shape_top (st_shape st))
                            (shape_width (st_shape st))
                            (shape_height (st_shape st))])
                     (st_calls st ++ [CallImageSwap image_path])))
     /\ (disk image_path = OtherFile ->
         _replace_text_or_image disk m content st = Err UnidentifiedImageError)
     /\ (disk image_path = ImageFile -> st_attached st = false ->
         _replace_text_or_image disk m content st = Err AttributeError))
  /\ sub_with
       (fun m => _replace_text_or_image exists_png m
                   [("Photo.PNG", "/tmp/exists.png")])
       "Logo: {{ Photo.PNG }}"
       (alone (text_box [mk_run "Logo: {{ Photo.PNG }}" None] NoAction))
     = Ok ("Logo: ",
           mk_state [] (text_box [mk_run "Logo: {{ Photo.PNG }}" None] NoAction)
             false [picture "/tmp/exists.png" 10 20 300 40]
             [CallImageSwap "/tmp/exists.png"])
  /\ sub_with
       (fun m => _replace_text_or_image exists_png m
                   [("photo.png", "/tmp/missing.png")])
       "Logo: {{photo.png}}"
       (alone (text_box [mk_run "Logo: {{photo.png}}" None] NoAction))
     = Ok ("Logo: {{photo.png}}",
           alone (text_box [mk_run "Logo: {{photo.png}}" None] NoAction))
  /\ map is_image_name
       ["a.png"; "b.JPG"; "c.Jpeg"; "d.gif"; "notes.txt"; "png"; "e.png.bak"]
     = [true; true; true; true; false; false; false].
Proof.
  split; [|repeat split; reflexivity].
  intros disk m content st placeholder image_path Hname.
  pose proof (image_token_result disk m content st Hname) as Hres.
  cbv zeta in Hres. fold placeholder in Hres. fold image_path in Hres.
  repeat split.
  - unfold isfile. intros Hfile. rewrite Hres.
    now destruct (disk image_path).
  - intros Hfile. unfold _replace_text_or_image. fold placeholder.
    rewrite Hname. unfold Py.dict_get_default.
    change (Py.dict_get String.eqb content placeholder)
      with (content_get content placeholder).
    fold image_path. now rewrite Hfile.
  - intros Hd Hatt. now rewrite Hres, Hd, Hatt.
  - intros Hd. now rewrite Hres, Hd.
  - intros Hd Hatt. now rewrite Hres, Hd, Hatt.
Qed.

Lemma image_token_dispatch_witness :
  _replace_text_or_image exists_png photo_token [("photo.png", "/tmp/exists.png")]
    (alone (text_box [mk_run "{{photo.png}}" None] NoAction))
  = Ok ("", mk_state [] (text_box [mk_run "{{photo.png}}" None] NoAction) false
              [picture "/tmp/exists.png" 10 20 300 40]
              [CallImageSwap "/tmp/exists.png"]).
Proof.
  apply (proj1 (proj2 (proj2 (proj1 image_token_dispatch exists_png photo_token
                                [("photo.png", "/tmp/exists.png")]
                                (alone (text_box [mk_run "{{photo.png}}" None]
                                          NoAction))
                                eq_refl)))); reflexivity.
Defined.

(** C2 as stated fails: a path that is a file does not suffice for the
    token to give the empty string. With ["photo.png"] mapped to [/tmp/notes.png], a file that is no
    picture, the path is a file and the substitution of the run
    ["{{photo.png}}"] raises; and with two tokens for the picture
    [/tmp/exists.png] in one run the second swap finds the shape gone and
    the substitution raises: in both cases there is no text for the run. *)
Lemma existing_path_can_give_no_text :
  (isfile notes_file "/tmp/notes.png" = true
   /\ sub_with
        (fun m => _replace_text_or_image notes_file m
                    [("photo.png", "/tmp/notes.png")])
        "{{photo.png}}"
        (alone (text_box [mk_run "{{photo.png}}" None] NoAction))
      = Err UnidentifiedImageError)
  /\ (isfile exists_png "/tmp/exists.png" = true
      /\ sub_with
           (fun m => _replace_text_or_image exists_png m
                       [("photo.png", "/tmp/exists.png")])
           "{{photo.png}} {{photo.png}}"
           (alone (text_box [mk_run "{{photo.png}} {{photo.png}}" None] NoAction))
         = Err AttributeError).
Proof. repeat split; reflexivity. Qed.

(** C10. For a token of a text run whose trimmed name ends with an image
    extension and is no key of [content], the path tried is the text of the
    token itself, braces included: the image swap is called with it when a
    file of that name exists, and only then; otherwise the token is given
    back. So a name that [content] lacks does not suffice for the token to
    stay: with a picture file named ["{{photo.png}}"] and an empty [content]
    the shape is swapped for that picture. *)
Theorem absent_image_token_uses_raw_text :
  (forall (disk : filesystem) (m : Re.re_match)
          (content : list (string * string)) (st : slide_state),
     is_image_name (Py.strip (Re.group1 m)) = true ->
     content_get content (Py.strip (Re.group1 m)) = None ->
     (isfile disk (Re.group0 m) = true ->
        _replace_text_or_image disk m content st
        = (_replace_image_placeholder disk (Re.group0 m) ;; ret "") st)
     /\ (isfile disk (Re.group0 m) = false ->
         _replace_text_or_image disk m content st = Ok (Re.group0 m, st))
     /\ (forall r st',
           _replace_text_or_image disk m content st = Ok (r, st') ->
           (isfile disk (Re.group0 m) = true
            <-> st_calls st' = st_calls st ++ [CallImageSwap (Re.group0 m)])))
  /\ sub_with (fun m => _replace_text_or_image braced_png m []) "{{photo.png}}"
       (alone (text_box [mk_run "{{photo.png}}" None] NoAction))
     = Ok ("", mk_state [] (text_box [mk_run "{{photo.png}}" None] NoAction) false
                 [picture "{{photo.png}}" 10 20 300 40]
                 [CallImageSwap "{{photo.png}}"]).
Proof.
  split; [|reflexivity].
  intros disk m content st Hname Habsent.
  unfold _replace_text_or_image, Py.dict_get_default.
  unfold content_get in Habsent. rewrite Hname, Habsent.
  split; [|split].
  - now intros ->.
  - now intros ->.
  - intros r st'. destruct (isfile disk (Re.group0 m)) eqn:Hfile.
    + unfold bind.
      destruct (_replace_image_placeholder disk (Re.group0 m) st)
        as [[[] st1]|e] eqn:Hswap; [|discriminate].
      intros [= _ <-]. apply image_swap_ok in Hswap. subst st1. cbn.
      split; intros _; reflexivity.
    + intros [= _ <-]. split; [discriminate|].
      intros Hcalls.
      assert (Hlen : length (st_calls st)
                     = length (st_calls st ++ [CallImageSwap (Re.group0 m)]))
        by now rewrite <- Hcalls.
      rewrite length_app in Hlen. cbn in Hlen. lia.
Qed.

Lemma absent_image_token_uses_raw_text_witness :
  _replace_text_or_image exists_png photo_token []
    (alone (text_box [mk_run "{{photo.png}}" None] NoAction))
  = Ok ("{{photo.png}}", alone (text_box [mk_run "{{photo.png}}" None] NoAction)).
Proof.
  apply (proj1 (proj2 (proj1 absent_image_token_uses_raw_text exists_png
                         photo_token []
                         (alone (text_box [mk_run "{{photo.png}}" None] NoAction))
                         eq_refl eq_refl))).
  reflexivity.
Defined.

(** ** Table cells *)

(** The setter of [run.text] stores a text without control characters as it
    is. *)
Lemma escape_plain (s : string) : no_control s = true -> escape s = s.
Proof.
  unfold no_control. induction s as [|c s IH]; [reflexivity|].
  cbn [Py.all_chars escape]. intros H. apply andb_prop in H as [Hc Hs].
  unfold escape_char. apply negb_true_iff in Hc. rewrite Hc.
  cbn [append]. now rewrite IH.
Qed.

(** What [pattern.sub] makes of plain text, a token and the text behind. *)
Lemma sub_by_parts (f : Re.re_match -> string) (pre name post : string) :
  Py.contains "{" pre = false ->
  Py.contains "}" name = false ->
  Re.sub f (pre ++ "{{" ++ name ++ "}}" ++ post)
  = (pre ++ f (Re.mk_match ("{{" ++ name ++ "}}") name) ++ Re.sub f post)%string.
Proof.
  intros Hpre Hname. unfold Re.sub.
  rewrite (pieces_by_parts pre name post Hpre Hname), concat_lits.
  cbn [map Re.emit]. now rewrite concat_empty_cons.
Qed.

(** C8. A token in a cell of a table is resolved by the literal-text rule
    alone, whatever its name and whatever files exist: it is replaced by the
    value mapped to its trimmed name, or left as it is when the name is no
    key. So the new text of a run that is plain text, a token [{{name}}] and
    more text is the plain text, the string mapped to the trimmed [name] (or
    the token) and the substitution of the rest. The pass over a table
    assigns to every run of every cell its new text, which the setter of
    [run.text] stores in the escaped form that the file has for control
    characters, that is, as it is when it holds none; and it does nothing
    else: the shapes around, the place of the shape in the tree and the log
    of calls are as before, so that no image swap takes place and no picture
    is added; and for a shape that has a table only, the visit of the shape
    is that pass. With ["photo.png"]
    mapped to the existing picture [/tmp/exists.png] and ["sum"] to ["42"],
    the cell ["Total: {{ sum }} {{photo.png}} {{other}}"] becomes
    ["Total: 42 /tmp/exists.png {{other}}"] and the slide has no picture
    more. *)
Theorem table_tokens_are_literal :
  (forall (mapping : list (string * string)) (st : slide_state)
          (rows : list (list (list paragraph))),
     table (st_shape st) = Some rows ->
     (forall m,
        _replace_text m mapping
        = match content_get mapping (Py.strip (Re.group1 m)) with
          | Some v => v
          | None => Re.group0 m
          end)
     /\ (forall pre name post,
           Py.contains "{" pre = false ->
           Py.contains "}" name = false ->
           Re.sub (fun m => _replace_text m mapping)
             (pre ++ "{{" ++ name ++ "}}" ++ post)
           = (pre
              ++ match content_get mapping (Py.strip name) with
                 | Some v => v
                 | None => "{{" ++ name ++ "}}"
                 end
              ++ Re.sub (fun m => _replace_text m mapping) post)%string)
     /\ _replace_table_placeholder mapping st
        = Ok (tt,
              mk_state (st_before st)
                (with_table (st_shape st)
                   (Some (map (map (map (map (fun r =>
                      mk_run
                        (escape (Re.sub (fun m => _replace_text m mapping)
                                   (run_text r)))
                        (run_link r)))))
                      rows)))
                (st_attached st) (st_after st) (st_calls st))
     /\ (forall s, no_control s = true -> escape s = s)
     /\ (forall disk data,
           content data = mapping ->
           text_frame (st_shape st) = None ->
           placeholder_idx (st_shape st) = None ->
           visit_shape disk data st = _replace_table_placeholder mapping st))
  /\ visit_shape exists_png
       (mk_SlideData 1 [("sum", "42"); ("photo.png", "/tmp/exists.png")] [])
       (alone (table_frame
                 [mk_run "Total: {{ sum }} {{photo.png}} {{other}}" None]))
     = Ok (tt, alone (table_frame
                        [mk_run "Total: 42 /tmp/exists.png {{other}}" None])).
Proof.
  split; [|reflexivity].
  intros mapping st rows Htable. split; [|split; [|split; [|split]]].
  - intros m. reflexivity.
  - intros pre name post Hpre Hname.
    now rewrite (sub_by_parts _ pre name post Hpre Hname).
  - unfold _replace_table_placeholder, bind, get_shape. rewrite Htable.
    reflexivity.
  - exact escape_plain.
  - intros disk data Hcontent Hframe Hidx.
    unfold visit_shape, _replace_table_placeholder, bind, get_shape, ret.
    rewrite Hframe, Htable, Hcontent. cbn. rewrite Htable. cbn.
    rewrite Hidx. reflexivity.
Qed.

Lemma table_tokens_are_literal_witness :
  _replace_table_placeholder [("photo.png", "/tmp/exists.png")]
    (alone (table_frame [mk_run "See {{photo.png}} here" None]))
  = Ok (tt, alone (table_frame [mk_run "See /tmp/exists.png here" None])).
Proof.
  rewrite (proj1 (proj2 (proj2 (proj1 table_tokens_are_literal
                                  [("photo.png", "/tmp/exists.png")]
                                  (alone (table_frame
                                            [mk_run "See {{photo.png}} here" None]))
                                  [[[[mk_run "See {{photo.png}} here" None]]]]
                                  eq_refl)))).
  reflexivity.
Defined.

(** ** How often the hyperlinks are rewritten *)

Lemma hyperlink_calls_app (a b : list call) :
  hyperlink_calls (a ++ b) = hyperlink_calls a + hyperlink_calls b.
Proof.
  induction a as [|[|p] a IH]; cbn; [reflexivity | now rewrite IH | exact IH].
Qed.

Lemma token_keeps_hyperlink_calls (disk : filesystem) (m : Re.re_match)
    (content : list (string * string)) (st st' : slide_state) (r : string) :
  _replace_text_or_image disk m content st = Ok (r, st') ->
  hyperlink_calls (st_calls st') = hyperlink_calls (st_calls st).
Proof.
  unfold _replace_text_or_image.
  destruct (is_image_name _); [|now intros [= _ <-]].
  destruct (isfile disk _); [|now intros [= _ <-]].
  unfold bind.
  destruct (_replace_image_placeholder disk _ st) as [[[] st1]|e] eqn:Hswap;
    [|discriminate].
  intros [= _ <-]. apply image_swap_ok in Hswap. subst st1. cbn.
  rewrite hyperlink_calls_app. cbn. lia.
Qed.

Lemma sub_keeps_hyperlink_calls (disk : filesystem)
    (content : list (string * string)) (ps : list Re.piece) :
  forall (st st' : slide_state) (r : string),
    sub_pieces (fun m => _replace_text_or_image disk m content) ps st
    = Ok (r, st') ->
    hyperlink_calls (st_calls st') = hyperlink_calls (st_calls st).
Proof.
  induction ps as [|[c|m] ps IH]; intros st st' r; cbn [sub_pieces]; unfold bind.
  - now intros [= _ <-].
  - destruct (sub_pieces _ ps st) as [[rest st1]|e] eqn:Hrest; [|discriminate].
    intros [= _ <-]. now apply (IH _ _ _ Hrest).
  - destruct (_replace_text_or_image disk m content st) as [[r1 st1]|e] eqn:Htok;
      [|discriminate].
    destruct (sub_pieces _ ps st1) as [[rest st2]|e] eqn:Hrest; [|discriminate].
    intros [= _ <-].
    rewrite (IH _ _ _ Hrest). now apply (token_keeps_hyperlink_calls _ _ _ _ _ _ Htok).
Qed.

(** One turn of the loop over the runs calls the hyperlink rewriter once. *)
Lemma run_step_calls_once (disk : filesystem) (content : list (string * string))
    (i j : nat) (st st' : slide_state) :
  (text <- run_text_at i j ;;
   new_text <- sub_with (fun m => _replace_text_or_image disk m content) text ;;
   set_run_text i j new_text ;;
   _identify_and_replace_hyperlink content) st = Ok (tt, st') ->
  hyperlink_calls (st_calls st') = S (hyperlink_calls (st_calls st)).
Proof.
  unfold bind at 1. unfold run_text_at, bind at 1, get_shape.
  destruct (text_frame (st_shape st)) as [tf|]; [|discriminate].
  destruct (nth_error (nth i tf []) j) as [r|]; [|discriminate].
  unfold ret, bind. unfold sub_with.
  destruct (sub_pieces _ _ st) as [[new_text st1]|e] eqn:Hsub; [|discriminate].
  apply sub_keeps_hyperlink_calls in Hsub.
  unfold set_run_text, bind, get_shape, set_shape. cbn.
  unfold _identify_and_replace_hyperlink, bind, log_call, get_shape. cbn.
  destruct (text_frame (st_shape st1)) as [tf1|]; [|discriminate]. cbn.
  unfold set_shape. cbn. intros [= <-]. cbn.
  rewrite hyperlink_calls_app, Hsub. cbn. lia.
Qed.

Lemma for_each_counts {A : Type} (body : A -> M unit) (l : list A) :
  (forall x st st', body x st = Ok (tt, st') ->
     hyperlink_calls (st_calls st') = S (hyperlink_calls (st_calls st))) ->
  forall st st',
    for_each l body st = Ok (tt, st') ->
    hyperlink_calls (st_calls st') = hyperlink_calls (st_calls st) + length l.
Proof.
  intros Hbody. induction l as [|x l IH]; intros st st'; cbn [for_each].
  - intros [= <-]. cbn. lia.
  - unfold bind. destruct (body x st) as [[[] st1]|e] eqn:Hx; [|discriminate].
    intros Hrest. rewrite (IH _ _ Hrest), (Hbody _ _ _ Hx). cbn. lia.
Qed.

Lemma length_run_positions (tf : list paragraph) (i : nat) :
  length (run_positions i tf) = length (concat tf).
Proof.
  revert i. induction tf as [|p tf IH]; intros i; cbn; [reflexivity|].
  now rewrite !length_app, length_map, length_seq, IH.
Qed.

(** Resolving the tokens of a run leaves the processed shape as it is: an
    image swap touches the tree and the log only. *)
Lemma token_keeps_shape (disk : filesystem) (m : Re.re_match)
    (content : list (string * string)) (st st' : slide_state) (r : string) :
  _replace_text_or_image disk m content st = Ok (r, st') ->
  st_shape st' = st_shape st.
Proof.
  unfold _replace_text_or_image.
  destruct (is_image_name _); [|now intros [= _ <-]].
  destruct (isfile disk _); [|now intros [= _ <-]].
  unfold bind.
  destruct (_replace_image_placeholder disk _ st) as [[[] st1]|e] eqn:Hswap;
    [|discriminate].
  intros [= _ <-]. apply image_swap_ok in Hswap. now subst st1.
Qed.

Lemma sub_keeps_shape (disk : filesystem)
    (content : list (string * string)) (ps : list Re.piece) :
  forall (st st' : slide_state) (r : string),
    sub_pieces (fun m => _replace_text_or_image disk m content) ps st
    = Ok (r, st') ->
    st_shape st' = st_shape st.
Proof.
  induction ps as [|[c|m] ps IH]; intros st st' r; cbn [sub_pieces]; unfold bind.
  - now intros [= _ <-].
  - destruct (sub_pieces _ ps st) as [[rest st1]|e] eqn:Hrest; [|discriminate].
    intros [= _ <-]. now apply (IH _ _ _ Hrest).
  - destruct (_replace_text_or_image disk m content st) as [[r1 st1]|e] eqn:Htok;
      [|discriminate].
    destruct (sub_pieces _ ps st1) as [[rest st2]|e] eqn:Hrest; [|discriminate].
    intros [= _ <-].
    rewrite (IH _ _ _ Hrest). now apply (token_keeps_shape _ _ _ _ _ _ Htok).
Qed.

(** One turn of the loop: the rewriter is called on the slide in which the
    run holds its new text. *)
Lemma run_step_result (disk : filesystem) (content : list (string * string))
    (st st1 : slide_state) (tf : list paragraph) (i j : nat) (r : run)
    (new_text : string) :
  text_frame (st_shape st) = Some tf ->
  nth_error (nth i tf []) j = Some r ->
  sub_with (fun m => _replace_text_or_image disk m content) (run_text r) st
  = Ok (new_text, st1) ->
  st_shape st1 = st_shape st
  /\ run_step disk content i j st
     = _identify_and_replace_hyperlink content
         (mk_state (st_before st1)
            (with_text_frame (st_shape st)
               (Some (update_nth i
                        (update_nth j
                           (fun r0 => mk_run (escape new_text) (run_link r0)))
                        tf)))
            (st_attached st1) (st_after st1) (st_calls st1)).
Proof.
  intros Hframe Hnth Hsub.
  assert (Hshape : st_shape st1 = st_shape st)
    by (unfold sub_with in Hsub; now apply sub_keeps_shape in Hsub).
  split; [exact Hshape|].
  unfold run_step, bind at 1. unfold run_text_at, bind at 1, get_shape.
  rewrite Hframe, Hnth. unfold ret. unfold bind at 1. rewrite Hsub.
  unfold bind at 1. unfold set_run_text, bind at 1, get_shape, set_shape.
  rewrite Hshape, Hframe. reflexivity.
Qed.

(** C6, as the code has it. When the text of a shape is processed, the
    loop takes the runs of its paragraphs one after the other, and a turn
    of the loop replaces the text of its run and then calls the hyperlink
    rewriter, which so reads the shape with the new text of that run. The
    rewriter is therefore called once for every run: as many times as the
    shape has runs, and not at all for a shape without runs. With ["who"]
    mapped to ["Alice"] and ["Alice"] to a URL, the linked run ["{{who}}"]
    gets the URL of the key ["Alice"], which occurs in the new text only. *)
Theorem hyperlink_rewriter_runs_per_run (disk : filesystem)
    (content : list (string * string)) :
  (forall st st' tf,
     text_frame (st_shape st) = Some tf ->
     _replace_text_placeholders disk content st = Ok (tt, st') ->
     hyperlink_calls (st_calls st')
     = hyperlink_calls (st_calls st) + length (concat tf))
  /\ (forall st tf,
        text_frame (st_shape st) = Some tf ->
        _replace_text_placeholders disk content st
        = for_each (run_positions 0 tf)
            (fun '(i, j) => run_step disk content i j) st)
  /\ (forall st st1 tf i j r new_text,
        text_frame (st_shape st) = Some tf ->
        nth_error (nth i tf []) j = Some r ->
        sub_with (fun m => _replace_text_or_image disk m content) (run_text r) st
        = Ok (new_text, st1) ->
        st_shape st1 = st_shape st
        /\ run_step disk content i j st
           = _identify_and_replace_hyperlink content
               (mk_state (st_before st1)
                  (with_text_frame (st_shape st)
                     (Some (update_nth i
                              (update_nth j
                                 (fun r0 =>
                                    mk_run (escape new_text) (run_link r0)))
                              tf)))
                  (st_attached st1) (st_after st1) (st_calls st1)))
  /\ _replace_text_placeholders disk
       [("who", "Alice"); ("Alice", "http://alice.example")]
       (alone (text_box [mk_run "{{who}}" (Some "http://old.example")] NoAction))
     = Ok (tt, mk_state []
                 (text_box [mk_run "Alice" (Some "http://alice.example")] NoAction)
                 true [] [CallHyperlink]).
Proof.
  split; [|split; [|split]].
  - intros st st' tf Hframe.
    unfold _replace_text_placeholders, bind at 1, get_shape.
    rewrite Hframe. intros Hloop.
    rewrite <- (length_run_positions tf 0).
    revert Hloop. apply for_each_counts.
    intros [i j] s s' Hstep. now apply (run_step_calls_once disk content i j).
  - intros st tf Hframe.
    unfold _replace_text_placeholders, bind at 1, get_shape.
    now rewrite Hframe.
  - intros st st1 tf i j r new_text. apply run_step_result.
  - reflexivity.
Qed.

Lemma hyperlink_rewriter_runs_per_run_witness :
  run_step exists_png [("who", "Alice"); ("Alice", "http://alice.example")] 0 1
    (alone (text_box [mk_run "To " None;
                      mk_run "{{who}}" (Some "http://old.example")] NoAction))
  = _identify_and_replace_hyperlink
      [("who", "Alice"); ("Alice", "http://alice.example")]
      (alone (text_box [mk_run "To " None;
                        mk_run "Alice" (Some "http://old.example")] NoAction)).
Proof.
  apply (proj2 (proj1 (proj2 (proj2 (hyperlink_rewriter_runs_per_run exists_png
                                       [("who", "Alice");
                                        ("Alice", "http://alice.example")])))
                  (alone (text_box [mk_run "To " None;
                                    mk_run "{{who}}" (Some "http://old.example")]
                            NoAction))
                  (alone (text_box [mk_run "To " None;
                                    mk_run "{{who}}" (Some "http://old.example")]
                            NoAction))
                  [[mk_run "To " None;
                    mk_run "{{who}}" (Some "http://old.example")]]
                  0 1 (mk_run "{{who}}" (Some "http://old.example")) "Alice"
                  eq_refl eq_refl eq_refl)).
Defined.

(** C6 as stated fails: a text box with two runs has the rewriter called
    twice, one without runs not at all. *)
Lemma hyperlink_rewriter_not_once_per_shape :
  _replace_text_placeholders exists_png [("name", "Alice")]
    (alone (text_box [mk_run "Dear {{ name }}" None; mk_run "," None] NoAction))
  = Ok (tt, mk_state []
              (text_box [mk_run "Dear Alice" None; mk_run "," None] NoAction)
              true [] [CallHyperlink; CallHyperlink])
  /\ hyperlink_calls [CallHyperlink; CallHyperlink] <> 1
  /\ _replace_text_placeholders exists_png [("name", "Alice")]
       (alone (text_box [] NoAction))
     = Ok (tt, alone (text_box [] NoAction)).
Proof.
  split; [reflexivity|]. split; [discriminate | reflexivity].
Qed.

(** ** Rewriting the hyperlinks *)

Lemma relink_items_fold (text : string) (content : list (string * string)) :
  forall sh,
    relink_items text content sh
    = fold_left (fun s v => relink v s) (matching_links text content) sh.
Proof.
  unfold matching_links.
  induction content as [|[k v] content IH]; intros sh; cbn; [reflexivity|].
  rewrite IH. destruct (Py.contains k text); reflexivity.
Qed.

Lemma new_address_nonempty (url : string) :
  url <> "" -> new_address url = Some url.
Proof.
  intros Hurl. unfold new_address.
  destruct (String.eqb_spec url ""); [contradiction | reflexivity].
Qed.

Lemma relink_run_twice (v1 v2 : string) (r : run) :
  v1 <> "" -> relink_run v2 (relink_run v1 r) = relink_run v2 r.
Proof.
  intros Hv1. unfold relink_run.
  destruct (has_address r) eqn:Hr; [|now rewrite Hr].
  rewrite (new_address_nonempty v1 Hv1). unfold has_address at 1. cbn.
  destruct (String.eqb_spec v1 ""); [contradiction | reflexivity].
Qed.

Lemma relink_run_after_empty (v : string) (r : run) :
  relink_run v (relink_run "" r) = relink_run "" r.
Proof.
  unfold relink_run. destruct (has_address r) eqn:Hr; [reflexivity|].
  now rewrite Hr.
Qed.

Lemma relink_action_twice (v1 v2 : string) (a : action) :
  v1 <> "" -> relink_action v2 (relink_action v1 a) = relink_action v2 a.
Proof.
  intros Hv1. destruct a; cbn; try reflexivity.
  now rewrite (new_address_nonempty v1 Hv1).
Qed.

Lemma relink_action_after_empty (v : string) (a : action) :
  relink_action v (relink_action "" a) = relink_action "" a.
Proof. destruct a; reflexivity. Qed.

Lemma map_map_ext_runs (f g h : run -> run) (tf : list paragraph) :
  (forall r, f (g r) = h r) ->
  map (map f) (map (map g) tf) = map (map h) tf.
Proof.
  intros Hfg. rewrite map_map. apply map_ext. intros p.
  rewrite map_map. now apply map_ext.
Qed.

Lemma relink_twice (v1 v2 : string) (sh : shape) :
  v1 <> "" -> relink v2 (relink v1 sh) = relink v2 sh.
Proof.
  intros Hv1. destruct sh as [l t w h tf tb idx a img].
  unfold relink, with_text_frame, with_click_action; cbn.
  rewrite (relink_action_twice v1 v2 a Hv1). f_equal.
  destruct tf as [tf|]; cbn; [|reflexivity].
  f_equal. apply map_map_ext_runs. intros r. now apply relink_run_twice.
Qed.

Lemma relink_after_empty (v : string) (sh : shape) :
  relink v (relink "" sh) = relink "" sh.
Proof.
  destruct sh as [l t w h tf tb idx a img].
  unfold relink, with_text_frame, with_click_action; cbn.
  rewrite (relink_action_after_empty v a). f_equal.
  destruct tf as [tf|]; cbn; [|reflexivity].
  f_equal. apply map_map_ext_runs. intros r. apply relink_run_after_empty.
Qed.

Lemma relinks_after_empty (links : list string) (sh : shape) :
  fold_left (fun s v => relink v s) links (relink "" sh) = relink "" sh.
Proof.
  induction links as [|v links IH]; cbn; [reflexivity|].
  now rewrite relink_after_empty.
Qed.

(** Non-empty addresses applied one after the other leave the last one. *)
Lemma relinks_last (links : list string) :
  links <> [] -> ~ In "" links ->
  forall sh,
    fold_left (fun s v => relink v s) links sh = relink (last links "") sh.
Proof.
  induction links as [|v1 links IH]; intros Hne Hnonempty sh; [contradiction|].
  destruct links as [|v2 links]; [reflexivity|].
  change (fold_left (fun s v => relink v s) (v2 :: links) (relink v1 sh)
          = relink (last (v2 :: links) "") sh).
  rewrite IH; [|discriminate|intros Hin; apply Hnonempty; now right].
  apply relink_twice. intros ->. apply Hnonempty. now left.
Qed.

(** An empty address among them removes the links for good. *)
Lemma relinks_with_empty (links : list string) :
  In "" links ->
  forall sh, fold_left (fun s v => relink v s) links sh = relink "" sh.
Proof.
  induction links as [|v links IH]; intros Hin sh; [contradiction|]. cbn.
  destruct (string_dec v "") as [->|Hv].
  - apply relinks_after_empty.
  - destruct Hin as [Heq|Hin]; [now subst|].
    rewrite (IH Hin). now apply relink_twice.
Qed.

(** C7, as the code has it. The text of the shape is read once; the keys of
    [content] that occur in it as plain substrings are taken in the order of
    [content], and the value of each is assigned to the address of the click
    action of the shape, when that action is a hyperlink, and to the address
    of every run that has one. No key occurring, the shape is untouched.
    When the values of the keys that occur are all non-empty, the addresses
    end as the value of the last of these keys: a hyperlink click action has
    it, every run that had an address has it, and the other runs and any
    other click action are as before. An empty value among them removes the
    links instead, and no later key brings them back: a hyperlink click
    action ends as no action and the runs that had an address end without
    one. *)
Theorem hyperlinks_follow_matching_keys (content : list (string * string))
    (st : slide_state) (tf : list paragraph) :
  text_frame (st_shape st) = Some tf ->
  let links := matching_links (frame_text tf) content in
  exists sh',
    _identify_and_replace_hyperlink content st
    = Ok (tt, mk_state (st_before st) sh' (st_attached st) (st_after st)
                (st_calls st ++ [CallHyperlink]))
    /\ (links = [] -> sh' = st_shape st)
    /\ (links <> [] -> ~ In "" links ->
        click_action sh'
        = match click_action (st_shape st) with
          | HyperlinkAction _ => HyperlinkAction (Some (last links ""))
          | other => other
          end
        /\ text_frame sh'
           = Some (map (map (fun r =>
                      if has_address r
                      then mk_run (run_text r) (Some (last links "")) else r))
                     tf))
    /\ (In "" links ->
        click_action sh'
        = match click_action (st_shape st) with
          | HyperlinkAction _ => NoAction
          | other => other
          end
        /\ text_frame sh'
           = Some (map (map (fun r =>
                      if has_address r then mk_run (run_text r) None else r))
                     tf)).
Proof.
  intros Hframe links.
  exists (relink_items (frame_text tf) content (st_shape st)).
  split.
  - unfold _identify_and_replace_hyperlink, bind, log_call, get_shape. cbn.
    rewrite Hframe. reflexivity.
  - rewrite relink_items_fold. fold links. split; [|split].
    + now intros ->.
    + intros Hne Hnonempty. rewrite (relinks_last links Hne Hnonempty).
      assert (Hlast : last links "" <> "").
      { intros Heq. apply Hnonempty. rewrite <- Heq at 1.
        destruct (exists_last Hne) as [l [v ->]]. rewrite last_last.
        apply in_or_app. right. now left. }
      unfold relink, with_text_frame, with_click_action; cbn.
      rewrite Hframe. cbn. split.
      * destruct (click_action (st_shape st)); cbn; try reflexivity.
        now rewrite (new_address_nonempty _ Hlast).
      * f_equal. apply map_ext. intros p. apply map_ext. intros r.
        unfold relink_run. now rewrite (new_address_nonempty _ Hlast).
    + intros Hin. rewrite (relinks_with_empty links Hin).
      unfold relink, with_text_frame, with_click_action; cbn.
      rewrite Hframe. cbn. split; [|reflexivity].
      destruct (click_action (st_shape st)); reflexivity.
Qed.

Lemma hyperlinks_follow_matching_keys_witness :
  exists sh',
    _identify_and_replace_hyperlink
      [("Report", "http://first"); ("absent", ""); ("port", "http://last")]
      (alone (text_box [mk_run "Report" (Some "http://old"); mk_run "!" None]
                (HyperlinkAction None)))
    = Ok (tt, mk_state [] sh' true [] ([] ++ [CallHyperlink]))
    /\ click_action sh' = HyperlinkAction (Some "http://last")
    /\ text_frame sh'
       = Some [[mk_run "Report" (Some "http://last"); mk_run "!" None]].
Proof.
  destruct (hyperlinks_follow_matching_keys
              [("Report", "http://first"); ("absent", ""); ("port", "http://last")]
              (alone (text_box [mk_run "Report" (Some "http://old"); mk_run "!" None]
                        (HyperlinkAction None)))
              [[mk_run "Report" (Some "http://old"); mk_run "!" None]] eq_refl)
    as [sh' [Hcall [_ [Hlast _]]]].
  exists sh'. split; [exact Hcall|].
  apply Hlast.
  - discriminate.
  - cbn. intros [H|[H|[]]]; discriminate.
Defined.

(** C7 as stated fails: both keys occur in the text, the first has an
    empty value, and the addresses do not end as the value of the last key:
    the links are gone. *)
Lemma last_key_does_not_always_win :
  _identify_and_replace_hyperlink [("a", ""); ("b", "http://new")]
    (alone (text_box [mk_run "ab" (Some "http://old")]
              (HyperlinkAction (Some "http://old"))))
  = Ok (tt, mk_state [] (text_box [mk_run "ab" None] NoAction) true []
              [CallHyperlink])
  /\ matching_links "ab" [("a", ""); ("b", "http://new")] = [""; "http://new"].
Proof. split; reflexivity. Qed.

(** ** Dictionaries *)

Section DictFacts.
Context {K V : Type} (eqb : K -> K -> bool).
Hypothesis eqb_eq : forall a b, eqb a b = true <-> a = b.

Lemma eqb_refl_true (k : K) : eqb k k = true.
Proof. now apply eqb_eq. Qed.

Lemma eqb_neq_false (a b : K) : a <> b -> eqb a b = false.
Proof.
  intros Hab. destruct (eqb a b) eqn:E; [|reflexivity].
  apply eqb_eq in E. contradiction.
Qed.

Lemma dict_get_set_same (d : list (K * V)) (k : K) (v : V) :
  Py.dict_get eqb (Py.dict_set eqb d k v) k = Some v.
Proof.
  induction d as [|[k' v'] d IH]; cbn.
  - now rewrite eqb_refl_true.
  - destruct (eqb k' k) eqn:E; cbn; rewrite E; [reflexivity | exact IH].
Qed.

Lemma dict_get_set_other (d : list (K * V)) (k k' : K) (v : V) :
  k <> k' ->
  Py.dict_get eqb (Py.dict_set eqb d k v) k' = Py.dict_get eqb d k'.
Proof.
  intros Hk. induction d as [|[k0 v0] d IH]; cbn.
  - now rewrite (eqb_neq_false k k' Hk).
  - destruct (eqb k0 k) eqn:E; cbn.
    + apply eqb_eq in E. subst k0. now rewrite (eqb_neq_false k k' Hk).
    + destruct (eqb k0 k'); [reflexivity | exact IH].
Qed.

Lemma dict_set_set (d : list (K * V)) (k : K) (v1 v2 : V) :
  Py.dict_set eqb (Py.dict_set eqb d k v1) k v2 = Py.dict_set eqb d k v2.
Proof.
  induction d as [|[k' v'] d IH]; cbn.
  - now rewrite eqb_refl_true.
  - destruct (eqb k' k) eqn:E; cbn; rewrite E; [reflexivity | now rewrite IH].
Qed.

Lemma dict_keys_set (d : list (K * V)) (k : K) (v : V) :
  Py.dict_keys (Py.dict_set eqb d k v)
  = if Py.dict_mem eqb d k then Py.dict_keys d else Py.dict_keys d ++ [k].
Proof.
  unfold Py.dict_keys, Py.dict_mem.
  induction d as [|[k' v'] d IH]; cbn; [reflexivity|].
  destruct (eqb k' k) eqn:E; cbn; [reflexivity|].
  rewrite IH. now destruct (Py.dict_get eqb d k).
Qed.

Lemma dict_get_in (d : list (K * V)) (k : K) (v : V) :
  Py.dict_get eqb d k = Some v -> In (k, v) d.
Proof.
  induction d as [|[k' v'] d IH]; cbn; [discriminate|].
  destruct (eqb k' k) eqn:E.
  - apply eqb_eq in E. subst k'. intros [= ->]. now left.
  - intros Hget. right. now apply IH.
Qed.

Lemma dict_get_value (d : list (K * V)) (k : K) (v : V) :
  Py.dict_get eqb d k = Some v -> In v (Py.dict_values d).
Proof.
  intros Hget. apply dict_get_in in Hget.
  unfold Py.dict_values. now apply (in_map snd) in Hget.
Qed.

Lemma dict_mem_keys (d : list (K * V)) (k : K) :
  Py.dict_mem eqb d k = true <-> In k (Py.dict_keys d).
Proof.
  unfold Py.dict_mem, Py.dict_keys.
  induction d as [|[k' v'] d IH]; cbn; [split; [discriminate | contradiction]|].
  destruct (eqb k' k) eqn:E.
  - apply eqb_eq in E. split; [now left | reflexivity].
  - rewrite IH. split; [now right|].
    intros [Heq|Hin]; [|exact Hin].
    subst k'. now rewrite eqb_refl_true in E.
Qed.

(** Every entry after [d[k] = v] is an old entry or the new one. *)
Lemma dict_set_entries (P : K * V -> Prop) (d : list (K * V)) (k : K) (v : V) :
  Forall P d -> P (k, v) -> Forall P (Py.dict_set eqb d k v).
Proof.
  intros Hd Hnew. induction Hd as [|[k' v'] d Hkv Hd IH]; cbn.
  - now constructor.
  - destruct (eqb k' k) eqn:E.
    + apply eqb_eq in E. subst k'. now constructor.
    + now constructor.
Qed.

Lemma dict_mem_set (d : list (K * V)) (k k' : K) (v : V) :
  Py.dict_mem eqb d k' = true ->
  Py.dict_mem eqb (Py.dict_set eqb d k v) k' = true.
Proof.
  rewrite !dict_mem_keys, dict_keys_set.
  destruct (Py.dict_mem eqb d k); [trivial|].
  intros Hin. apply in_or_app. now left.
Qed.

End DictFacts.

Lemma Zeqb_eq (a b : Z) : Z.eqb a b = true <-> a = b.
Proof. apply Z.eqb_eq. Qed.

Lemma streqb_eq (a b : string) : String.eqb a b = true <-> a = b.
Proof. apply String.eqb_eq. Qed.

(** ** Loading the slide records *)

Section LoadFacts.
Variable disk : filesystem.
Variable float_repr : Q -> string.

Let value := value_of float_repr.

(** What one row does to the dictionary of records. *)
Lemma load_row_ok (d d' : list (Z * SlideData)) (r : row) :
  load_row disk float_repr d r = Ok d' ->
  exists n im,
    py_int (row_slide_num r) = Ok n
    /\ d' = slides_set d n
              (mk_SlideData (slide_num (record_at d n))
                 (content_set (content (record_at d n))
                    (row_placeholder r) (value r))
                 im)
    /\ ((isfile disk (value r) && Py.isdigit (row_placeholder r) = true
         /\ exists idx, Py.int_of_str (row_placeholder r) = Some idx
              /\ im = images_set (images (record_at d n)) idx (value r))
        \/ (isfile disk (value r) && Py.isdigit (row_placeholder r) = false
            /\ im = images (record_at d n))).
Proof.
  unfold load_row. fold value.
  destruct (py_int (row_slide_num r)) as [n|e]; [|discriminate].
  assert (Hrec : exists d1,
            (if negb (Py.dict_mem Z.eqb d n)
             then slides_set d n (mk_SlideData n [] []) else d) = d1
            /\ slides_get d1 n = Some (record_at d n)
            /\ forall sd, slides_set d1 n sd = slides_set d n sd).
  { eexists. split; [reflexivity|].
    unfold record_at, Py.dict_mem, slides_get, slides_set.
    destruct (Py.dict_get Z.eqb d n) as [sd|] eqn:Hget; cbn.
    - now rewrite Hget.
    - split; [apply (dict_get_set_same Z.eqb Zeqb_eq)|].
      intros sd. apply (dict_set_set Z.eqb Zeqb_eq). }
  destruct Hrec as [d1 [-> [Hget Hset]]]. rewrite Hget.
  destruct (isfile disk (value r) && Py.isdigit (row_placeholder r)) eqn:Hbind.
  - destruct (Py.int_of_str (row_placeholder r)) as [idx|] eqn:Hidx;
      [|discriminate].
    intros [= <-]. exists n. eexists. split; [reflexivity|].
    split; [cbn; apply Hset|]. left. split; [reflexivity|].
    exists idx. split; reflexivity.
  - intros [= <-]. exists n. eexists. split; [reflexivity|].
    split; [apply Hset|]. right. split; reflexivity.
Qed.

(** A row fails only with [ValueError]. *)
Lemma load_row_error (d : list (Z * SlideData)) (r : row) (e : pyerr) :
  load_row disk float_repr d r = Err e -> e = ValueError.
Proof.
  unfold load_row.
  destruct (py_int (row_slide_num r)) as [n|e0] eqn:Hint.
  - destruct (slides_get _ n) as [sd|] eqn:Hget.
    + destruct (isfile disk _ && Py.isdigit _); [|discriminate].
      destruct (Py.int_of_str (row_placeholder r)); [discriminate|].
      now intros [= <-].
    + exfalso. revert Hget. unfold slides_get, slides_set, Py.dict_mem.
      destruct (Py.dict_get Z.eqb d n) as [sd|] eqn:Hd; cbn.
      * now rewrite Hd.
      * now rewrite (dict_get_set_same Z.eqb Zeqb_eq).
  - intros [= <-]. destruct (row_slide_num r); cbn in Hint; try discriminate.
    + destruct (Py.int_of_str s); [discriminate | now injection Hint].
    + now injection Hint.
Qed.

Lemma load_rows_app (d : list (Z * SlideData)) (a b : list row) :
  load_rows disk float_repr d (a ++ b)
  = match load_rows disk float_repr d a with
    | Ok d1 => load_rows disk float_repr d1 b
    | Err e => Err e
    end.
Proof.
  revert d. induction a as [|r a IH]; intros d; cbn; [reflexivity|].
  destruct (load_row disk float_repr d r); [apply IH | reflexivity].
Qed.

Lemma load_rows_error (rows : list row) :
  forall d e, load_rows disk float_repr d rows = Err e -> e = ValueError.
Proof.
  induction rows as [|r rows IH]; intros d e; cbn; [discriminate|].
  destruct (load_row disk float_repr d r) as [d1|e1] eqn:Hrow.
  - apply IH.
  - intros [= <-]. now apply (load_row_error d r).
Qed.


End LoadFacts.

Section LoadInvariants.
Variable disk : filesystem.
Variable float_repr : Q -> string.

Let value := value_of float_repr.

Lemma record_at_slide_num (d : list (Z * SlideData)) (n : Z) :
  keyed d -> slide_num (record_at d n) = n.
Proof.
  intros Hd. unfold record_at.
  destruct (slides_get d n) as [sd|] eqn:Hget; [|reflexivity].
  apply (dict_get_in Z.eqb Zeqb_eq) in Hget.
  unfold keyed in Hd. rewrite Forall_forall in Hd. exact (Hd _ Hget).
Qed.

Lemma load_row_keyed (d d' : list (Z * SlideData)) (r : row) :
  keyed d -> load_row disk float_repr d r = Ok d' -> keyed d'.
Proof.
  intros Hd Hrow. destruct (load_row_ok _ _ _ _ _ Hrow) as [n [im [_ [-> _]]]].
  apply (dict_set_entries Z.eqb Zeqb_eq); [exact Hd|].
  cbn. now apply record_at_slide_num.
Qed.

Lemma load_rows_keyed (rows : list row) :
  forall d d', keyed d -> load_rows disk float_repr d rows = Ok d' -> keyed d'.
Proof.
  induction rows as [|r rows IH]; intros d d' Hd; cbn.
  - now intros [= <-].
  - destruct (load_row disk float_repr d r) as [d1|e] eqn:Hrow; [|discriminate].
    apply IH. now apply (load_row_keyed d d1 r).
Qed.

Lemma keyed_values (d : list (Z * SlideData)) :
  keyed d -> map slide_num (Py.dict_values d) = Py.dict_keys d.
Proof.
  unfold Py.dict_values, Py.dict_keys.
  induction 1 as [|[n sd] d Hn Hd IH]; cbn; [reflexivity|].
  cbn in Hn. now rewrite Hn, IH.
Qed.

(** *** The order of the records *)

Lemma seen_is_mem (d : list (Z * SlideData)) (n : Z) :
  existsb (Z.eqb n) (Py.dict_keys d) = Py.dict_mem Z.eqb d n.
Proof.
  apply eq_true_iff_eq.
  rewrite (dict_mem_keys Z.eqb Zeqb_eq), existsb_exists. split.
  - intros [x [Hin Heq]]. apply Z.eqb_eq in Heq. now subst.
  - intros Hin. exists n. split; [exact Hin | apply Z.eqb_refl].
Qed.

Lemma load_rows_keys (rows : list row) :
  forall d d',
    load_rows disk float_repr d rows = Ok d' ->
    exists nums,
      Forall2 (fun r n => py_int (row_slide_num r) = Ok n) rows nums
      /\ Py.dict_keys d' = Py.dict_keys d ++ first_seen (Py.dict_keys d) nums.
Proof.
  induction rows as [|r rows IH]; intros d d'; cbn.
  - intros [= <-]. exists []. split; [constructor | now rewrite app_nil_r].
  - destruct (load_row disk float_repr d r) as [d1|e] eqn:Hrow; [|discriminate].
    intros Hrest. destruct (IH _ _ Hrest) as [nums [Hnums Hkeys]].
    destruct (load_row_ok _ _ _ _ _ Hrow) as [n [im [Hn [Hd1 _]]]].
    exists (n :: nums). split; [now constructor|].
    rewrite Hkeys, Hd1. unfold slides_set.
    rewrite (dict_keys_set Z.eqb). cbn [first_seen].
    rewrite seen_is_mem.
    destruct (Py.dict_mem Z.eqb d n); [reflexivity|].
    now rewrite <- app_assoc.
Qed.

Lemma first_seen_in (l : list Z) :
  forall seen x, In x (first_seen seen l) <-> In x l /\ ~ In x seen.
Proof.
  induction l as [|y l IH]; intros seen x; cbn; [tauto|].
  destruct (existsb (Z.eqb y) seen) eqn:Hy.
  - rewrite IH. apply existsb_exists in Hy. destruct Hy as [z [Hz Hyz]].
    apply Z.eqb_eq in Hyz. subst z. split; [tauto|].
    intros [[->|Hin] Hnot]; [contradiction | tauto].
  - cbn. rewrite IH, in_app_iff. cbn.
    assert (Hnot : ~ In y seen).
    { intros Hin. apply Bool.not_true_iff_false in Hy. apply Hy.
      apply existsb_exists. exists y. split; [exact Hin | apply Z.eqb_refl]. }
    split.
    + intros [->|[Hin Hx]]; [tauto|]. split; [now right | tauto].
    + intros [[->|Hin] Hx]; [now left|].
      destruct (Z.eq_dec y x) as [->|Hne]; [now left|].
      right. split; [exact Hin|]. intros [H|[H|[]]]; tauto.
Qed.

Lemma first_seen_nodup (l : list Z) : forall seen, NoDup (first_seen seen l).
Proof.
  induction l as [|y l IH]; intros seen; cbn; [constructor|].
  destruct (existsb (Z.eqb y) seen); [apply IH|].
  constructor; [|apply IH].
  rewrite first_seen_in, in_app_iff. cbn. tauto.
Qed.

(** *** What is kept by the rows that follow *)

Lemma content_kept (n : Z) (p v : string) (post : list row) :
  Forall (fun r => ~ binds_content n p r) post ->
  forall d d' sd,
    load_rows disk float_repr d post = Ok d' ->
    slides_get d n = Some sd ->
    content_get (content sd) p = Some v ->
    exists sd', slides_get d' n = Some sd'
                /\ content_get (content sd') p = Some v.
Proof.
  induction 1 as [|r post Hr Hpost IH]; intros d d' sd; cbn.
  - intros [= <-] Hget Hp. now exists sd.
  - destruct (load_row disk float_repr d r) as [d1|e] eqn:Hrow; [|discriminate].
    intros Hrest Hget Hp.
    destruct (load_row_ok _ _ _ _ _ Hrow) as [n0 [im [Hn0 [Hd1 _]]]].
    destruct (Z.eq_dec n0 n) as [->|Hne].
    + eapply (IH d1 d'); [exact Hrest | |].
      * rewrite Hd1. apply (dict_get_set_same Z.eqb Zeqb_eq).
      * unfold record_at. rewrite Hget. cbn. unfold content_get, content_set.
        rewrite (dict_get_set_other String.eqb streqb_eq); [exact Hp|].
        intros Heq. apply Hr. now split.
    + apply (IH d1 d' sd Hrest); [|exact Hp].
      rewrite Hd1. unfold slides_get, slides_set.
      now rewrite (dict_get_set_other Z.eqb Zeqb_eq).
Qed.

Lemma image_kept (n k : Z) (v : string) (post : list row) :
  Forall (fun r => ~ binds_image disk float_repr n k r) post ->
  forall d d' sd,
    load_rows disk float_repr d post = Ok d' ->
    slides_get d n = Some sd ->
    images_get (images sd) k = Some v ->
    exists sd', slides_get d' n = Some sd'
                /\ images_get (images sd') k = Some v.
Proof.
  induction 1 as [|r post Hr Hpost IH]; intros d d' sd; cbn.
  - intros [= <-] Hget Hk. now exists sd.
  - destruct (load_row disk float_repr d r) as [d1|e] eqn:Hrow; [|discriminate].
    intros Hrest Hget Hk.
    destruct (load_row_ok _ _ _ _ _ Hrow) as [n0 [im [Hn0 [Hd1 Him]]]].
    destruct (Z.eq_dec n0 n) as [->|Hne].
    + eapply (IH d1 d'); [exact Hrest | |].
      * rewrite Hd1. apply (dict_get_set_same Z.eqb Zeqb_eq).
      * cbn. unfold record_at in Him. rewrite Hget in Him.
        destruct Him as [[Hbind [idx [Hidx ->]]]|[_ ->]]; [|exact Hk].
        unfold images_get, images_set.
        rewrite (dict_get_set_other Z.eqb Zeqb_eq); [exact Hk|].
        intros ->. apply Hr. apply andb_prop in Hbind.
        unfold binds_image. tauto.
    + apply (IH d1 d' sd Hrest); [|exact Hk].
      rewrite Hd1. unfold slides_get, slides_set.
      now rewrite (dict_get_set_other Z.eqb Zeqb_eq).
Qed.

(** The record of its slide right after a row. *)
Lemma load_row_writes (d d' : list (Z * SlideData)) (r : row) (n : Z) :
  py_int (row_slide_num r) = Ok n ->
  load_row disk float_repr d r = Ok d' ->
  exists sd,
    slides_get d' n = Some sd
    /\ content_get (content sd) (row_placeholder r) = Some (value r)
    /\ (forall k,
          isfile disk (value r) = true ->
          Py.isdigit (row_placeholder r) = true ->
          Py.int_of_str (row_placeholder r) = Some k ->
          images_get (images sd) k = Some (value r)).
Proof.
  intros Hn Hrow.
  destruct (load_row_ok _ _ _ _ _ Hrow) as [n0 [im [Hn0 [-> Him]]]].
  rewrite Hn in Hn0. injection Hn0 as <-.
  eexists. split; [apply (dict_get_set_same Z.eqb Zeqb_eq)|]. cbn. split.
  - apply (dict_get_set_same String.eqb streqb_eq).
  - intros k Hfile Hdigit Hk.
    destruct Him as [[_ [idx [Hidx ->]]]|[Hbind _]].
    + rewrite Hk in Hidx. injection Hidx as <-.
      apply (dict_get_set_same Z.eqb Zeqb_eq).
    + fold value in Hbind. rewrite Hfile, Hdigit in Hbind. discriminate.
Qed.

End LoadInvariants.

Section LoadProvenance.
Variable disk : filesystem.
Variable float_repr : Q -> string.

Lemma sourced_more (done more : list row) (e : Z * SlideData) :
  sourced disk float_repr done e -> sourced disk float_repr (done ++ more) e.
Proof.
  intros He k v Hk. destruct (He k v Hk) as [r [Hin Hr]].
  exists r. split; [apply in_or_app; now left | exact Hr].
Qed.

Lemma record_at_sourced (done : list row) (d : list (Z * SlideData)) (n : Z) :
  Forall (sourced disk float_repr done) d ->
  sourced disk float_repr done (n, record_at d n).
Proof.
  intros Hd. unfold record_at.
  destruct (slides_get d n) as [sd|] eqn:Hget.
  - apply (dict_get_in Z.eqb Zeqb_eq) in Hget.
    rewrite Forall_forall in Hd. exact (Hd _ Hget).
  - intros k v Hk. discriminate.
Qed.

Lemma load_row_sourced (done : list row) (d d' : list (Z * SlideData))
    (r : row) :
  Forall (sourced disk float_repr done) d ->
  load_row disk float_repr d r = Ok d' ->
  Forall (sourced disk float_repr (done ++ [r])) d'.
Proof.
  intros Hd Hrow.
  destruct (load_row_ok _ _ _ _ _ Hrow) as [n [im [Hn [-> Him]]]].
  apply (dict_set_entries Z.eqb Zeqb_eq).
  - revert Hd. apply Forall_impl. intros e. apply sourced_more.
  - pose proof (record_at_sourced done d n Hd) as Hold.
    assert (Hkeep : forall k v,
              images_get (images (record_at d n)) k = Some v ->
              exists r0,
                In r0 (done ++ [r])
                /\ binds_image disk float_repr n k r0
                /\ value_of float_repr r0 = v
                /\ Py.dict_mem String.eqb
                     (content_set (content (record_at d n)) (row_placeholder r)
                        (value_of float_repr r))
                     (row_placeholder r0) = true).
    { intros k v Hk. destruct (Hold k v Hk) as [r0 [Hin [Hb [Hv Hmem]]]].
      exists r0. split; [apply in_or_app; now left|].
      split; [exact Hb|]. split; [exact Hv|].
      now apply (dict_mem_set String.eqb streqb_eq). }
    intros k v. cbn.
    destruct Him as [[Hbind [idx [Hidx ->]]]|[_ ->]]; [|apply Hkeep].
    destruct (Z.eq_dec idx k) as [->|Hne].
    + unfold images_get, images_set.
      rewrite (dict_get_set_same Z.eqb Zeqb_eq). intros [= <-].
      apply andb_prop in Hbind. destruct Hbind as [Hfile Hdigit].
      exists r. split; [apply in_or_app; right; now left|].
      split; [unfold binds_image; tauto|]. split; [reflexivity|].
      unfold Py.dict_mem, content_set.
      now rewrite (dict_get_set_same String.eqb streqb_eq).
    + unfold images_get, images_set.
      rewrite (dict_get_set_other Z.eqb Zeqb_eq); [apply Hkeep | exact Hne].
Qed.

Lemma load_rows_sourced (rows : list row) :
  forall done d d',
    Forall (sourced disk float_repr done) d ->
    load_rows disk float_repr d rows = Ok d' ->
    Forall (sourced disk float_repr (done ++ rows)) d'.
Proof.
  induction rows as [|r rows IH]; intros done d d' Hd; cbn.
  - intros [= <-]. now rewrite app_nil_r.
  - destruct (load_row disk float_repr d r) as [d1|e] eqn:Hrow; [|discriminate].
    intros Hrest.
    replace (done ++ r :: rows) with ((done ++ [r]) ++ rows)
      by now rewrite <- app_assoc.
    apply (IH _ d1 d'); [|exact Hrest].
    now apply (load_row_sourced done d d1 r).
Qed.

(** The row that writes a key last decides its value. *)
Lemma last_writer (pre post : list row) (r : row) (n : Z)
    (recs : list SlideData) :
  py_int (row_slide_num r) = Ok n ->
  Forall (fun r' => ~ binds_content n (row_placeholder r) r') post ->
  load_slide_data disk float_repr (pre ++ r :: post) = Ok recs ->
  exists rec,
    In rec recs
    /\ slide_num rec = n
    /\ content_get (content rec) (row_placeholder r)
       = Some (value_of float_repr r)
    /\ (forall k,
          Py.isdigit (row_placeholder r) = true ->
          Py.int_of_str (row_placeholder r) = Some k ->
          isfile disk (value_of float_repr r) = true ->
          Forall (fun r' => ~ binds_image disk float_repr n k r') post ->
          images_get (images rec) k = Some (value_of float_repr r)).
Proof.
  intros Hn Hpost. unfold load_slide_data.
  destruct (load_rows disk float_repr [] (pre ++ r :: post)) as [d|e] eqn:Hload;
    [|discriminate].
  intros [= <-].
  assert (Hkeyed : keyed d)
    by (eapply load_rows_keyed; [|exact Hload]; constructor).
  rewrite load_rows_app in Hload.
  destruct (load_rows disk float_repr [] pre) as [d0|e] eqn:Hpre; [|discriminate].
  cbn in Hload.
  destruct (load_row disk float_repr d0 r) as [d1|e] eqn:Hrow; [|discriminate].
  destruct (load_row_writes disk float_repr d0 d1 r n Hn Hrow)
    as [sd [Hget [Hcontent Himage]]].
  destruct (content_kept disk float_repr n _ _ post Hpost d1 d sd Hload Hget
              Hcontent) as [rec [Hrec Hrec_content]].
  exists rec. split; [now apply (dict_get_value Z.eqb Zeqb_eq d n)|].
  split.
  { apply (dict_get_in Z.eqb Zeqb_eq) in Hrec.
    unfold keyed in Hkeyed. rewrite Forall_forall in Hkeyed.
    exact (Hkeyed _ Hrec). }
  split; [exact Hrec_content|].
  intros k Hdigit Hk Hfile Hpost'.
  destruct (image_kept disk float_repr n k _ post Hpost' d1 d sd Hload Hget
              (Himage k Hfile Hdigit Hk)) as [rec' [Hrec' Hrec_image]].
  rewrite Hrec in Hrec'. now injection Hrec' as <-.
Qed.

End LoadProvenance.

(** ** The slide records *)

(** C4, as the code has it. Of two rows with different values for the same
    slide and the same placeholder, the later one, when no row after it is
    for that slide and placeholder, gives the value that the placeholder has
    in the content of the record of the slide, and the value of the earlier
    one is gone. When moreover the placeholder is made of digits and the
    value of the later row is a file, the images of the record map the
    position to that value provided no row after it binds the same position
    of the slide, be it under another spelling of the number. The records
    come one for each distinct slide number, in the order in which the
    numbers first occur in the rows. *)
Theorem later_row_wins (disk : filesystem) (float_repr : Q -> string)
    (pre mid post : list row) (r1 r2 : row) (n : Z) (p : string)
    (recs : list SlideData) :
  binds_content n p r1 ->
  binds_content n p r2 ->
  value_of float_repr r1 <> value_of float_repr r2 ->
  Forall (fun r => ~ binds_content n p r) post ->
  load_slide_data disk float_repr (pre ++ r1 :: mid ++ r2 :: post) = Ok recs ->
  (exists rec,
     In rec recs
     /\ slide_num rec = n
     /\ content_get (content rec) p = Some (value_of float_repr r2)
     /\ content_get (content rec) p <> Some (value_of float_repr r1)
     /\ (forall k,
           Py.isdigit p = true ->
           Py.int_of_str p = Some k ->
           isfile disk (value_of float_repr r2) = true ->
           Forall (fun r => ~ binds_image disk float_repr n k r) post ->
           images_get (images rec) k = Some (value_of float_repr r2)
           /\ images_get (images rec) k <> Some (value_of float_repr r1)))
  /\ (exists nums,
        Forall2 (fun r k => py_int (row_slide_num r) = Ok k)
          (pre ++ r1 :: mid ++ r2 :: post) nums
        /\ map slide_num recs = first_seen [] nums
        /\ NoDup (map slide_num recs)
        /\ (forall k, In k (map slide_num recs) <-> In k nums)).
Proof.
  intros _ [Hn Hp] Hdiff Hpost Hload. subst p. split.
  - replace (pre ++ r1 :: mid ++ r2 :: post)
      with ((pre ++ r1 :: mid) ++ r2 :: post) in Hload
      by (rewrite <- app_assoc; reflexivity).
    destruct (last_writer disk float_repr _ post r2 n recs Hn Hpost Hload)
      as [rec [Hin [Hnum [Hcontent Himages]]]].
    exists rec. split; [exact Hin|]. split; [exact Hnum|].
    split; [exact Hcontent|]. split.
    + rewrite Hcontent. intros [= Heq]. now apply Hdiff.
    + intros k Hdigit Hint Hfile Hbind.
      rewrite (Himages k Hdigit Hint Hfile Hbind).
      split; [reflexivity|]. intros [= Heq]. now apply Hdiff.
  - unfold load_slide_data in Hload.
    destruct (load_rows disk float_repr [] _) as [d|e] eqn:Hrows; [|discriminate].
    injection Hload as <-.
    destruct (load_rows_keys disk float_repr _ _ _ Hrows) as [nums [Hnums Hkeys]].
    assert (Hkeyed : keyed d) by (eapply load_rows_keyed; [|exact Hrows]; constructor).
    exists nums. split; [exact Hnums|].
    rewrite (keyed_values d Hkeyed), Hkeys. cbn.
    split; [reflexivity|]. split; [apply first_seen_nodup|].
    intros k. rewrite first_seen_in. cbn. tauto.
Qed.

Lemma later_row_wins_witness :
  (exists rec,
     In rec [mk_SlideData 2 [("title", "Draft"); ("3", "/tmp/b.png")]
               [(3%Z, "/tmp/b.png")];
             mk_SlideData 1 [("title", "Cover")] []]
     /\ slide_num rec = 2%Z
     /\ content_get (content rec) "3" = Some "/tmp/b.png"
     /\ content_get (content rec) "3" <> Some "/tmp/a.png"
     /\ (forall k,
           Py.isdigit "3" = true ->
           Py.int_of_str "3" = Some k ->
           isfile two_pictures "/tmp/b.png" = true ->
           Forall (fun r => ~ binds_image two_pictures no_floats 2 k r)
             [mk_row (CInt 1) "title" (CStr "Cover")] ->
           images_get (images rec) k = Some "/tmp/b.png"
           /\ images_get (images rec) k <> Some "/tmp/a.png"))
  /\ (exists nums,
        Forall2 (fun r k => py_int (row_slide_num r) = Ok k)
          ([mk_row (CInt 2) "title" (CStr "Draft")]
           ++ mk_row (CInt 2) "3" (CStr "/tmp/a.png")
           :: [] ++ mk_row (CInt 2) "3" (CStr "/tmp/b.png")
           :: [mk_row (CInt 1) "title" (CStr "Cover")]) nums
        /\ map slide_num
             [mk_SlideData 2 [("title", "Draft"); ("3", "/tmp/b.png")]
                [(3%Z, "/tmp/b.png")];
              mk_SlideData 1 [("title", "Cover")] []]
           = first_seen [] nums
        /\ NoDup (map slide_num
                    [mk_SlideData 2 [("title", "Draft"); ("3", "/tmp/b.png")]
                       [(3%Z, "/tmp/b.png")];
                     mk_SlideData 1 [("title", "Cover")] []])
        /\ (forall k,
              In k (map slide_num
                      [mk_SlideData 2 [("title", "Draft"); ("3", "/tmp/b.png")]
                         [(3%Z, "/tmp/b.png")];
                       mk_SlideData 1 [("title", "Cover")] []])
              <-> In k nums)).
Proof.
  apply (later_row_wins two_pictures no_floats
           [mk_row (CInt 2) "title" (CStr "Draft")] []
           [mk_row (CInt 1) "title" (CStr "Cover")]
           (mk_row (CInt 2) "3" (CStr "/tmp/a.png"))
           (mk_row (CInt 2) "3" (CStr "/tmp/b.png")) 2 "3").
  - split; reflexivity.
  - split; reflexivity.
  - discriminate.
  - repeat constructor. intros [H _]. discriminate.
  - reflexivity.
Defined.

(** C4 as stated fails for the images. The rows give slide 2 the
    placeholder ["3"] twice, with the pictures [/tmp/a.png] and then
    [/tmp/b.png], and after them the placeholder ["03"] with the picture
    [/tmp/c.png]: the content maps ["3"] to the later of the two paths, but
    the images map position 3 to [/tmp/c.png], the path of the row that
    spells the number otherwise. *)
Lemma later_path_can_lose_its_position :
  load_slide_data three_pictures no_floats
    [mk_row (CInt 2) "title" (CStr "Draft");
     mk_row (CInt 2) "3" (CStr "/tmp/a.png");
     mk_row (CInt 2) "3" (CStr "/tmp/b.png");
     mk_row (CInt 2) "03" (CStr "/tmp/c.png")]
  = Ok [mk_SlideData 2
          [("title", "Draft"); ("3", "/tmp/b.png"); ("03", "/tmp/c.png")]
          [(3%Z, "/tmp/c.png")]]
  /\ Py.isdigit "3" = true
  /\ isfile three_pictures "/tmp/a.png" = true
  /\ isfile three_pictures "/tmp/b.png" = true
  /\ content_get
       [("title", "Draft"); ("3", "/tmp/b.png"); ("03", "/tmp/c.png")] "3"
     = Some "/tmp/b.png"
  /\ images_get [(3%Z, "/tmp/c.png")] 3 = Some "/tmp/c.png"
  /\ images_get [(3%Z, "/tmp/c.png")] 3 <> Some "/tmp/b.png".
Proof. repeat split; try reflexivity. discriminate. Qed.

(** C5, as the code has it. Every entry of the images of a loaded record
    was written by a row of the slide whose placeholder is made of digits
    and reads as the key, and whose value is the path stored and was a file
    on the disk at load time; the placeholder of that row, as it is spelled
    in the table, is a key of the content of the record. The pass over the
    slides returns the records it was given. *)
Theorem images_come_from_rows (disk : filesystem) (float_repr : Q -> string)
    (rows : list row) (recs : list SlideData) :
  load_slide_data disk float_repr rows = Ok recs ->
  (forall rec k v,
     In rec recs ->
     images_get (images rec) k = Some v ->
     exists r,
       In r rows
       /\ py_int (row_slide_num r) = Ok (slide_num rec)
       /\ Py.isdigit (row_placeholder r) = true
       /\ Py.int_of_str (row_placeholder r) = Some k
       /\ value_of float_repr r = v
       /\ isfile disk v = true
       /\ Py.dict_mem String.eqb (content rec) (row_placeholder r) = true)
  /\ (forall disk' template self' calls,
        replace_placeholders disk' (mk_modifier template recs) = Ok (self', calls) ->
        slide_data self' = recs).
Proof.
  intros Hload. split.
  - unfold load_slide_data in Hload.
    destruct (load_rows disk float_repr [] rows) as [d|e] eqn:Hrows; [|discriminate].
    injection Hload as <-.
    assert (Hkeyed : keyed d) by (eapply load_rows_keyed; [|exact Hrows]; constructor).
    assert (Hsrc : Forall (sourced disk float_repr ([] ++ rows)) d)
      by (eapply load_rows_sourced; [|exact Hrows]; constructor).
    cbn in Hsrc. intros rec k v Hin Hk.
    unfold Py.dict_values in Hin. apply in_map_iff in Hin.
    destruct Hin as [[n sd] [Hsd Hin]]. cbn in Hsd. subst sd.
    unfold keyed in Hkeyed. rewrite Forall_forall in Hkeyed, Hsrc.
    pose proof (Hkeyed _ Hin) as Hnum. cbn in Hnum.
    destruct (Hsrc _ Hin k v Hk) as [r [Hr [[Hn [Hfile [Hdigit Hidx]]] [Hv Hmem]]]].
    cbn in Hn, Hmem. exists r. rewrite Hnum. subst v. tauto.
  - intros disk' template self' calls. unfold replace_placeholders. cbn.
    destruct (walk_slides disk' 0 recs template []) as [[slides calls']|e];
      [|discriminate].
    now intros [= <- _].
Qed.

Lemma images_come_from_rows_witness :
  exists r,
    In r [mk_row (CInt 2) "title" (CStr "Draft");
          mk_row (CInt 2) "03" (CStr "/tmp/a.png")]
    /\ py_int (row_slide_num r) = Ok 2%Z
    /\ Py.isdigit (row_placeholder r) = true
    /\ Py.int_of_str (row_placeholder r) = Some 3%Z
    /\ value_of no_floats r = "/tmp/a.png"
    /\ isfile two_pictures "/tmp/a.png" = true
    /\ Py.dict_mem String.eqb [("title", "Draft"); ("03", "/tmp/a.png")]
         (row_placeholder r) = true.
Proof.
  apply (proj1 (images_come_from_rows two_pictures no_floats
                  [mk_row (CInt 2) "title" (CStr "Draft");
                   mk_row (CInt 2) "03" (CStr "/tmp/a.png")]
                  [mk_SlideData 2 [("title", "Draft"); ("03", "/tmp/a.png")]
                     [(3%Z, "/tmp/a.png")]]
                  eq_refl)
           (mk_SlideData 2 [("title", "Draft"); ("03", "/tmp/a.png")]
              [(3%Z, "/tmp/a.png")]) 3%Z "/tmp/a.png").
  - now left.
  - reflexivity.
Defined.

(** C5 as stated fails: the placeholder 03 binds position 3, and the
    content has no key 3; and after a later row for placeholder 7 whose
    value is no file, the content of 7 is not the path that the images hold
    for position 7. *)
Lemma images_key_is_not_a_content_key :
  load_slide_data two_pictures no_floats
    [mk_row (CInt 2) "title" (CStr "Draft");
     mk_row (CInt 2) "03" (CStr "/tmp/a.png");
     mk_row (CInt 2) "7" (CStr "/tmp/b.png");
     mk_row (CInt 2) "7" (CStr "pending")]
  = Ok [mk_SlideData 2
          [("title", "Draft"); ("03", "/tmp/a.png"); ("7", "pending")]
          [(3%Z, "/tmp/a.png"); (7%Z, "/tmp/b.png")]]
  /\ int_repr 3 = "3"
  /\ content_get [("title", "Draft"); ("03", "/tmp/a.png"); ("7", "pending")]
       (int_repr 3) = None
  /\ content_get [("title", "Draft"); ("03", "/tmp/a.png"); ("7", "pending")]
       (int_repr 7) = Some "pending".
Proof. repeat split; reflexivity. Qed.





(** * Further properties of the engine *)

(** X1. Replacing every token by its own text gives the text back: what
    [pattern.sub] finds covers the text, in order and without overlap, so
    that nothing outside the tokens is ever altered or lost. *)
Theorem tokens_cover_the_text (s : string) : Re.sub Re.group0 s = s.
Proof.
  unfold Re.sub. induction s as [|c s Hp Hm IH|m rest Hp Hg Hnone IH]
    using pieces_ind.
  - reflexivity.
  - rewrite Hp. cbn [map Re.emit]. rewrite concat_empty_cons, IH. reflexivity.
  - rewrite Hp. cbn [map Re.emit]. now rewrite concat_empty_cons, IH.
Qed.

(** X2. Every token found in a text is an opening pair of braces, a name
    without a closing pair in it, and a closing pair (the match is the
    shortest one), and its text occurs in the text as it stands. *)
Theorem tokens_are_shortest (s : string) (m : Re.re_match) :
  In (Re.Tok m) (Re.pieces s) ->
  Re.group0 m = ("{{" ++ Re.group1 m ++ "}}")%string
  /\ Py.contains "}}" (Re.group1 m) = false
  /\ Py.contains (Re.group0 m) s = true.
Proof.
  induction s as [|c s Hp Hm IH|m' rest Hp Hg Hnone IH] using pieces_ind.
  - intros [].
  - rewrite Hp. intros [Hin|Hin]; [discriminate|].
    destruct (IH Hin) as [H1 [H2 H3]]. split; [exact H1|]. split; [exact H2|].
    apply contains_iff in H3. destruct H3 as [before [after H3]].
    apply contains_iff. exists (String c before), after. cbn [append].
    now rewrite H3.
  - rewrite Hp. intros [Hin|Hin].
    + injection Hin as <-. split; [exact Hg|]. split; [exact Hnone|].
      apply contains_iff. exists "", rest. reflexivity.
    + destruct (IH Hin) as [H1 [H2 H3]]. split; [exact H1|]. split; [exact H2|].
      apply contains_iff in H3. destruct H3 as [before [after H3]].
      apply contains_iff. exists (Re.group0 m' ++ before)%string, after.
      now rewrite append_assoc, H3.
Qed.

Lemma tokens_are_shortest_witness :
  Re.group0 name_token = ("{{" ++ Re.group1 name_token ++ "}}")%string
  /\ Py.contains "}}" (Re.group1 name_token) = false
  /\ Py.contains (Re.group0 name_token) "Dear {{ name }}}} {{" = true.
Proof.
  apply (tokens_are_shortest "Dear {{ name }}}} {{" name_token).
  cbn. right. right. right. right. right. now left.
Defined.

Lemma sub_without_braces (f : Re.re_match -> string) (s : string) :
  Py.contains "{{" s = false \/ Py.contains "}}" s = false ->
  Re.sub f s = s.
Proof.
  unfold Re.sub. induction s as [|c s Hp Hm IH|m rest Hp Hg Hnone IH]
    using pieces_ind; intros Hno.
  - reflexivity.
  - rewrite Hp. cbn [map Re.emit]. rewrite concat_empty_cons, IH; [reflexivity|].
    destruct Hno as [Hno|Hno]; rewrite contains_eq in Hno;
      [left|right]; now destruct (prefix _ (String c s)).
  - exfalso. destruct Hno as [Hno|Hno];
      apply Bool.not_true_iff_false in Hno; apply Hno; apply contains_iff.
    + exists "", (Re.group1 m ++ "}}" ++ rest)%string.
      rewrite Hg. cbn [append]. now rewrite append_assoc.
    + exists ("{{" ++ Re.group1 m)%string, rest.
      rewrite Hg. cbn [append]. now rewrite !append_assoc.
Qed.

(** X3. A text without an opening pair of braces, or without a closing
    pair, has no token: every substitution leaves it as it is. *)
Theorem text_without_braces_is_kept (f : Re.re_match -> string) (s : string) :
  Py.contains "{{" s = false \/ Py.contains "}}" s = false ->
  Re.sub f s = s.
Proof. intros Hno. now apply sub_without_braces. Qed.

Lemma text_without_braces_is_kept_witness :
  Re.sub (fun _ => "gone") "a } b }" = "a } b }".
Proof.
  apply (text_without_braces_is_kept (fun _ => "gone") "a } b }").
  left. reflexivity.
Defined.

(** ** The hyperlink rewriter, further *)

Lemma relink_items_cases (text : string) (content : list (string * string))
    (sh : shape) :
  relink_items text content sh = sh
  \/ exists v, relink_items text content sh = relink v sh
               /\ forall sh0, relink_items text content (relink v sh0) = relink v sh0.
Proof.
  rewrite relink_items_fold.
  destruct (matching_links text content) as [|v0 links] eqn:Hlinks;
    [now left|]. right.
  destruct (in_dec string_dec "" (v0 :: links)) as [Hin|Hnot].
  - exists "". split; [now apply relinks_with_empty|].
    intros sh0. rewrite relink_items_fold, Hlinks. apply relinks_after_empty.
  - exists (last (v0 :: links) ""). split; [now apply relinks_last|].
    intros sh0. rewrite relink_items_fold, Hlinks.
    rewrite relinks_last; [|discriminate | exact Hnot].
    apply relink_twice. intros Heq. apply Hnot. rewrite <- Heq at 1.
    destruct (@exists_last _ (v0 :: links)) as [l [v ->]]; [discriminate|].
    rewrite last_last. apply in_or_app. right. now left.
Qed.

Lemma relink_run_relinked (v : string) (r : run) : relinked r (relink_run v r).
Proof.
  unfold relinked, relink_run.
  destruct (has_address r) eqn:Hr; cbn; [|now rewrite Hr].
  split; [reflexivity|]. split; [discriminate | reflexivity].
Qed.

Lemma relinked_refl (r : run) : relinked r r.
Proof. unfold relinked. tauto. Qed.

Lemma Forall2_map_right {A B : Type} (R : A -> B -> Prop) (g : A -> B)
    (l : list A) :
  (forall x, R x (g x)) -> Forall2 R l (map g l).
Proof. intros Hg. induction l; cbn; constructor; auto. Qed.

Lemma Forall2_same {A : Type} (R : A -> A -> Prop) (l : list A) :
  (forall x, R x x) -> Forall2 R l l.
Proof. intros HR. induction l; constructor; auto. Qed.

Lemma relink_same_box (v : string) (sh : shape) : same_box sh (relink v sh).
Proof. destruct sh. unfold same_box. cbn. tauto. Qed.

Lemma same_box_refl (sh : shape) : same_box sh sh.
Proof. unfold same_box. tauto. Qed.

Lemma same_box_trans (a b c : shape) :
  same_box a b -> same_box b c -> same_box a c.
Proof.
  unfold same_box.
  intros (H1 & H2 & H3 & H4 & H5 & H6) (K1 & K2 & K3 & K4 & K5 & K6).
  repeat split; congruence.
Qed.

Lemma relink_items_same_box (text : string) (content : list (string * string))
    (sh : shape) :
  same_box sh (relink_items text content sh).
Proof.
  destruct (relink_items_cases text content sh) as [->|[v [-> _]]];
    [apply same_box_refl | apply relink_same_box].
Qed.

Lemma relink_frame (v : string) (sh : shape) :
  text_frame (relink v sh) = option_map (map (map (relink_run v))) (text_frame sh)
  /\ table (relink v sh) = table sh.
Proof. destruct sh. split; reflexivity. Qed.

Lemma frame_text_texts (tf : list paragraph) :
  frame_text tf
  = Py.join (String (ascii_of_nat 10) "") (map (String.concat "") (frame_texts tf)).
Proof.
  unfold frame_text, frame_texts, paragraph_text. now rewrite map_map.
Qed.

Lemma relinked_texts (tf tf' : list paragraph) :
  Forall2 (Forall2 relinked) tf tf' -> frame_texts tf' = frame_texts tf.
Proof.
  unfold frame_texts. induction 1 as [|p p' tf tf' Hp Htf IH]; cbn; [reflexivity|].
  rewrite IH. f_equal.
  induction Hp as [|r r' p p' Hr Hp IHp]; cbn; [reflexivity|].
  rewrite IHp. f_equal. apply Hr.
Qed.

Lemma relink_items_frame (text : string) (content : list (string * string))
    (sh : shape) (tf : list paragraph) :
  text_frame sh = Some tf ->
  exists tf',
    text_frame (relink_items text content sh) = Some tf'
    /\ frame_texts tf' = frame_texts tf
    /\ table (relink_items text content sh) = table sh.
Proof.
  intros Hframe.
  destruct (relink_items_cases text content sh) as [->|[v [-> _]]].
  - now exists tf.
  - destruct (relink_frame v sh) as [Htf Htable]. rewrite Htf, Hframe. cbn.
    eexists. split; [reflexivity|]. split; [|exact Htable].
    apply relinked_texts. apply Forall2_map_right. intros p.
    apply Forall2_map_right. apply relink_run_relinked.
Qed.

(** What the rewriter makes of a shape with a text frame. *)
Lemma rewriter_result (content : list (string * string)) (st : slide_state)
    (tf : list paragraph) :
  text_frame (st_shape st) = Some tf ->
  _identify_and_replace_hyperlink content st
  = Ok (tt, mk_state (st_before st)
              (relink_items (frame_text tf) content (st_shape st))
              (st_attached st) (st_after st) (st_calls st ++ [CallHyperlink])).
Proof.
  intros Hframe.
  unfold _identify_and_replace_hyperlink, bind, log_call, get_shape. cbn.
  now rewrite Hframe.
Qed.

(** X4. On a shape with a text frame the hyperlink rewriter never fails
    and touches addresses only: the shapes around, the place of the shape in
    the tree, its box and its table are as before, every run keeps its text
    (so the text of the shape is the same), a run without an address is left
    as it is and no run gains a link, and a click action that is no
    hyperlink is left as it is. *)
Theorem rewriter_touches_addresses_only (content : list (string * string))
    (st : slide_state) (tf : list paragraph) :
  text_frame (st_shape st) = Some tf ->
  exists sh' tf',
    _identify_and_replace_hyperlink content st
    = Ok (tt, mk_state (st_before st) sh' (st_attached st) (st_after st)
                (st_calls st ++ [CallHyperlink]))
    /\ same_box (st_shape st) sh'
    /\ table sh' = table (st_shape st)
    /\ text_frame sh' = Some tf'
    /\ Forall2 (Forall2 relinked) tf tf'
    /\ frame_text tf' = frame_text tf
    /\ ((forall a, click_action (st_shape st) <> HyperlinkAction a) ->
        click_action sh' = click_action (st_shape st)).
Proof.
  intros Hframe.
  exists (relink_items (frame_text tf) content (st_shape st)).
  pose proof (rewriter_result content st tf Hframe) as Hcall.
  destruct (relink_items_cases (frame_text tf) content (st_shape st))
    as [Hsame|[v [Hv _]]]; [rewrite Hsame in * | rewrite Hv in *].
  - exists tf. split; [exact Hcall|]. split; [apply same_box_refl|].
    split; [reflexivity|]. split; [exact Hframe|]. split.
    + apply Forall2_same. intros p. apply Forall2_same. apply relinked_refl.
    + split; [reflexivity|]. intros _. reflexivity.
  - exists (map (map (relink_run v)) tf).
    assert (Hrel : Forall2 (Forall2 relinked) tf (map (map (relink_run v)) tf)).
    { apply Forall2_map_right. intros p. apply Forall2_map_right.
      apply relink_run_relinked. }
    split; [exact Hcall|]. split; [apply relink_same_box|].
    destruct (relink_frame v (st_shape st)) as [Htf Htable].
    split; [exact Htable|]. split; [now rewrite Htf, Hframe|].
    split; [exact Hrel|]. split.
    + now rewrite !frame_text_texts, (relinked_texts _ _ Hrel).
    + intros Hclick. destruct (st_shape st) as [l t w h f tb i a img]. cbn in *.
      destruct a; try reflexivity. exfalso. now apply (Hclick address).
Qed.

Lemma rewriter_touches_addresses_only_witness :
  exists sh' tf',
    _identify_and_replace_hyperlink [("Report", "http://new")]
      (alone (text_box [mk_run "Report" (Some "http://old"); mk_run "!" None]
                OtherAction))
    = Ok (tt, mk_state [] sh' true [] ([] ++ [CallHyperlink]))
    /\ same_box
         (text_box [mk_run "Report" (Some "http://old"); mk_run "!" None]
            OtherAction) sh'
    /\ table sh' = None
    /\ text_frame sh' = Some tf'
    /\ Forall2 (Forall2 relinked)
         [[mk_run "Report" (Some "http://old"); mk_run "!" None]] tf'
    /\ frame_text tf' = "Report!"
    /\ ((forall a, OtherAction <> HyperlinkAction a) ->
        click_action sh' = OtherAction).
Proof.
  apply (rewriter_touches_addresses_only [("Report", "http://new")]
           (alone (text_box [mk_run "Report" (Some "http://old"); mk_run "!" None]
                     OtherAction))
           [[mk_run "Report" (Some "http://old"); mk_run "!" None]]).
  reflexivity.
Defined.

(** X5. Calling the hyperlink rewriter a second time changes nothing but
    the log: the shape after two calls is the shape after one. *)
Theorem rewriter_is_idempotent (content : list (string * string))
    (st : slide_state) (tf : list paragraph) :
  text_frame (st_shape st) = Some tf ->
  exists st1 st2,
    _identify_and_replace_hyperlink content st = Ok (tt, st1)
    /\ _identify_and_replace_hyperlink content st1 = Ok (tt, st2)
    /\ st_shape st2 = st_shape st1
    /\ slide_shapes st2 = slide_shapes st1.
Proof.
  intros Hframe.
  destruct (relink_items_frame (frame_text tf) content (st_shape st) tf Hframe)
    as (tf1 & Hframe1 & Htexts & _).
  assert (Htext : frame_text tf1 = frame_text tf)
    by now rewrite !frame_text_texts, Htexts.
  eexists. eexists. split; [apply (rewriter_result content st tf Hframe)|].
  split; [apply (rewriter_result content _ tf1); exact Hframe1|].
  cbn. rewrite Htext.
  assert (Hidem : relink_items (frame_text tf) content
                    (relink_items (frame_text tf) content (st_shape st))
                  = relink_items (frame_text tf) content (st_shape st)).
  { destruct (relink_items_cases (frame_text tf) content (st_shape st))
      as [Hsame|[v [Hv Hagain]]].
    - now rewrite !Hsame.
    - rewrite Hv. apply Hagain. }
  split; [exact Hidem|]. unfold slide_shapes. cbn. now rewrite Hidem.
Qed.

Lemma rewriter_is_idempotent_witness :
  exists st1 st2,
    _identify_and_replace_hyperlink [("Report", "http://new")]
      (alone (text_box [mk_run "Report" (Some "http://old")]
                (HyperlinkAction None)))
    = Ok (tt, st1)
    /\ _identify_and_replace_hyperlink [("Report", "http://new")] st1 = Ok (tt, st2)
    /\ st_shape st2 = st_shape st1
    /\ slide_shapes st2 = slide_shapes st1.
Proof.
  apply (rewriter_is_idempotent [("Report", "http://new")]
           (alone (text_box [mk_run "Report" (Some "http://old")]
                     (HyperlinkAction None)))
           [[mk_run "Report" (Some "http://old")]]).
  reflexivity.
Defined.

(** ** What a method can do to the slide *)

Lemma image_swaps_app (a b : list call) :
  image_swaps (a ++ b) = image_swaps a ++ image_swaps b.
Proof.
  induction a as [|[|p] a IH]; cbn; [reflexivity | exact IH | now rewrite IH].
Qed.

Lemma kept_or_swapped_refl (st : slide_state) : kept_or_swapped st st.
Proof.
  unfold kept_or_swapped. split; [reflexivity|].
  split; [apply same_box_refl|]. left. tauto.
Qed.

Lemma kept_or_swapped_trans (a b c : slide_state) :
  kept_or_swapped a b -> kept_or_swapped b c -> kept_or_swapped a c.
Proof.
  intros (Hb1 & Hbox1 & H1) (Hb2 & Hbox2 & H2).
  split; [congruence|]. split; [now apply (same_box_trans _ (st_shape b))|].
  destruct H1 as [(Ha1 & Hf1 & Hs1)|(Ha1 & Hd1 & p1 & Hf1 & Hs1)];
    destruct H2 as [(Ha2 & Hf2 & Hs2)|(Ha2 & Hd2 & p2 & Hf2 & Hs2)].
  - left. repeat split; congruence.
  - right. split; [congruence|]. split; [exact Hd2|]. exists p2.
    destruct Hbox1 as (G1 & G2 & G3 & G4 & _).
    rewrite Hf2, Hs2, Hf1, Hs1, G1, G2, G3, G4. split; reflexivity.
  - right. split; [exact Ha1|]. split; [congruence|]. exists p1.
    rewrite Hf2, Hs2, Hf1, Hs1. split; reflexivity.
  - congruence.
Qed.

Lemma respects_ret {A : Type} (a : A) : respects (ret a).
Proof. intros st a' st' [= _ <-]. apply kept_or_swapped_refl. Qed.

Lemma respects_raise {A : Type} (e : pyerr) : respects (@raise A e).
Proof. intros st a st'. discriminate. Qed.

Lemma respects_bind {A B : Type} (c : M A) (k : A -> M B) :
  respects c -> (forall a, respects (k a)) -> respects (bind c k).
Proof.
  intros Hc Hk st b st'. unfold bind.
  destruct (c st) as [[a st1]|e] eqn:Hcst; [|discriminate].
  intros Hkst. apply (kept_or_swapped_trans st st1 st').
  - now apply (Hc st a).
  - now apply (Hk a st1 b).
Qed.

Lemma respects_for_each {A : Type} (body : A -> M unit) (l : list A) :
  (forall x, respects (body x)) -> respects (for_each l body).
Proof.
  intros Hbody. induction l as [|x l IH]; cbn [for_each].
  - apply respects_ret.
  - apply respects_bind; [apply Hbody | intros _; exact IH].
Qed.

Lemma respects_get_shape : respects get_shape.
Proof. intros st a st' [= _ <-]. apply kept_or_swapped_refl. Qed.

Lemma respects_set_shape (f : shape -> shape) :
  (forall sh, same_box sh (f sh)) ->
  respects (bind get_shape (fun sh => set_shape (f sh))).
Proof.
  intros Hf st a st'. unfold bind, get_shape, set_shape. intros [= _ <-].
  split; [reflexivity|]. split; [apply Hf|]. left. cbn. tauto.
Qed.

Lemma image_swap_needs (disk : filesystem) (image_path : string)
    (st st' : slide_state) :
  _replace_image_placeholder disk image_path st = Ok (tt, st') ->
  st_attached st = true /\ disk image_path = ImageFile.
Proof.
  rewrite image_swap_result.
  destruct (disk image_path); try discriminate.
  destruct (st_attached st); [tauto | discriminate].
Qed.

Lemma respects_image_swap (disk : filesystem) (image_path : string) :
  respects (_replace_image_placeholder disk image_path).
Proof.
  intros st [] st' Hswap.
  destruct (image_swap_needs disk image_path st st' Hswap) as [Hatt _].
  apply image_swap_ok in Hswap. subst st'.
  split; [reflexivity|]. split; [apply same_box_refl|].
  right. split; [exact Hatt|]. split; [reflexivity|].
  exists image_path. cbn. split; [reflexivity|]. apply image_swaps_app.
Qed.

Lemma respects_token (disk : filesystem) (m : Re.re_match)
    (content : list (string * string)) :
  respects (_replace_text_or_image disk m content).
Proof.
  unfold _replace_text_or_image.
  destruct (is_image_name _); [|apply respects_ret].
  destruct (isfile disk _); [|apply respects_ret].
  apply respects_bind; [apply respects_image_swap | intros _; apply respects_ret].
Qed.

Lemma respects_sub_pieces (repl : Re.re_match -> M string) (ps : list Re.piece) :
  (forall m, respects (repl m)) -> respects (sub_pieces repl ps).
Proof.
  intros Hrepl. induction ps as [|[c|m] ps IH]; cbn [sub_pieces].
  - apply respects_ret.
  - apply respects_bind; [exact IH | intros rest; apply respects_ret].
  - apply respects_bind; [apply Hrepl|]. intros r.
    apply respects_bind; [exact IH | intros rest; apply respects_ret].
Qed.

Lemma respects_run_text_at (i j : nat) : respects (run_text_at i j).
Proof.
  unfold run_text_at. apply respects_bind; [apply respects_get_shape|].
  intros sh. destruct (text_frame sh) as [tf|]; [|apply respects_raise].
  destruct (nth_error (nth i tf []) j); [apply respects_ret | apply respects_raise].
Qed.

Lemma respects_set_run_text (i j : nat) (new_text : string) :
  respects (set_run_text i j new_text).
Proof.
  unfold set_run_text. apply respects_set_shape.
  intros sh. unfold same_box, with_text_frame. cbn. tauto.
Qed.

Lemma respects_rewriter (content : list (string * string)) :
  respects (_identify_and_replace_hyperlink content).
Proof.
  intros st [] st'.
  destruct (text_frame (st_shape st)) as [tf|] eqn:Hframe.
  - rewrite (rewriter_result content st tf Hframe). intros [= <-].
    split; [reflexivity|]. split; [apply relink_items_same_box|].
    left. cbn. rewrite image_swaps_app. cbn. rewrite app_nil_r. tauto.
  - unfold _identify_and_replace_hyperlink, bind, log_call, get_shape. cbn.
    rewrite Hframe. discriminate.
Qed.

Lemma respects_text_pass (disk : filesystem) (content : list (string * string)) :
  respects (_replace_text_placeholders disk content).
Proof.
  unfold _replace_text_placeholders. apply respects_bind; [apply respects_get_shape|].
  intros sh. destruct (text_frame sh) as [tf|]; [|apply respects_raise].
  apply respects_for_each. intros [i j].
  apply respects_bind; [apply respects_run_text_at|]. intros text.
  apply respects_bind.
  { unfold sub_with. apply respects_sub_pieces. intros m. apply respects_token. }
  intros new_text.
  apply respects_bind; [apply respects_set_run_text|]. intros _.
  apply respects_rewriter.
Qed.

Lemma respects_table_pass (content : list (string * string)) :
  respects (_replace_table_placeholder content).
Proof.
  intros st [] st'. unfold _replace_table_placeholder, bind, get_shape.
  destruct (table (st_shape st)) as [rows|]; [|discriminate].
  unfold set_shape. intros [= <-].
  split; [reflexivity|]. split; [unfold same_box, with_table; cbn; tauto|].
  left. cbn. tauto.
Qed.

Lemma respects_visit (disk : filesystem) (data : SlideData) :
  respects (visit_shape disk data).
Proof.
  unfold visit_shape.
  apply respects_bind; [apply respects_get_shape|]. intros sh.
  apply respects_bind.
  { destruct (text_frame sh); [apply respects_text_pass | apply respects_ret]. }
  intros _. apply respects_bind; [apply respects_get_shape|]. intros sh1.
  apply respects_bind.
  { destruct (table sh1); [apply respects_table_pass | apply respects_ret]. }
  intros _. apply respects_bind; [apply respects_get_shape|]. intros sh2.
  destruct (placeholder_idx sh2) as [idx|]; [|apply respects_ret].
  destruct (images_get (images data) idx);
    [apply respects_image_swap | apply respects_ret].
Qed.

(** X6. Whatever the visit of a shape does when it returns, the shapes
    before it in the tree are untouched and it keeps its position, size,
    placeholder index and picture file; and either it is still in its place
    with no shape added and no swap made, or it has been taken out of the
    tree and exactly one picture, with its position and size, has been
    appended: at most one image swap goes through for a shape. *)
Theorem visit_keeps_or_swaps (disk : filesystem) (data : SlideData)
    (st st' : slide_state) :
  visit_shape disk data st = Ok (tt, st') ->
  st_before st' = st_before st
  /\ same_box (st_shape st) (st_shape st')
  /\ ((st_attached st' = st_attached st
       /\ st_after st' = st_after st
       /\ image_swaps (st_calls st') = image_swaps (st_calls st))
      \/ (st_attached st = true
          /\ st_attached st' = false
          /\ exists p,
               st_after st'
               = st_after st
                 ++ [picture p (shape_left (st_shape st)) (shape_top (st_shape st))
                       (shape_width (st_shape st)) (shape_height (st_shape st))]
               /\ image_swaps (st_calls st')
                  = image_swaps (st_calls st) ++ [p])).
Proof. apply (respects_visit disk data st tt st'). Qed.

Lemma visit_keeps_or_swaps_witness :
  st_before
    (mk_state [] (text_box [mk_run "" None] NoAction) false
       [picture "/tmp/exists.png" 10 20 300 40]
       [CallImageSwap "/tmp/exists.png"; CallHyperlink])
  = st_before (alone (text_box [mk_run "{{photo.png}}" None] NoAction))
  /\ same_box (text_box [mk_run "{{photo.png}}" None] NoAction)
       (text_box [mk_run "" None] NoAction)
  /\ ((false = true
       /\ [picture "/tmp/exists.png" 10 20 300 40] = []
       /\ image_swaps [CallImageSwap "/tmp/exists.png"; CallHyperlink]
          = image_swaps [])
      \/ (true = true
          /\ false = false
          /\ exists p,
               [picture "/tmp/exists.png" 10 20 300 40]
               = [] ++ [picture p 10 20 300 40]
               /\ image_swaps [CallImageSwap "/tmp/exists.png"; CallHyperlink]
                  = image_swaps [] ++ [p])).
Proof.
  apply (visit_keeps_or_swaps exists_png
           (mk_SlideData 1 [("photo.png", "/tmp/exists.png")] [])
           (alone (text_box [mk_run "{{photo.png}}" None] NoAction))
           (mk_state [] (text_box [mk_run "" None] NoAction) false
              [picture "/tmp/exists.png" 10 20 300 40]
              [CallImageSwap "/tmp/exists.png"; CallHyperlink])).
  reflexivity.
Defined.

(** ** Swapping twice *)

Lemma bind_ok {A B : Type} (c : M A) (k : A -> M B) (st st' : slide_state)
    (b : B) :
  bind c k st = Ok (b, st') ->
  exists a st1, c st = Ok (a, st1) /\ k a st1 = Ok (b, st').
Proof.
  unfold bind. destruct (c st) as [[a st1]|e]; [|discriminate].
  intros Hk. now exists a, st1.
Qed.

Lemma bind_err {A B : Type} (c : M A) (k : A -> M B) (st : slide_state) :
  (exists e, c st = Err e) -> exists e, bind c k st = Err e.
Proof. intros [e He]. exists e. unfold bind. now rewrite He. Qed.

(** X7. After an image swap that went through, every further swap on the
    same shape fails, whatever the path: the file is missing or no picture,
    or else the shape has no parent left to be removed from. *)
Theorem second_swap_fails (disk : filesystem) (image_path : string)
    (st st' : slide_state) :
  _replace_image_placeholder disk image_path st = Ok (tt, st') ->
  forall disk' image_path',
    _replace_image_placeholder disk' image_path' st'
    = Err (match disk' image_path' with
           | NoFile => FileNotFoundError
           | OtherFile => UnidentifiedImageError
           | ImageFile => AttributeError
           end).
Proof.
  intros Hswap disk' image_path'. apply image_swap_ok in Hswap. subst st'.
  rewrite image_swap_result. cbn. now destruct (disk' image_path').
Qed.

Lemma second_swap_fails_witness :
  _replace_image_placeholder two_pictures "/tmp/b.png"
    (mk_state [] (text_box [] NoAction) false
       ([] ++ [picture "/tmp/a.png" 10 20 300 40]) ([] ++ [CallImageSwap "/tmp/a.png"]))
  = Err AttributeError.
Proof.
  apply (second_swap_fails two_pictures "/tmp/a.png" (alone (text_box [] NoAction))
           (mk_state [] (text_box [] NoAction) false
              ([] ++ [picture "/tmp/a.png" 10 20 300 40])
              ([] ++ [CallImageSwap "/tmp/a.png"]))
           eq_refl two_pictures "/tmp/b.png").
Defined.

Lemma file_token_on_detached (disk : filesystem)
    (content : list (string * string)) (m : Re.re_match) (st : slide_state) :
  file_token disk content m -> st_attached st = false ->
  exists e, _replace_text_or_image disk m content st = Err e.
Proof.
  intros [Hname Hfile] Hdet. unfold _replace_text_or_image.
  rewrite Hname, Hfile. apply bind_err. rewrite image_swap_result, Hdet.
  destruct (disk _); eexists; reflexivity.
Qed.

Lemma token_keeps_detached (disk : filesystem)
    (content : list (string * string)) (m : Re.re_match) (st st' : slide_state)
    (r : string) :
  st_attached st = false ->
  _replace_text_or_image disk m content st = Ok (r, st') ->
  st_attached st' = false.
Proof.
  intros Hdet Htok.
  destruct (respects_token disk m content st r st' Htok)
    as (_ & _ & [(Hatt & _)|(Hatt & _)]); congruence.
Qed.

Lemma file_token_after_detach (disk : filesystem)
    (content : list (string * string)) (m : Re.re_match) (ps : list Re.piece) :
  file_token disk content m -> In (Re.Tok m) ps ->
  forall st, st_attached st = false ->
    exists e, sub_pieces (fun m => _replace_text_or_image disk m content) ps st
              = Err e.
Proof.
  intros Hm. induction ps as [|[c|m'] ps IH]; intros Hin st Hdet;
    [contradiction| |]; cbn [sub_pieces].
  - destruct Hin as [Hin|Hin]; [discriminate|]. apply bind_err. now apply IH.
  - unfold bind at 1.
    destruct (_replace_text_or_image disk m' content st) as [[r st1]|e] eqn:Htok;
      [|now exists e].
    destruct Hin as [Hin|Hin].
    + injection Hin as ->.
      destruct (file_token_on_detached disk content m st Hm Hdet) as [e He].
      congruence.
    + apply bind_err. apply IH; [exact Hin|].
      now apply (token_keeps_detached disk content m' st st1 r).
Qed.

(** X8. A run with two tokens that both name an image whose path is a file
    cannot be substituted: the first swap detaches the shape and the second
    one fails, so the substitution of the run raises. *)
Theorem two_file_tokens_raise (disk : filesystem)
    (content : list (string * string)) (text : string)
    (a b c : list Re.piece) (m1 m2 : Re.re_match) (st : slide_state) :
  Re.pieces text = a ++ Re.Tok m1 :: b ++ Re.Tok m2 :: c ->
  file_token disk content m1 ->
  file_token disk content m2 ->
  exists e,
    sub_with (fun m => _replace_text_or_image disk m content) text st = Err e.
Proof.
  intros Hpieces Hm1 Hm2. unfold sub_with. rewrite Hpieces. clear Hpieces.
  revert st. induction a as [|[ch|m'] a IH]; intros st; cbn [app sub_pieces].
  - unfold bind at 1.
    destruct (_replace_text_or_image disk m1 content st) as [[r st1]|e] eqn:Htok;
      [|now exists e].
    apply bind_err.
    apply (file_token_after_detach disk content m2); [exact Hm2 | |].
    + apply in_or_app. right. now left.
    + destruct Hm1 as [Hname Hfile]. unfold _replace_text_or_image in Htok.
      rewrite Hname, Hfile in Htok. apply bind_ok in Htok.
      destruct Htok as ([] & st2 & Hswap & Hret). injection Hret as _ <-.
      apply image_swap_ok in Hswap. now subst st2.
  - apply bind_err. apply IH.
  - unfold bind at 1.
    destruct (_replace_text_or_image disk m' content st) as [[r st1]|e];
      [|now exists e].
    apply bind_err. apply IH.
Qed.

Lemma two_file_tokens_raise_witness :
  exists e,
    sub_with
      (fun m => _replace_text_or_image two_pictures m
                  [("a.png", "/tmp/a.png"); ("b.png", "/tmp/b.png")])
      "{{a.png}} {{b.png}}"
      (alone (text_box [mk_run "{{a.png}} {{b.png}}" None] NoAction))
    = Err e.
Proof.
  apply (two_file_tokens_raise two_pictures
           [("a.png", "/tmp/a.png"); ("b.png", "/tmp/b.png")]
           "{{a.png}} {{b.png}}" [] [Re.Lit " "] []
           (Re.mk_match "{{a.png}}" "a.png") (Re.mk_match "{{b.png}}" "b.png")).
  - reflexivity.
  - split; reflexivity.
  - split; reflexivity.
Defined.

(** X9. When the visit of a placeholder shape whose index is bound in
    [images] returns, the shape was in the tree, nothing else was swapped
    for it on the way, and it ends replaced by the picture bound to its
    index, appended with its position and size; so an image token of its
    text that is swapped first makes the visit fail. *)
Theorem bound_placeholder_visit (disk : filesystem) (data : SlideData)
    (st st' : slide_state) (k : Z) (p : string) :
  placeholder_idx (st_shape st) = Some k ->
  images_get (images data) k = Some p ->
  visit_shape disk data st = Ok (tt, st') ->
  st_attached st = true
  /\ disk p = ImageFile
  /\ st_attached st' = false
  /\ st_before st' = st_before st
  /\ st_after st'
     = st_after st
       ++ [picture p (shape_left (st_shape st)) (shape_top (st_shape st))
             (shape_width (st_shape st)) (shape_height (st_shape st))]
  /\ image_swaps (st_calls st') = image_swaps (st_calls st) ++ [p].
Proof.
  intros Hidx Hbound Hvisit. unfold visit_shape in Hvisit.
  apply bind_ok in Hvisit. destruct Hvisit as (sh & s0 & Hget0 & Hvisit).
  injection Hget0 as <- <-.
  apply bind_ok in Hvisit. destruct Hvisit as ([] & s1 & Htext & Hvisit).
  assert (H01 : kept_or_swapped st s1).
  { revert Htext. destruct (text_frame (st_shape st));
      [apply respects_text_pass | apply respects_ret]. }
  apply bind_ok in Hvisit. destruct Hvisit as (sh1 & s1' & Hget1 & Hvisit).
  injection Hget1 as <- <-.
  apply bind_ok in Hvisit. destruct Hvisit as ([] & s2 & Htable & Hvisit).
  assert (H12 : kept_or_swapped s1 s2).
  { revert Htable. destruct (table (st_shape s1));
      [apply respects_table_pass | apply respects_ret]. }
  apply bind_ok in Hvisit. destruct Hvisit as (sh2 & s2' & Hget2 & Hswap).
  injection Hget2 as <- <-.
  pose proof (kept_or_swapped_trans _ _ _ H01 H12) as (Hbefore & Hbox & Hcase).
  assert (Hidx2 : placeholder_idx (st_shape s2) = Some k).
  { destruct Hbox as (_ & _ & _ & _ & Hi & _). congruence. }
  rewrite Hidx2, Hbound in Hswap.
  destruct (image_swap_needs disk p s2 st' Hswap) as [Hatt2 Hfile].
  apply image_swap_ok in Hswap.
  destruct Hcase as [(Hatt & Hafter & Hswaps)|(_ & Hdet & _)]; [|congruence].
  destruct Hbox as (G1 & G2 & G3 & G4 & _).
  subst st'. cbn. rewrite image_swaps_app, Hafter, Hswaps, G1, G2, G3, G4.
  repeat split; congruence.
Qed.

Lemma bound_placeholder_visit_witness :
  st_attached
    (alone (mk_shape 1 2 3 4 (Some [[mk_run "Logo" None]]) None (Some 3%Z)
              NoAction None)) = true
  /\ exists_png "/tmp/exists.png" = ImageFile
  /\ st_attached
       (mk_state [] (mk_shape 1 2 3 4 (Some [[mk_run "Logo" None]]) None
                       (Some 3%Z) NoAction None)
          false [picture "/tmp/exists.png" 1 2 3 4]
          [CallHyperlink; CallImageSwap "/tmp/exists.png"]) = false
  /\ @nil shape = []
  /\ [picture "/tmp/exists.png" 1 2 3 4] = [] ++ [picture "/tmp/exists.png" 1 2 3 4]
  /\ image_swaps [CallHyperlink; CallImageSwap "/tmp/exists.png"]
     = image_swaps [] ++ ["/tmp/exists.png"].
Proof.
  apply (bound_placeholder_visit exists_png
           (mk_SlideData 1 [] [(3%Z, "/tmp/exists.png")])
           (alone (mk_shape 1 2 3 4 (Some [[mk_run "Logo" None]]) None (Some 3%Z)
                     NoAction None))
           (mk_state [] (mk_shape 1 2 3 4 (Some [[mk_run "Logo" None]]) None
                           (Some 3%Z) NoAction None)
              false [picture "/tmp/exists.png" 1 2 3 4]
              [CallHyperlink; CallImageSwap "/tmp/exists.png"])
           3%Z "/tmp/exists.png"); reflexivity.
Defined.

(** ** The walk over the deck *)

Lemma walk_shapes_length (disk : filesystem) (data : SlideData) (n : nat) :
  forall before after calls shapes calls',
    walk_shapes disk data n before after calls = Ok (shapes, calls') ->
    length shapes = length before + length after.
Proof.
  induction n as [|n IH]; intros before after calls shapes calls'.
  - cbn. intros [= <- _]. apply length_app.
  - destruct after as [|sh rest]; cbn [walk_shapes].
    + intros [= <- _]. apply length_app.
    + destruct (visit_shape disk data (mk_state before sh true rest calls))
        as [[[] st]|e] eqn:Hvisit; [|discriminate].
      intros Hwalk. apply IH in Hwalk. rewrite Hwalk.
      destruct (respects_visit disk data _ _ _ Hvisit) as (Hbefore & _ & Hcase).
      cbn in Hbefore, Hcase. rewrite Hbefore, length_app.
      destruct Hcase as [(-> & -> & _)|(_ & -> & p & -> & _)]; cbn.
      * lia.
      * rewrite length_app. cbn. lia.
Qed.

Lemma walk_data_length (disk : filesystem) (slide_index : nat)
    (slide_data : list SlideData) :
  forall slide calls slide' calls',
    walk_data disk slide_index slide_data slide calls = Ok (slide', calls') ->
    length slide' = length slide.
Proof.
  induction slide_data as [|data rest IH]; intros slide calls slide' calls';
    cbn [walk_data].
  - now intros [= <- _].
  - destruct (Z.eqb _ _); [|apply IH].
    destruct (walk_shapes disk data (length slide) [] slide calls)
      as [[slide1 calls1]|e] eqn:Hwalk; [|discriminate].
    intros Hrest. apply IH in Hrest. rewrite Hrest.
    now apply walk_shapes_length in Hwalk.
Qed.

Lemma walk_slides_lengths (disk : filesystem) (slide_data : list SlideData)
    (slides : list (list shape)) :
  forall slide_index calls slides' calls',
    walk_slides disk slide_index slide_data slides calls = Ok (slides', calls') ->
    map (@length shape) slides' = map (@length shape) slides.
Proof.
  induction slides as [|slide rest IH]; intros slide_index calls slides' calls';
    cbn [walk_slides].
  - now intros [= <- _].
  - destruct (walk_data disk slide_index slide_data slide calls)
      as [[slide1 calls1]|e] eqn:Hdata; [|discriminate].
    destruct (walk_slides disk (S slide_index) slide_data rest calls1)
      as [[rest1 calls2]|e] eqn:Hrest; [|discriminate].
    intros [= <- _]. cbn. f_equal.
    + now apply walk_data_length in Hdata.
    + now apply IH in Hrest.
Qed.

(** X10. When the pass over the deck returns, the deck has the slides it
    had, each with as many shapes as before: a shape is kept or exchanged
    for one picture, never dropped or doubled; and the slide records are the
    ones given. *)
Theorem pass_keeps_shape_counts (disk : filesystem) (self self' : PowerPointModifier)
    (calls : list call) :
  replace_placeholders disk self = Ok (self', calls) ->
  length (prs self') = length (prs self)
  /\ map (@length shape) (prs self') = map (@length shape) (prs self)
  /\ slide_data self' = slide_data self.
Proof.
  unfold replace_placeholders.
  destruct (walk_slides disk 0 (slide_data self) (prs self) [])
    as [[slides calls']|e] eqn:Hwalk; [|discriminate].
  intros [= <- _]. cbn. apply walk_slides_lengths in Hwalk.
  split; [|split; [exact Hwalk | reflexivity]].
  rewrite <- (length_map (@length shape) slides), Hwalk. apply length_map.
Qed.

Lemma pass_keeps_shape_counts_witness :
  length [[picture "/tmp/exists.png" 10 20 300 40];
          [text_box [mk_run "{{photo.png}}" None] NoAction]] = 2
  /\ map (@length shape)
       [[picture "/tmp/exists.png" 10 20 300 40];
        [text_box [mk_run "{{photo.png}}" None] NoAction]]
     = [1; 1]
  /\ [mk_SlideData 1 [("photo.png", "/tmp/exists.png")] []]
     = [mk_SlideData 1 [("photo.png", "/tmp/exists.png")] []].
Proof.
  apply (pass_keeps_shape_counts exists_png
           (mk_modifier
              [[text_box [mk_run "{{photo.png}}" None] NoAction];
               [text_box [mk_run "{{photo.png}}" None] NoAction]]
              [mk_SlideData 1 [("photo.png", "/tmp/exists.png")] []])
           (mk_modifier
              [[picture "/tmp/exists.png" 10 20 300 40];
               [text_box [mk_run "{{photo.png}}" None] NoAction]]
              [mk_SlideData 1 [("photo.png", "/tmp/exists.png")] []])
           [CallImageSwap "/tmp/exists.png"; CallHyperlink]).
  reflexivity.
Defined.

Lemma walk_data_unmatched (disk : filesystem) (slide_index : nat)
    (slide_data : list SlideData) (slide : list shape) (calls : list call) :
  Forall (fun data => slide_num data <> (Z.of_nat slide_index + 1)%Z) slide_data ->
  walk_data disk slide_index slide_data slide calls = Ok (slide, calls).
Proof.
  induction 1 as [|data rest Hdata Hrest IH]; cbn [walk_data]; [reflexivity|].
  destruct (Z.eqb_spec (Z.of_nat slide_index + 1) (slide_num data)) as [Heq|_];
    [now rewrite Heq in Hdata | exact IH].
Qed.

(** X11. A slide whose number (counted from 1) is the slide number of no
    record comes out of the pass exactly as it went in. *)
Theorem unmatched_slide_is_untouched (disk : filesystem)
    (self self' : PowerPointModifier) (calls : list call) (i : nat)
    (slide : list shape) :
  replace_placeholders disk self = Ok (self', calls) ->
  nth_error (prs self) i = Some slide ->
  Forall (fun data => slide_num data <> (Z.of_nat i + 1)%Z) (slide_data self) ->
  nth_error (prs self') i = Some slide.
Proof.
  unfold replace_placeholders.
  destruct (walk_slides disk 0 (slide_data self) (prs self) [])
    as [[slides calls']|e] eqn:Hwalk; [|discriminate].
  intros [= <- _] Hnth Hnone. cbn.
  assert (H : forall slides0 start calls0 slides1 calls1 j,
             walk_slides disk start (slide_data self) slides0 calls0
             = Ok (slides1, calls1) ->
             nth_error slides0 j = Some slide ->
             Forall (fun data => slide_num data <> (Z.of_nat (start + j) + 1)%Z)
               (slide_data self) ->
             nth_error slides1 j = Some slide).
  { induction slides0 as [|s0 rest IH]; intros start calls0 slides1 calls1 j;
      cbn [walk_slides].
    - intros _ Hj. now destruct j.
    - destruct (walk_data disk start (slide_data self) s0 calls0)
        as [[s1 c1]|e] eqn:Hdata; [|discriminate].
      destruct (walk_slides disk (S start) (slide_data self) rest c1)
        as [[rest1 c2]|e] eqn:Hrest; [|discriminate].
      intros [= <- _] Hj Hfree. destruct j as [|j]; cbn in Hj |- *.
      + injection Hj as ->. rewrite Nat.add_0_r in Hfree.
        rewrite (walk_data_unmatched disk start _ slide calls0 Hfree) in Hdata.
        now injection Hdata as <- _.
      + apply (IH (S start) c1 rest1 c2 j Hrest Hj).
        now replace (S start + j) with (start + S j) by lia. }
  apply (H (prs self) 0 [] slides calls' i Hwalk Hnth). exact Hnone.
Qed.

Lemma unmatched_slide_is_untouched_witness :
  nth_error
    (prs (mk_modifier
            [[picture "/tmp/exists.png" 10 20 300 40];
             [text_box [mk_run "{{photo.png}}" None] NoAction]]
            [mk_SlideData 1 [("photo.png", "/tmp/exists.png")] []])) 1
  = Some [text_box [mk_run "{{photo.png}}" None] NoAction].
Proof.
  apply (unmatched_slide_is_untouched exists_png
           (mk_modifier
              [[text_box [mk_run "{{photo.png}}" None] NoAction];
               [text_box [mk_run "{{photo.png}}" None] NoAction]]
              [mk_SlideData 1 [("photo.png", "/tmp/exists.png")] []])
           _ [CallImageSwap "/tmp/exists.png"; CallHyperlink] 1).
  - reflexivity.
  - reflexivity.
  - repeat constructor. discriminate.
Defined.

Lemma walk_data_skips (disk : filesystem) (slide_index : nat) (rec : SlideData)
    (a b : list SlideData) :
  slide_num rec <> (Z.of_nat slide_index + 1)%Z ->
  forall slide calls,
    walk_data disk slide_index (a ++ rec :: b) slide calls
    = walk_data disk slide_index (a ++ b) slide calls.
Proof.
  intros Hrec. induction a as [|data a IH]; intros slide calls; cbn [app walk_data].
  - destruct (Z.eqb_spec (Z.of_nat slide_index + 1) (slide_num rec)) as [Heq|_];
      [now rewrite Heq in Hrec | reflexivity].
  - destruct (Z.eqb _ (slide_num data)); [|apply IH].
    destruct (walk_shapes disk data (length slide) [] slide calls)
      as [[slide1 calls1]|e]; [apply IH | reflexivity].
Qed.

(** X12. A record whose slide number is not the number of a slide of the
    deck (zero, negative, or beyond the last slide) plays no part: the pass
    does to the slides what it does without the record, errors included. *)
Theorem record_off_the_deck_is_ignored (disk : filesystem) (rec : SlideData)
    (a b : list SlideData) (slides : list (list shape)) :
  (slide_num rec <= 0 \/ Z.of_nat (length slides) < slide_num rec)%Z ->
  walk_slides disk 0 (a ++ rec :: b) slides []
  = walk_slides disk 0 (a ++ b) slides [].
Proof.
  intros Hoff.
  assert (H : forall slides0 start calls,
             (slide_num rec <= Z.of_nat start
              \/ Z.of_nat (start + length slides0) < slide_num rec)%Z ->
             walk_slides disk start (a ++ rec :: b) slides0 calls
             = walk_slides disk start (a ++ b) slides0 calls).
  { induction slides0 as [|s0 rest IH]; intros start calls Hrange;
      cbn [walk_slides]; [reflexivity|].
    rewrite walk_data_skips by (cbn [length] in Hrange; lia).
    destruct (walk_data disk start (a ++ b) s0 calls) as [[s1 c1]|e];
      [|reflexivity].
    rewrite IH; [reflexivity|]. cbn [length] in Hrange. lia. }
  apply H. cbn. lia.
Qed.

Lemma record_off_the_deck_is_ignored_witness :
  walk_slides exists_png 0
    ([] ++ mk_SlideData 5 [("photo.png", "/tmp/exists.png")] []
        :: [mk_SlideData 1 [("name", "Alice")] []])
    [[text_box [mk_run "{{photo.png}} {{name}}" None] NoAction]] []
  = walk_slides exists_png 0
      ([] ++ [mk_SlideData 1 [("name", "Alice")] []])
      [[text_box [mk_run "{{photo.png}} {{name}}" None] NoAction]] [].
Proof.
  apply (record_off_the_deck_is_ignored exists_png
           (mk_SlideData 5 [("photo.png", "/tmp/exists.png")] []) []
           [mk_SlideData 1 [("name", "Alice")] []]
           [[text_box [mk_run "{{photo.png}} {{name}}" None] NoAction]]).
  right. cbn. lia.
Defined.

(** ** Loading, further *)

Section LoadOutcome.
Variable disk : filesystem.
Variable float_repr : Q -> string.




End LoadOutcome.



(** ** Placeholders made of digits *)

Lemma digit_char_facts (c : ascii) :
  Py.is_digit_char c = true ->
  Py.is_space c = false /\ c <> "+"%char /\ c <> "-"%char
  /\ (Py.is_decimal_char c = false -> Ascii.eqb c "_" = false).
Proof.
  destruct c as [[] [] [] [] [] [] [] []]; vm_compute; intros H;
    try discriminate H; repeat split; try discriminate; reflexivity.
Qed.

Lemma rstrip_cons (c : ascii) (s : string) :
  Py.is_space c = false -> Py.rstrip (String c s) = String c (Py.rstrip s).
Proof. intros Hc. cbn [Py.rstrip]. rewrite Hc. now destruct (Py.rstrip s). Qed.

Lemma rstrip_digits (s : string) :
  Py.all_chars Py.is_digit_char s = true -> Py.rstrip s = s.
Proof.
  induction s as [|c s IH]; [reflexivity|]. cbn [Py.all_chars].
  intros H. apply andb_prop in H. destruct H as [Hc Hs].
  destruct (digit_char_facts c Hc) as [Hspace _].
  now rewrite (rstrip_cons c s Hspace), IH.
Qed.

Lemma int_of_str_digits (s : string) :
  Py.all_chars Py.is_digit_char s = true ->
  Py.int_of_str s = Py.int_digits s.
Proof.
  intros Hs. unfold Py.int_of_str, Py.strip.
  destruct s as [|c s]; [reflexivity|].
  pose proof Hs as Hall. cbn [Py.all_chars] in Hs. apply andb_prop in Hs.
  destruct Hs as [Hc _]. destruct (digit_char_facts c Hc) as (Hspace & Hplus & Hminus & _).
  cbn [Py.lstrip]. rewrite Hspace, (rstrip_digits _ Hall).
  destruct c as [[] [] [] [] [] [] [] []]; try reflexivity;
    exfalso; (apply Hplus; reflexivity) || (apply Hminus; reflexivity).
Qed.

Lemma digit_count_decimal (s : string) :
  Py.all_chars Py.is_decimal_char s = true ->
  Py.digit_count s = String.length s.
Proof.
  induction s as [|c s IH]; [reflexivity|]. cbn [Py.all_chars].
  intros H. apply andb_prop in H. destruct H as [Hc Hs].
  cbn [Py.digit_count String.length]. now rewrite Hc, (IH Hs).
Qed.

Lemma digit_val_nonneg (c : ascii) :
  Py.is_decimal_char c = true -> (0 <= Py.digit_val c)%Z.
Proof.
  unfold Py.is_decimal_char, Py.digit_val. intros H.
  apply andb_prop in H. destruct H as [H _]. apply Nat.leb_le in H. lia.
Qed.

Lemma int_body_digits (s : string) :
  Py.all_chars Py.is_digit_char s = true ->
  forall prev acc,
    (Py.all_chars Py.is_decimal_char s = true ->
     s <> "" \/ prev = true ->
     exists k, Py.int_body prev acc s = Some k /\ ((0 <= acc)%Z -> (0 <= k)%Z))
    /\ (Py.all_chars Py.is_decimal_char s = false ->
        Py.int_body prev acc s = None).
Proof.
  induction s as [|c s IH]; intros Hall prev acc; cbn [Py.all_chars Py.int_body].
  - split; [|discriminate]. intros _ [H| ->]; [contradiction|].
    exists acc. tauto.
  - cbn [Py.all_chars] in Hall. apply andb_prop in Hall. destruct Hall as [Hc Hs].
    destruct (Py.is_decimal_char c) eqn:Hdec; cbn [andb].
    + destruct (IH Hs true (10 * acc + Py.digit_val c)%Z) as [Hsome Hnone].
      split; [|exact Hnone].
      intros Hdecs _. destruct (Hsome Hdecs (or_intror eq_refl)) as [k [Hk Hpos]].
      exists k. split; [exact Hk|]. intros Hacc. apply Hpos.
      pose proof (digit_val_nonneg c Hdec). lia.
    + split; [discriminate|]. intros _.
      destruct (digit_char_facts c Hc) as (_ & _ & _ & Hunder).
      now rewrite (Hunder Hdec).
Qed.

Lemma digit_index_cases (p : string) :
  Py.isdigit p = true ->
  (Py.all_chars Py.is_decimal_char p = true ->
   (Z.of_nat (String.length p) <= Py.int_max_str_digits)%Z ->
   exists k, Py.int_of_str p = Some k /\ (0 <= k)%Z)
  /\ (Py.all_chars Py.is_decimal_char p = false -> Py.int_of_str p = None)
  /\ ((Py.int_max_str_digits < Z.of_nat (String.length p))%Z ->
      Py.int_of_str p = None).
Proof.
  intros Hp.
  assert (Hall : Py.all_chars Py.is_digit_char p = true /\ p <> "").
  { destruct p; [discriminate | split; [exact Hp | discriminate]]. }
  destruct Hall as [Hall Hne]. rewrite (int_of_str_digits p Hall).
  destruct (int_body_digits p Hall false 0%Z) as [Hsome Hnone].
  unfold Py.int_digits.
  split; [|split].
  - intros Hdec Hlen. rewrite (digit_count_decimal p Hdec).
    apply Z.leb_le in Hlen. rewrite Hlen.
    destruct (Hsome Hdec (or_introl Hne)) as [k [Hk Hpos]].
    exists k. split; [exact Hk | apply Hpos; lia].
  - intros Hdec. rewrite (Hnone Hdec). now destruct (_ <=? _)%Z.
  - intros Hlen.
    destruct (Py.all_chars Py.is_decimal_char p) eqn:Hdec.
    + rewrite (digit_count_decimal p Hdec).
      apply Z.leb_gt in Hlen. now rewrite Hlen.
    + rewrite (Hnone eq_refl). now destruct (_ <=? _)%Z.
Qed.

Lemma digit_index_nonneg (p : string) (k : Z) :
  Py.isdigit p = true -> Py.int_of_str p = Some k -> (0 <= k)%Z.
Proof.
  intros Hp Hk. destruct (digit_index_cases p Hp) as (Hsome & Hnone & Hlong).
  destruct (Py.all_chars Py.is_decimal_char p) eqn:Hdec;
    [|rewrite (Hnone eq_refl) in Hk; discriminate].
  destruct (Z.le_gt_cases (Z.of_nat (String.length p)) Py.int_max_str_digits)
    as [Hlen|Hlen]; [|rewrite (Hlong Hlen) in Hk; discriminate].
  destruct (Hsome eq_refl Hlen) as [k' [Hk' Hpos]]. congruence.
Qed.

(** X14. For a placeholder that passes [isdigit], [int] gives an index,
    which is not negative, when all its characters are the digits 0 to 9
    and there are at most [int_max_str_digits] of them; it raises when one
    of them is another digit character (a superscript two, say), and when
    there are more than [int_max_str_digits] characters: [isdigit] admits
    more than [int] reads. *)
Theorem digit_placeholder_index (p : string) :
  Py.isdigit p = true ->
  (Py.all_chars Py.is_decimal_char p = true ->
   (Z.of_nat (String.length p) <= Py.int_max_str_digits)%Z ->
   exists k, Py.int_of_str p = Some k /\ (0 <= k)%Z)
  /\ (Py.all_chars Py.is_decimal_char p = false -> Py.int_of_str p = None)
  /\ ((Py.int_max_str_digits < Z.of_nat (String.length p))%Z ->
      Py.int_of_str p = None).
Proof.
  intros Hp. destruct (digit_index_cases p Hp) as (Hsome & Hnone & Hlong).
  split; [exact Hsome | split; [exact Hnone | exact Hlong]].
Qed.

Lemma digit_placeholder_index_witness :
  exists k, Py.int_of_str "007" = Some k /\ (0 <= k)%Z.
Proof.
  apply (proj1 (digit_placeholder_index "007" eq_refl)); [reflexivity|].
  vm_compute. discriminate.
Defined.

(** ** What the records hold *)

Section LoadCoverage.
Variable disk : filesystem.
Variable float_repr : Q -> string.

Lemma dict_mem_set_inv (c : list (string * string)) (p q v : string) :
  Py.dict_mem String.eqb (content_set c p v) q = true ->
  q = p \/ Py.dict_mem String.eqb c q = true.
Proof.
  destruct (string_dec p q) as [->|Hne]; [now left|]. right.
  unfold Py.dict_mem, content_set in *.
  now rewrite (dict_get_set_other String.eqb streqb_eq) in H.
Qed.

Lemma dict_set_nonempty {K V : Type} (eqb : K -> K -> bool) (d : list (K * V))
    (k : K) (v : V) :
  Py.dict_set eqb d k v <> [].
Proof. destruct d as [|[k' v'] d]; cbn; [|destruct (eqb k' k)]; discriminate. Qed.

(** What is in the records stays in them under the rows that follow. *)
Lemma load_rows_grows (rows : list row) :
  forall d d' n sd,
    load_rows disk float_repr d rows = Ok d' ->
    slides_get d n = Some sd ->
    exists sd',
      slides_get d' n = Some sd'
      /\ (forall p, Py.dict_mem String.eqb (content sd) p = true ->
                    Py.dict_mem String.eqb (content sd') p = true)
      /\ (forall k, Py.dict_mem Z.eqb (images sd) k = true ->
                    Py.dict_mem Z.eqb (images sd') k = true).
Proof.
  induction rows as [|r rows IH]; intros d d' n sd; cbn [load_rows].
  - intros [= <-] Hget. exists sd. tauto.
  - destruct (load_row disk float_repr d r) as [d1|e] eqn:Hrow; [|discriminate].
    intros Hrest Hget.
    destruct (load_row_ok _ _ _ _ _ Hrow) as [n0 [im [Hn0 [Hd1 Him]]]].
    destruct (Z.eq_dec n0 n) as [->|Hne].
    + unfold record_at in Hd1, Him. rewrite Hget in Hd1, Him.
      assert (Hget1 : slides_get d1 n
                      = Some (mk_SlideData (slide_num sd)
                                (content_set (content sd) (row_placeholder r)
                                   (value_of float_repr r)) im))
        by (rewrite Hd1; apply (dict_get_set_same Z.eqb Zeqb_eq)).
      destruct (IH d1 d' n _ Hrest Hget1) as [sd' [Hget' [Hc Hi]]].
      exists sd'. split; [exact Hget'|]. split.
      * intros p Hp. apply Hc. cbn.
        now apply (dict_mem_set String.eqb streqb_eq).
      * intros k Hk. apply Hi. cbn.
        destruct Him as [[_ [idx [_ ->]]]|[_ ->]]; [|exact Hk].
        now apply (dict_mem_set Z.eqb Zeqb_eq).
    + apply (IH d1 d' n sd Hrest). rewrite Hd1. unfold slides_get, slides_set.
      now rewrite (dict_get_set_other Z.eqb Zeqb_eq).
Qed.

(** Every row leaves its placeholder, and its image binding if it has one,
    in the record of its slide. *)
Lemma load_rows_records (rows : list row) :
  forall d d' r,
    load_rows disk float_repr d rows = Ok d' ->
    In r rows ->
    exists n sd,
      py_int (row_slide_num r) = Ok n
      /\ slides_get d' n = Some sd
      /\ Py.dict_mem String.eqb (content sd) (row_placeholder r) = true
      /\ (forall k, binds_image disk float_repr n k r ->
                    Py.dict_mem Z.eqb (images sd) k = true).
Proof.
  induction rows as [|r0 rows IH]; intros d d' r; cbn [load_rows]; [intros _ []|].
  destruct (load_row disk float_repr d r0) as [d1|e] eqn:Hrow; [|discriminate].
  intros Hrest [->|Hin]; [|now apply (IH d1 d' r)].
  destruct (load_row_ok _ _ _ _ _ Hrow) as [n [im [Hn _]]].
  destruct (load_row_writes disk float_repr d d1 r n Hn Hrow)
    as [sd [Hget [Hcontent Himage]]].
  destruct (load_rows_grows rows d1 d' n sd Hrest Hget) as [sd' [Hget' [Hc Hi]]].
  exists n, sd'. split; [exact Hn|]. split; [exact Hget'|]. split.
  - apply Hc. unfold Py.dict_mem. unfold content_get in Hcontent.
    now rewrite Hcontent.
  - intros k (_ & Hfile & Hdigit & Hk). apply Hi.
    unfold Py.dict_mem. specialize (Himage k Hfile Hdigit Hk).
    unfold images_get in Himage. now rewrite Himage.
Qed.

(** Every key of the content of a record is the placeholder of a row of
    its slide, and no record is without content. *)
Lemma load_rows_content_source (rows : list row) :
  forall done d d',
    Forall (fun e => content (snd e) <> []
                     /\ forall p,
                          Py.dict_mem String.eqb (content (snd e)) p = true ->
                          exists r, In r done /\ binds_content (fst e) p r) d ->
    load_rows disk float_repr d rows = Ok d' ->
    Forall (fun e => content (snd e) <> []
                     /\ forall p,
                          Py.dict_mem String.eqb (content (snd e)) p = true ->
                          exists r, In r (done ++ rows) /\ binds_content (fst e) p r)
      d'.
Proof.
  induction rows as [|r rows IH]; intros done d d' Hd; cbn [load_rows].
  - intros [= <-]. now rewrite app_nil_r.
  - destruct (load_row disk float_repr d r) as [d1|e] eqn:Hrow; [|discriminate].
    intros Hrest.
    replace (done ++ r :: rows) with ((done ++ [r]) ++ rows)
      by now rewrite <- app_assoc.
    apply (IH _ d1 d'); [|exact Hrest].
    destruct (load_row_ok _ _ _ _ _ Hrow) as [n [im [Hn [-> _]]]].
    apply (dict_set_entries Z.eqb Zeqb_eq).
    + revert Hd. apply Forall_impl. intros e [Hne He]. split; [exact Hne|].
      intros p Hp. destruct (He p Hp) as [r0 [Hin Hr0]].
      exists r0. split; [apply in_or_app; now left | exact Hr0].
    + cbn. split; [apply dict_set_nonempty|].
      intros p Hp. apply dict_mem_set_inv in Hp. destruct Hp as [->|Hp].
      * exists r. split; [apply in_or_app; right; now left | now split].
      * unfold record_at in Hp.
        destruct (slides_get d n) as [sd|] eqn:Hget; [|discriminate].
        apply (dict_get_in Z.eqb Zeqb_eq) in Hget.
        rewrite Forall_forall in Hd. destruct (Hd _ Hget) as [_ He].
        destruct (He p Hp) as [r0 [Hin Hr0]].
        exists r0. split; [apply in_or_app; now left | exact Hr0].
Qed.

End LoadCoverage.

(** X15. The content of the loaded records holds the placeholders of the
    rows, slide by slide: every row has its placeholder as a key of the
    content of the record of its slide, every key of the content of a
    record is the placeholder of some row of that slide, and no record has
    an empty content. *)
Theorem content_keys_are_the_placeholders (disk : filesystem)
    (float_repr : Q -> string) (rows : list row) (recs : list SlideData) :
  load_slide_data disk float_repr rows = Ok recs ->
  (forall r, In r rows ->
     exists rec,
       In rec recs
       /\ py_int (row_slide_num r) = Ok (slide_num rec)
       /\ Py.dict_mem String.eqb (content rec) (row_placeholder r) = true)
  /\ (forall rec, In rec recs ->
        content rec <> []
        /\ forall p,
             Py.dict_mem String.eqb (content rec) p = true ->
             exists r, In r rows /\ binds_content (slide_num rec) p r).
Proof.
  unfold load_slide_data.
  destruct (load_rows disk float_repr [] rows) as [d|e] eqn:Hrows; [|discriminate].
  intros [= <-].
  assert (Hkeyed : keyed d) by (eapply load_rows_keyed; [|exact Hrows]; constructor).
  unfold keyed in Hkeyed. rewrite Forall_forall in Hkeyed. split.
  - intros r Hin.
    destruct (load_rows_records disk float_repr rows [] d r Hrows Hin)
      as (n & sd & Hn & Hget & Hmem & _).
    exists sd. split; [now apply (dict_get_value Z.eqb Zeqb_eq d n)|].
    apply (dict_get_in Z.eqb Zeqb_eq) in Hget.
    pose proof (Hkeyed _ Hget) as Hnum. cbn in Hnum. rewrite Hnum. now split.
  - intros rec Hin. unfold Py.dict_values in Hin. apply in_map_iff in Hin.
    destruct Hin as [[n sd] [Hsd Hin]]. cbn in Hsd. subst sd.
    pose proof (load_rows_content_source disk float_repr rows [] [] d
                  (Forall_nil _) Hrows) as Hsrc.
    rewrite Forall_forall in Hsrc. destruct (Hsrc _ Hin) as [Hne Hp].
    cbn in Hne, Hp. pose proof (Hkeyed _ Hin) as Hnum. cbn in Hnum.
    rewrite Hnum. now split.
Qed.

Lemma content_keys_are_the_placeholders_witness :
  exists rec,
    In rec [mk_SlideData 2 [("title", "Draft"); ("03", "/tmp/a.png")]
              [(3%Z, "/tmp/a.png")]]
    /\ py_int (CInt 2) = Ok (slide_num rec)
    /\ Py.dict_mem String.eqb (content rec) "03" = true.
Proof.
  apply (proj1 (content_keys_are_the_placeholders two_pictures no_floats
                  [mk_row (CInt 2) "title" (CStr "Draft");
                   mk_row (CInt 2) "03" (CStr "/tmp/a.png")]
                  [mk_SlideData 2 [("title", "Draft"); ("03", "/tmp/a.png")]
                     [(3%Z, "/tmp/a.png")]]
                  eq_refl)
           (mk_row (CInt 2) "03" (CStr "/tmp/a.png"))).
  right. now left.
Defined.

(** X16. The images of the loaded records hold the bindings of the rows:
    every row whose value is a file and whose placeholder reads as the
    index [k] has [k] as a key of the images of the record of its slide;
    and every key of the images of a record is not negative and maps to a
    path that was a file when the table was loaded. *)
Theorem image_keys_are_the_bound_positions (disk : filesystem)
    (float_repr : Q -> string) (rows : list row) (recs : list SlideData) :
  load_slide_data disk float_repr rows = Ok recs ->
  (forall r n k, In r rows ->
     binds_image disk float_repr n k r ->
     exists rec,
       In rec recs /\ slide_num rec = n
       /\ Py.dict_mem Z.eqb (images rec) k = true)
  /\ (forall rec k v, In rec recs ->
        images_get (images rec) k = Some v ->
        (0 <= k)%Z /\ isfile disk v = true).
Proof.
  unfold load_slide_data.
  destruct (load_rows disk float_repr [] rows) as [d|e] eqn:Hrows; [|discriminate].
  intros [= <-].
  assert (Hkeyed : keyed d) by (eapply load_rows_keyed; [|exact Hrows]; constructor).
  unfold keyed in Hkeyed. rewrite Forall_forall in Hkeyed. split.
  - intros r n k Hin Hbind.
    destruct (load_rows_records disk float_repr rows [] d r Hrows Hin)
      as (n' & sd & Hn & Hget & _ & Himage).
    destruct Hbind as (Hn' & Hrest). rewrite Hn in Hn'. injection Hn' as ->.
    exists sd. split; [now apply (dict_get_value Z.eqb Zeqb_eq d n)|].
    split.
    + apply (dict_get_in Z.eqb Zeqb_eq) in Hget. exact (Hkeyed _ Hget).
    + apply Himage. now split.
  - intros rec k v Hin Hk. unfold Py.dict_values in Hin. apply in_map_iff in Hin.
    destruct Hin as [[n sd] [Hsd Hin]]. cbn in Hsd. subst sd.
    assert (Hsrc : Forall (sourced disk float_repr ([] ++ rows)) d)
      by (eapply load_rows_sourced; [|exact Hrows]; constructor).
    rewrite Forall_forall in Hsrc.
    destruct (Hsrc _ Hin k v Hk) as [r [_ [(_ & Hfile & Hdigit & Hidx) [Hv _]]]].
    subst v. split; [|exact Hfile].
    exact (digit_index_nonneg _ _ Hdigit Hidx).
Qed.

Lemma image_keys_are_the_bound_positions_witness :
  exists rec,
    In rec [mk_SlideData 2 [("title", "Draft"); ("03", "/tmp/a.png")]
              [(3%Z, "/tmp/a.png")]]
    /\ slide_num rec = 2%Z
    /\ Py.dict_mem Z.eqb (images rec) 3%Z = true.
Proof.
  apply (proj1 (image_keys_are_the_bound_positions two_pictures no_floats
                  [mk_row (CInt 2) "title" (CStr "Draft");
                   mk_row (CInt 2) "03" (CStr "/tmp/a.png")]
                  [mk_SlideData 2 [("title", "Draft"); ("03", "/tmp/a.png")]
                     [(3%Z, "/tmp/a.png")]]
                  eq_refl)
           (mk_row (CInt 2) "03" (CStr "/tmp/a.png")) 2%Z 3%Z).
  - right. now left.
  - repeat split; reflexivity.
Defined.

(** ** Image names *)

Lemma lower_char_twice (c : ascii) :
  Py.lower_char (Py.lower_char c) = Py.lower_char c.
Proof. destruct c as [[] [] [] [] [] [] [] []]; reflexivity. Qed.

Lemma lower_twice (s : string) : Py.lower (Py.lower s) = Py.lower s.
Proof.
  induction s as [|c s IH]; cbn; [reflexivity|].
  now rewrite lower_char_twice, IH.
Qed.

(** X17. A name is an image name exactly when, put in lower case, it ends
    with one of the four extensions; so the test does not tell a name from
    its lower-case form, and a name that is a bare extension passes it. *)
Theorem image_names_by_extension (placeholder : string) :
  (is_image_name placeholder = true
   <-> exists stem ext,
         In ext [".png"; ".jpg"; ".jpeg"; ".gif"]
         /\ Py.lower placeholder = (stem ++ ext)%string)
  /\ is_image_name (Py.lower placeholder) = is_image_name placeholder.
Proof.
  split.
  - unfold is_image_name, image_extensions. rewrite existsb_exists. split.
    + intros [ext [Hin Hends]]. apply endswith_iff in Hends.
      destruct Hends as [stem Hstem]. now exists stem, ext.
    + intros [stem [ext [Hin Hlower]]]. exists ext. split; [exact Hin|].
      apply endswith_iff. now exists stem.
  - unfold is_image_name. now rewrite lower_twice.
Qed.

(** ** The text of a shape without image swaps *)

Lemma update_nth_middle {A : Type} (f : A -> A) (l : list A) (x : A)
    (l' : list A) :
  update_nth (length l) f (l ++ x :: l') = l ++ f x :: l'.
Proof. induction l as [|y l IH]; cbn; [reflexivity | now rewrite IH]. Qed.

Lemma map_update_nth {A B : Type} (h : A -> B) (f : A -> A) (f' : B -> B)
    (n : nat) (l : list A) :
  (forall x, h (f x) = f' (h x)) ->
  map h (update_nth n f l) = update_nth n f' (map h l).
Proof.
  intros Hf. revert n. induction l as [|x l IH]; intros n; [now destruct n|].
  destruct n as [|n]; cbn; [now rewrite Hf | now rewrite IH].
Qed.

Lemma for_each_app {A : Type} (body : A -> M unit) (l1 l2 : list A)
    (st : slide_state) :
  for_each (l1 ++ l2) body st
  = bind (for_each l1 body) (fun _ => for_each l2 body) st.
Proof.
  revert st. induction l1 as [|x l1 IH]; intros st; cbn [app for_each].
  - reflexivity.
  - unfold bind. destruct (body x st) as [[[] st1]|e]; [|reflexivity].
    rewrite IH. reflexivity.
Qed.

Lemma text_only_trans (n1 n2 : nat) (a b c : slide_state) :
  text_only n1 a b -> text_only n2 b c -> text_only (n1 + n2) a c.
Proof.
  intros (H1 & H2 & H3 & H4 & H5 & H6) (K1 & K2 & K3 & K4 & K5 & K6).
  unfold text_only. rewrite K1, K2, K3, K4, K6, H1, H2, H3, H4, H6.
  rewrite repeat_app, app_assoc.
  split; [reflexivity|]. split; [reflexivity|]. split; [reflexivity|].
  split; [reflexivity|]. split; [|reflexivity].
  now apply (same_box_trans _ (st_shape b)).
Qed.

Lemma text_only_refl (st : slide_state) : text_only 0 st st.
Proof.
  unfold text_only. cbn. rewrite app_nil_r.
  split; [reflexivity|]. split; [reflexivity|]. split; [reflexivity|].
  split; [reflexivity|]. split; [apply same_box_refl | reflexivity].
Qed.

Section LiteralPass.
Variable disk : filesystem.
Variable content : list (string * string).

Lemma token_without_file (m : Re.re_match) (st : slide_state) :
  ~ file_token disk content m ->
  _replace_text_or_image disk m content st = Ok (literal content m, st).
Proof.
  intros Hno. unfold _replace_text_or_image, literal, file_token in *.
  destruct (is_image_name _); [|reflexivity].
  destruct (isfile disk _); [|reflexivity].
  exfalso. now apply Hno.
Qed.

(** One turn of the loop, on the run at place [length B] of the paragraph
    at place [length A], whose text is [t]. *)
Lemma run_step_literal (A : list (list string)) (B : list string) (t : string)
    (C : list string) (D : list (list string)) (st : slide_state)
    (tfc : list paragraph) :
  text_frame (st_shape st) = Some tfc ->
  frame_texts tfc = A ++ (B ++ t :: C) :: D ->
  (forall m, In (Re.Tok m) (Re.pieces t) -> ~ file_token disk content m) ->
  exists st' tfc',
    (text <- run_text_at (length A) (length B) ;;
     new_text <- sub_with (fun m => _replace_text_or_image disk m content) text ;;
     set_run_text (length A) (length B) new_text ;;
     _identify_and_replace_hyperlink content) st = Ok (tt, st')
    /\ text_frame (st_shape st') = Some tfc'
    /\ frame_texts tfc'
       = A ++ (B ++ escape (Re.sub (literal content) t) :: C) :: D
    /\ text_only 1 st st'.
Proof.
  intros Hframe Htexts Htoks.
  assert (Hpara : map run_text (nth (length A) tfc []) = B ++ t :: C).
  { pose proof (map_nth (map run_text) tfc [] (length A)) as Hm.
    unfold frame_texts in Htexts. rewrite Htexts, nth_middle in Hm.
    symmetry. exact Hm. }
  assert (Hrun : exists r, nth_error (nth (length A) tfc []) (length B) = Some r
                           /\ run_text r = t).
  { pose proof (nth_error_map run_text (length B) (nth (length A) tfc [])) as Hm.
    rewrite Hpara, nth_error_app2, Nat.sub_diag in Hm by lia. cbn in Hm.
    destruct (nth_error (nth (length A) tfc []) (length B)) as [r|];
      [|discriminate].
    exists r. split; [reflexivity|]. now injection Hm. }
  destruct Hrun as [r [Hr Ht]].
  set (new_text := escape (Re.sub (literal content) t)).
  set (tf1 := update_nth (length A)
                (update_nth (length B) (fun r0 => mk_run new_text (run_link r0)))
                tfc).
  assert (Htexts1 : frame_texts tf1 = A ++ (B ++ new_text :: C) :: D).
  { unfold tf1, frame_texts.
    rewrite (map_update_nth (map run_text) _
               (update_nth (length B) (fun _ => new_text))).
    - unfold frame_texts in Htexts. rewrite Htexts, update_nth_middle.
      now rewrite update_nth_middle.
    - intros p. now apply map_update_nth. }
  set (sh1 := with_text_frame (st_shape st) (Some tf1)).
  destruct (relink_items_frame (frame_text tf1) content sh1 tf1 eq_refl)
    as [tf2 [Hframe2 [Htexts2 Htable2]]].
  exists (mk_state (st_before st) (relink_items (frame_text tf1) content sh1)
            (st_attached st) (st_after st) (st_calls st ++ [CallHyperlink])).
  exists tf2. split; [|split; [exact Hframe2|split]].
  - unfold bind at 1. unfold run_text_at, bind at 1, get_shape.
    rewrite Hframe, Hr. unfold ret. unfold bind at 1. unfold sub_with.
    rewrite (sub_pieces_pure _ (literal content) st).
    + fold (Re.sub (literal content) (run_text r)). rewrite Ht.
      unfold bind at 1. unfold set_run_text, bind at 1, get_shape, set_shape.
      rewrite Hframe. cbn [option_map]. fold new_text. fold tf1. fold sh1.
      apply (rewriter_result content
               (mk_state (st_before st) sh1 (st_attached st) (st_after st)
                  (st_calls st)) tf1).
      reflexivity.
    + intros m Hm. apply token_without_file. apply Htoks. now rewrite <- Ht.
  - now rewrite Htexts2.
  - unfold text_only. cbn [st_before st_attached st_after st_calls st_shape].
    split; [reflexivity|]. split; [reflexivity|]. split; [reflexivity|].
    split; [reflexivity|]. split.
    + apply (same_box_trans _ sh1); [|apply relink_items_same_box].
      unfold sh1, same_box, with_text_frame. cbn. tauto.
    + rewrite Htable2. reflexivity.
Qed.

(** The turns of the loop on the runs [C] of one paragraph. *)
Lemma paragraph_literal (C : list string) :
  forall (A : list (list string)) (B : list string) (D : list (list string))
         (st : slide_state) (tfc : list paragraph),
    text_frame (st_shape st) = Some tfc ->
    frame_texts tfc = A ++ (B ++ C) :: D ->
    (forall t m, In t C -> In (Re.Tok m) (Re.pieces t) ->
                 ~ file_token disk content m) ->
    exists st' tfc',
      for_each (map (pair (length A)) (seq (length B) (length C)))
        (fun '(i, j) =>
           text <- run_text_at i j ;;
           new_text <- sub_with (fun m => _replace_text_or_image disk m content)
                         text ;;
           set_run_text i j new_text ;;
           _identify_and_replace_hyperlink content) st = Ok (tt, st')
      /\ text_frame (st_shape st') = Some tfc'
      /\ frame_texts tfc'
         = A ++ (B ++ map (fun t => escape (Re.sub (literal content) t)) C) :: D
      /\ text_only (length C) st st'.
Proof.
  induction C as [|t C IH]; intros A B D st tfc Hframe Htexts Htoks.
  - exists st, tfc. split; [reflexivity|]. split; [exact Hframe|].
    split; [exact Htexts | apply text_only_refl].
  - destruct (run_step_literal A B t C D st tfc Hframe Htexts)
      as (st1 & tf1 & Hstep & Hframe1 & Htexts1 & Honly1).
    { intros m Hm. apply (Htoks t m); [now left | exact Hm]. }
    destruct (IH A (B ++ [escape (Re.sub (literal content) t)]) D st1 tf1 Hframe1)
      as (st' & tfc' & Hloop & Hframe' & Htexts' & Honly').
    { now rewrite <- app_assoc. }
    { intros t0 m Hin. apply Htoks. now right. }
    exists st', tfc'. split; [|split; [exact Hframe'|split]].
    + cbn [length seq map for_each]. unfold bind at 1. rewrite Hstep.
      rewrite length_app, Nat.add_1_r in Hloop. exact Hloop.
    + rewrite Htexts'. now rewrite <- app_assoc.
    + apply (text_only_trans 1 (length C) st st1 st' Honly1 Honly').
Qed.

(** The turns of the loop on the paragraphs [rest]. *)
Lemma paragraphs_literal (rest : list paragraph) :
  forall (A : list (list string)) (st : slide_state) (tfc : list paragraph),
    text_frame (st_shape st) = Some tfc ->
    frame_texts tfc = A ++ frame_texts rest ->
    (forall p r m, In p rest -> In r p -> In (Re.Tok m) (Re.pieces (run_text r)) ->
                   ~ file_token disk content m) ->
    exists st' tfc',
      for_each (run_positions (length A) rest)
        (fun '(i, j) =>
           text <- run_text_at i j ;;
           new_text <- sub_with (fun m => _replace_text_or_image disk m content)
                         text ;;
           set_run_text i j new_text ;;
           _identify_and_replace_hyperlink content) st = Ok (tt, st')
      /\ text_frame (st_shape st') = Some tfc'
      /\ frame_texts tfc'
         = A ++ map (map (fun t => escape (Re.sub (literal content) t)))
                  (frame_texts rest)
      /\ text_only (length (concat rest)) st st'.
Proof.
  induction rest as [|p rest IH]; intros A st tfc Hframe Htexts Htoks.
  - exists st, tfc. split; [reflexivity|]. split; [exact Hframe|].
    split; [exact Htexts | apply text_only_refl].
  - cbn [run_positions]. cbn [frame_texts map] in Htexts.
    destruct (paragraph_literal (map run_text p) A [] (frame_texts rest) st tfc
                Hframe Htexts)
      as (st1 & tf1 & Hpara & Hframe1 & Htexts1 & Honly1).
    { intros t m Hin. apply in_map_iff in Hin. destruct Hin as [r [<- Hr]].
      apply (Htoks p r m); [now left | exact Hr]. }
    destruct (IH (A ++ [map (fun t => escape (Re.sub (literal content) t))
                          (map run_text p)]) st1 tf1 Hframe1)
      as (st' & tfc' & Hloop & Hframe' & Htexts' & Honly').
    { rewrite Htexts1. now rewrite <- app_assoc. }
    { intros p0 r m Hin. apply Htoks. now right. }
    exists st', tfc'. split; [|split; [exact Hframe'|split]].
    + rewrite for_each_app. unfold bind at 1. cbn [length] in Hpara.
      rewrite length_map in Hpara. rewrite Hpara.
      rewrite length_app, Nat.add_1_r in Hloop. exact Hloop.
    + rewrite Htexts'. cbn [frame_texts map]. now rewrite <- app_assoc.
    + cbn [concat]. rewrite length_app.
      rewrite length_map in Honly1.
      apply (text_only_trans _ _ st st1 st' Honly1 Honly').
Qed.

End LiteralPass.

(** X18. When no token of the runs of a shape resolves to a file that
    exists, the pass over its text succeeds and assigns to every run its
    substitution, in which a token that names an image stays and any other
    token follows the literal-text rule; the run then holds that text as the
    setter of [run.text] stores it, with its control characters, tab and
    line feed apart, escaped. The paragraphs and runs
    are the same in number, the shapes around, the place of the shape in the
    tree, its box and its table are as before, and the hyperlink rewriter
    has been called once for each run and nothing else. A run ["{{note}}"]
    whose value holds a carriage return between [a] and [b] comes out as
    ["a_x000D_b"]. *)
Theorem text_pass_substitutes_every_run :
  (forall (disk : filesystem) (mapping : list (string * string))
          (st : slide_state) (tf : list paragraph),
     text_frame (st_shape st) = Some tf ->
     (forall p r m, In p tf -> In r p -> In (Re.Tok m) (Re.pieces (run_text r)) ->
                    ~ file_token disk mapping m) ->
     exists st' tf',
       _replace_text_placeholders disk mapping st = Ok (tt, st')
       /\ text_frame (st_shape st') = Some tf'
       /\ map (map run_text) tf'
          = map (map (fun r => escape (Re.sub (literal mapping) (run_text r)))) tf
       /\ st_before st' = st_before st
       /\ st_attached st' = st_attached st
       /\ st_after st' = st_after st
       /\ st_calls st' = st_calls st ++ repeat CallHyperlink (length (concat tf))
       /\ same_box (st_shape st) (st_shape st')
       /\ table (st_shape st') = table (st_shape st))
  /\ _replace_text_placeholders exists_png
       [("note", String "a" (String (ascii_of_nat 13) "b"))]
       (alone (text_box [mk_run "{{note}}" None] NoAction))
     = Ok (tt, mk_state [] (text_box [mk_run "a_x000D_b" None] NoAction)
                 true [] [CallHyperlink]).
Proof.
  split; [|reflexivity].
  intros disk mapping st tf Hframe Htoks.
  destruct (paragraphs_literal disk mapping tf [] st tf Hframe eq_refl Htoks)
    as (st' & tf' & Hloop & Hframe' & Htexts & Honly).
  exists st', tf'. split; [|split; [exact Hframe'|split]].
  - unfold _replace_text_placeholders, bind at 1, get_shape. rewrite Hframe.
    exact Hloop.
  - fold (frame_texts tf'). rewrite Htexts. cbn [app]. unfold frame_texts.
    rewrite map_map. apply map_ext. intros p. now rewrite map_map.
  - exact Honly.
Qed.

Lemma text_pass_substitutes_every_run_witness :
  exists st' tf',
    _replace_text_placeholders exists_png [("name", "Alice")]
      (alone (text_box [mk_run "Hello {{name}}!" None; mk_run "{{cat.png}}" None]
                NoAction))
    = Ok (tt, st')
    /\ text_frame (st_shape st') = Some tf'
    /\ map (map run_text) tf' = [["Hello Alice!"; "{{cat.png}}"]]
    /\ st_before st' = []
    /\ st_attached st' = true
    /\ st_after st' = []
    /\ st_calls st' = [] ++ repeat CallHyperlink 2
    /\ same_box
         (text_box [mk_run "Hello {{name}}!" None; mk_run "{{cat.png}}" None]
            NoAction) (st_shape st')
    /\ table (st_shape st') = None.
Proof.
  apply (proj1 text_pass_substitutes_every_run exists_png [("name", "Alice")]
           (alone (text_box [mk_run "Hello {{name}}!" None; mk_run "{{cat.png}}" None]
                     NoAction))
           [[mk_run "Hello {{name}}!" None; mk_run "{{cat.png}}" None]]).
  - reflexivity.
  - intros p r m [<-|[]] [<-|[<-|[]]] Hm [Hname Hfile]; cbn in Hm.
    + repeat (destruct Hm as [Hm|Hm]; [try discriminate Hm|]); [|contradiction].
      injection Hm as <-. discriminate Hname.
    + destruct Hm as [Hm|[]]. injection Hm as <-. discriminate Hfile.
Defined.

Lemma image_names_by_extension_witness :
  is_image_name "Photo.PNG" = true.
Proof.
  apply (proj2 (proj1 (image_names_by_extension "Photo.PNG"))).
  exists "photo", ".png". split; [now left | reflexivity].
Defined.

(** ** Shapes without tokens *)

Lemma with_table_same (sh : shape) : with_table sh (table sh) = sh.
Proof. now destruct sh. Qed.

Lemma with_text_frame_same (sh : shape) :
  with_text_frame sh (text_frame sh) = sh.
Proof. now destruct sh. Qed.

Lemma map_same {A : Type} (f : A -> A) (l : list A) :
  (forall x, In x l -> f x = x) -> map f l = l.
Proof.
  intros Hf. induction l as [|x l IH]; cbn; [reflexivity|].
  rewrite Hf by now left. rewrite IH; [reflexivity|].
  intros y Hy. apply Hf. now right.
Qed.

(** X19. The pass over a table none of whose runs has an opening pair of
    braces assigns to every run its own text, which the setter of
    [run.text] stores with its control characters escaped: the table comes
    out exactly as it went in, the slide with it, when moreover no run
    holds a control character other than tab and line feed. A shape
    without a table makes the pass raise [AttributeError]. *)
Theorem table_without_tokens_is_kept (content : list (string * string))
    (st : slide_state) :
  (forall rows,
     table (st_shape st) = Some rows ->
     (forall row cell p r,
        In row rows -> In cell row -> In p cell -> In r p ->
        Py.contains "{{" (run_text r) = false) ->
     _replace_table_placeholder content st
     = Ok (tt,
           mk_state (st_before st)
             (with_table (st_shape st)
                (Some (map (map (map (map (fun r =>
                   mk_run (escape (run_text r)) (run_link r))))) rows)))
             (st_attached st) (st_after st) (st_calls st))
     /\ ((forall row cell p r,
            In row rows -> In cell row -> In p cell -> In r p ->
            no_control (run_text r) = true) ->
         _replace_table_placeholder content st = Ok (tt, st)))
  /\ (table (st_shape st) = None ->
      _replace_table_placeholder content st = Err AttributeError).
Proof.
  split.
  - intros rows Htable Hplain.
    assert (Hpass : _replace_table_placeholder content st
                    = Ok (tt,
                          mk_state (st_before st)
                            (with_table (st_shape st)
                               (Some (map (map (map (map (fun r =>
                                  mk_run (escape (run_text r)) (run_link r)))))
                                  rows)))
                            (st_attached st) (st_after st) (st_calls st))).
    { assert (Hrows : map (map (map (map (sub_run content)))) rows
                      = map (map (map (map (fun r =>
                          mk_run (escape (run_text r)) (run_link r))))) rows).
      { apply map_ext_in. intros row Hrow. apply map_ext_in. intros cell Hcell.
        apply map_ext_in. intros p Hp. apply map_ext_in. intros r Hr.
        unfold sub_run.
        now rewrite sub_without_braces
          by (left; now apply (Hplain row cell p r)). }
      unfold _replace_table_placeholder, bind, get_shape, set_shape.
      rewrite Htable, Hrows. reflexivity. }
    split; [exact Hpass|].
    intros Hclean. rewrite Hpass.
    replace (map (map (map (map (fun r =>
               mk_run (escape (run_text r)) (run_link r))))) rows) with rows.
    + destruct st as [before sh attached after calls].
      destruct sh as [l t w h tf tb idx a img]. cbn in Htable |- *.
      subst tb. reflexivity.
    + symmetry. apply map_same. intros row Hrow.
      apply map_same. intros cell Hcell. apply map_same. intros p Hp.
      apply map_same. intros r Hr.
      rewrite escape_plain by now apply (Hclean row cell p r).
      now destruct r.
  - intros Hnone. unfold _replace_table_placeholder, bind, get_shape.
    now rewrite Hnone.
Qed.

Lemma table_without_tokens_is_kept_witness :
  _replace_table_placeholder [("Total", "42")]
    (alone (table_frame [mk_run "Total }}" (Some "http://old")]))
  = Ok (tt, alone (table_frame [mk_run "Total }}" (Some "http://old")])).
Proof.
  destruct (proj1 (table_without_tokens_is_kept [("Total", "42")]
                     (alone (table_frame
                               [mk_run "Total }}" (Some "http://old")])))
              [[[[mk_run "Total }}" (Some "http://old")]]]] eq_refl)
    as [_ Hkept].
  - intros row cell p r [<-|[]] [<-|[]] [<-|[]] [<-|[]]. reflexivity.
  - apply Hkept.
    intros row cell p r [<-|[]] [<-|[]] [<-|[]] [<-|[]]. reflexivity.
Defined.

Lemma positions_valid (rest : list paragraph) :
  forall i0 i j,
    In (i, j) (run_positions i0 rest) ->
    exists p r,
      nth_error rest (i - i0) = Some p /\ i0 <= i
      /\ nth_error p j = Some r.
Proof.
  induction rest as [|p rest IH]; intros i0 i j; cbn [run_positions]; [intros []|].
  intros Hin. apply in_app_or in Hin. destruct Hin as [Hin|Hin].
  - apply in_map_iff in Hin. destruct Hin as [j' [Heq Hj]].
    injection Heq as -> ->. apply in_seq in Hj.
    destruct (nth_error p j) as [r|] eqn:Hr.
    + exists p, r. rewrite Nat.sub_diag. cbn. auto.
    + apply nth_error_None in Hr. lia.
  - destruct (IH (S i0) i j Hin) as (p' & r & Hp & Hle & Hr).
    exists p', r. split; [|split; [lia | exact Hr]].
    replace (i - i0) with (S (i - S i0)) by lia. exact Hp.
Qed.

Lemma update_nth_same {A : Type} (f : A -> A) (n : nat) (l : list A) (x : A) :
  nth_error l n = Some x -> f x = x -> update_nth n f l = l.
Proof.
  revert n. induction l as [|y l IH]; intros n; [now destruct n|].
  destruct n as [|n]; cbn.
  - intros [= ->] Hf. now rewrite Hf.
  - intros Hn Hf. now rewrite (IH n Hn Hf).
Qed.

Lemma nth_error_nth_default {A : Type} (l : list A) (n : nat) (x d : A) :
  nth_error l n = Some x -> nth n l d = x.
Proof.
  revert n. induction l as [|y l IH]; intros n; destruct n; cbn; try discriminate.
  - now intros [= ->].
  - apply IH.
Qed.

Lemma relink_items_no_match (text : string) (content : list (string * string))
    (sh : shape) :
  Forall (fun kv => Py.contains (fst kv) text = false) content ->
  relink_items text content sh = sh.
Proof.
  induction 1 as [|[k v] content Hk Hrest IH]; cbn [relink_items]; [reflexivity|].
  cbn in Hk. now rewrite Hk.
Qed.

Lemma no_tokens_without_braces (m : Re.re_match) (s : string) :
  Py.contains "{{" s = false -> ~ In (Re.Tok m) (Re.pieces s).
Proof.
  induction s as [|c s Hpc Hmc IH|m' rest Hpc Hg Hnone IH] using pieces_ind;
    intros Hno.
  - intros [].
  - rewrite Hpc. intros [Hc|Hc]; [discriminate|]. revert Hc. apply IH.
    rewrite contains_eq in Hno. now destruct (prefix _ (String c s)).
  - exfalso. apply Bool.not_true_iff_false in Hno. apply Hno.
    apply contains_iff. exists "", (Re.group1 m' ++ "}}" ++ rest)%string.
    rewrite Hg. cbn [append]. now rewrite append_assoc.
Qed.

(** X20. A shape none of whose runs has an opening pair of braces or a
    control character other than tab and line feed, and in whose text no
    key of [content] occurs, comes out of the pass over its text exactly as
    it went in, the slide with it: only the log shows the calls of the
    hyperlink rewriter, one for each run. *)
Theorem text_without_tokens_is_kept (disk : filesystem)
    (content : list (string * string)) (st : slide_state) (tf : list paragraph) :
  text_frame (st_shape st) = Some tf ->
  (forall p r, In p tf -> In r p -> Py.contains "{{" (run_text r) = false) ->
  (forall p r, In p tf -> In r p -> no_control (run_text r) = true) ->
  Forall (fun kv => Py.contains (fst kv) (frame_text tf) = false) content ->
  _replace_text_placeholders disk content st
  = Ok (tt, mk_state (st_before st) (st_shape st) (st_attached st) (st_after st)
              (st_calls st ++ repeat CallHyperlink (length (concat tf)))).
Proof.
  destruct st as [before sh attached after calls0].
  cbn [st_before st_shape st_attached st_after st_calls].
  intros Hframe Hplain Hclean Hkeys.
  unfold _replace_text_placeholders, bind at 1, get_shape.
  cbn [st_shape]. rewrite Hframe.
  rewrite <- (length_run_positions tf 0).
  assert (Hstep : forall i j calls,
            In (i, j) (run_positions 0 tf) ->
            (text <- run_text_at i j ;;
             new_text <- sub_with (fun m => _replace_text_or_image disk m content)
                           text ;;
             set_run_text i j new_text ;;
             _identify_and_replace_hyperlink content)
              (mk_state before sh attached after calls)
            = Ok (tt, mk_state before sh attached after (calls ++ [CallHyperlink]))).
  { intros i j calls Hin.
    destruct (positions_valid tf 0 i j Hin) as (p & r & Hp & _ & Hr).
    rewrite Nat.sub_0_r in Hp.
    assert (Hnth : nth i tf [] = p) by now apply nth_error_nth_default.
    assert (Hrun : Py.contains "{{" (run_text r) = false).
    { apply (Hplain p r);
        [now apply (nth_error_In tf i) | now apply (nth_error_In p j)]. }
    assert (Hesc : escape (run_text r) = run_text r).
    { apply escape_plain. apply (Hclean p r);
        [now apply (nth_error_In tf i) | now apply (nth_error_In p j)]. }
    unfold bind at 1. unfold run_text_at, bind at 1, get_shape.
    cbn [st_shape]. rewrite Hframe, Hnth, Hr. unfold ret. unfold bind at 1.
    unfold sub_with.
    rewrite (sub_pieces_pure _ (fun m => Re.group0 m)).
    - fold (Re.sub (fun m => Re.group0 m) (run_text r)).
      rewrite (sub_without_braces _ _ (or_introl Hrun)).
      unfold bind at 1. unfold set_run_text, bind at 1, get_shape, set_shape.
      cbn [st_shape st_before st_attached st_after st_calls].
      rewrite Hframe. cbn [option_map].
      rewrite (update_nth_same _ i tf p Hp).
      + assert (Hsame : with_text_frame sh (@Some (list (list run)) tf) = sh).
        { change (@Some (list (list run)) tf) with (@Some (list paragraph) tf).
          rewrite <- Hframe. apply with_text_frame_same. }
        rewrite Hsame.
        rewrite (rewriter_result content
                   (mk_state before sh attached after calls) tf Hframe).
        cbn [st_shape st_before st_attached st_after st_calls].
        now rewrite (relink_items_no_match _ _ _ Hkeys).
      + apply (update_nth_same _ j p r Hr). rewrite Hesc. now destruct r.
    - intros m Hm. exfalso. exact (no_tokens_without_braces m _ Hrun Hm). }
  revert Hstep. generalize calls0 as calls.
  generalize (run_positions 0 tf) as l.
  induction l as [|[i j] l IH]; intros calls Hstep; cbn [for_each length repeat].
  - unfold ret. now rewrite app_nil_r.
  - unfold bind at 1. rewrite (Hstep i j calls (or_introl eq_refl)).
    rewrite IH by (intros i' j' c' Hin'; apply Hstep; now right).
    now rewrite <- app_assoc.
Qed.

Lemma text_without_tokens_is_kept_witness :
  _replace_text_placeholders exists_png [("name", "Alice")]
    (alone (text_box [mk_run "Agenda" (Some "http://old"); mk_run " 2026" None]
              (HyperlinkAction (Some "http://old"))))
  = Ok (tt, mk_state []
              (text_box [mk_run "Agenda" (Some "http://old"); mk_run " 2026" None]
                 (HyperlinkAction (Some "http://old")))
              true [] ([] ++ repeat CallHyperlink 2)).
Proof.
  apply (text_without_tokens_is_kept exists_png [("name", "Alice")]
           (alone (text_box [mk_run "Agenda" (Some "http://old"); mk_run " 2026" None]
                     (HyperlinkAction (Some "http://old"))))
           [[mk_run "Agenda" (Some "http://old"); mk_run " 2026" None]]).
  - reflexivity.
  - intros p r [<-|[]] [<-|[<-|[]]]; reflexivity.
  - intros p r [<-|[]] [<-|[<-|[]]]; reflexivity.
  - repeat constructor.
Defined.

(** ** Names with blanks around *)

Lemma lstrip_blanks (a s : string) :
  Py.all_chars Py.is_space a = true -> Py.lstrip (a ++ s) = Py.lstrip s.
Proof.
  induction a as [|c a IH]; cbn [append Py.all_chars Py.lstrip]; [reflexivity|].
  intros H. apply andb_prop in H. destruct H as [Hc Ha]. rewrite Hc. now apply IH.
Qed.

Lemma rstrip_blank (b : string) :
  Py.all_chars Py.is_space b = true -> Py.rstrip b = "".
Proof.
  induction b as [|c b IH]; cbn [Py.all_chars Py.rstrip]; [reflexivity|].
  intros H. apply andb_prop in H. destruct H as [Hc Hb].
  now rewrite (IH Hb), Hc.
Qed.

Lemma rstrip_blanks (s b : string) :
  Py.all_chars Py.is_space b = true -> Py.rstrip (s ++ b) = Py.rstrip s.
Proof.
  intros Hb. induction s as [|c s IH]; cbn [append Py.rstrip].
  - now apply rstrip_blank.
  - now rewrite IH.
Qed.

Lemma lstrip_cases (s : string) :
  (Py.all_chars Py.is_space s = true /\ Py.lstrip s = "")
  \/ (forall b, Py.lstrip (s ++ b) = (Py.lstrip s ++ b)%string).
Proof.
  induction s as [|c s IH]; [now left|].
  destruct (Py.is_space c) eqn:Hc.
  - destruct IH as [[Hs Hnil]|IH].
    + left. cbn [Py.all_chars Py.lstrip]. now rewrite Hc, Hs, Hnil.
    + right. intros b. cbn [Py.lstrip append]. rewrite Hc. apply IH.
  - right. intros b. cbn [Py.lstrip append]. now rewrite Hc.
Qed.

Lemma lstrip_blank (b : string) :
  Py.all_chars Py.is_space b = true -> Py.lstrip b = "".
Proof.
  induction b as [|c b IH]; cbn [Py.all_chars Py.lstrip]; [reflexivity|].
  intros H. apply andb_prop in H. destruct H as [Hc Hb]. now rewrite Hc, IH.
Qed.

Lemma strip_padded (a s b : string) :
  Py.all_chars Py.is_space a = true ->
  Py.all_chars Py.is_space b = true ->
  Py.strip (a ++ s ++ b) = Py.strip s.
Proof.
  intros Ha Hb. unfold Py.strip. rewrite (lstrip_blanks a _ Ha).
  destruct (lstrip_cases s) as [[Hs Hnil]|Happ].
  - now rewrite Hnil, (lstrip_blanks s b Hs), (lstrip_blank b Hb).
  - rewrite Happ. now apply rstrip_blanks.
Qed.

(** X21. Blanks around the name of a token do not count: a token whose
    name is padded with whitespace on either side is tested for an image
    name, and looked up in [content], as the token with the bare name is;
    in a table cell both give the same value when the name is a key. *)
Theorem padded_names_resolve_alike (content : list (string * string))
    (m m' : Re.re_match) (a b : string) :
  Py.all_chars Py.is_space a = true ->
  Py.all_chars Py.is_space b = true ->
  Re.group1 m' = (a ++ Re.group1 m ++ b)%string ->
  is_image_name (Py.strip (Re.group1 m')) = is_image_name (Py.strip (Re.group1 m))
  /\ content_get content (Py.strip (Re.group1 m'))
     = content_get content (Py.strip (Re.group1 m))
  /\ (forall v, content_get content (Py.strip (Re.group1 m)) = Some v ->
                _replace_text m' content = v /\ _replace_text m content = v).
Proof.
  intros Ha Hb Hname.
  assert (Hstrip : Py.strip (Re.group1 m') = Py.strip (Re.group1 m))
    by (rewrite Hname; now apply strip_padded).
  rewrite Hstrip. split; [reflexivity|]. split; [reflexivity|].
  intros v Hv. unfold _replace_text, Py.dict_get_default.
  unfold content_get in Hv. now rewrite Hstrip, Hv.
Qed.

Lemma padded_names_resolve_alike_witness :
  is_image_name (Py.strip (Re.group1 name_token))
  = is_image_name (Py.strip (Re.group1 (Re.mk_match "{{name}}" "name")))
  /\ content_get [("name", "Alice")] (Py.strip (Re.group1 name_token))
     = content_get [("name", "Alice")]
         (Py.strip (Re.group1 (Re.mk_match "{{name}}" "name")))
  /\ (forall v,
        content_get [("name", "Alice")]
          (Py.strip (Re.group1 (Re.mk_match "{{name}}" "name"))) = Some v ->
        _replace_text name_token [("name", "Alice")] = v
        /\ _replace_text (Re.mk_match "{{name}}" "name") [("name", "Alice")] = v).
Proof.
  apply (padded_names_resolve_alike [("name", "Alice")]
           (Re.mk_match "{{name}}" "name") name_token " " " ");
    reflexivity.
Defined.

(** X22. Plain text without a brace, then a token whose name has no
    closing brace, then more text: the substitution is the plain text, what
    the replacement makes of that token, and the substitution of the rest;
    the token is found with the name exactly as written between the
    braces. *)
Theorem substitution_by_parts (f : Re.re_match -> string)
    (pre name post : string) :
  Py.contains "{" pre = false ->
  Py.contains "}" name = false ->
  Re.sub f (pre ++ "{{" ++ name ++ "}}" ++ post)
  = (pre ++ f (Re.mk_match ("{{" ++ name ++ "}}") name) ++ Re.sub f post)%string.
Proof.
  intros Hpre Hname. unfold Re.sub.
  rewrite (pieces_plain_prefix pre _ Hpre), concat_lits. f_equal.
  assert (Hm : Re.match_at ("{{" ++ name ++ "}}" ++ post)
               = Some (Re.mk_match ("{{" ++ name ++ "}}") name)).
  { change ("{{" ++ name ++ "}}" ++ post)%string
      with (String "{" (String "{" (name ++ "}}" ++ post))).
    unfold Re.match_at. cbv beta iota.
    now rewrite (find_close_plain name post Hname). }
  destruct (scan_match _ _ Hm) as [rest [Hrest Hscan]].
  unfold Re.pieces. rewrite Hscan. cbn [Re.group0] in Hrest.
  rewrite !append_assoc in Hrest. cbn [append] in Hrest.
  injection Hrest as Hrest. apply append_inv_head in Hrest.
  cbn [append] in Hrest. injection Hrest as <-.
  cbn [map Re.emit]. now rewrite concat_empty_cons.
Qed.

Lemma substitution_by_parts_witness :
  Re.sub (resolve [("name", "Alice")]) ("Hello " ++ "{{" ++ "name" ++ "}}" ++ "!")
  = ("Hello " ++ resolve [("name", "Alice")] (Re.mk_match ("{{" ++ "name" ++ "}}") "name")
       ++ Re.sub (resolve [("name", "Alice")]) "!")%string.
Proof.
  apply (substitution_by_parts (resolve [("name", "Alice")]) "Hello " "name" "!");
    reflexivity.
Defined.

(** ** The order of the content *)

Lemma names_seen_is_mem (c : list (string * string)) (p : string) :
  existsb (String.eqb p) (Py.dict_keys c) = Py.dict_mem String.eqb c p.
Proof.
  apply eq_true_iff_eq.
  rewrite (dict_mem_keys String.eqb streqb_eq), existsb_exists. split.
  - intros [x [Hin Heq]]. apply String.eqb_eq in Heq. now subst.
  - intros Hin. exists p. split; [exact Hin | apply String.eqb_refl].
Qed.

Lemma load_rows_content_order (disk : filesystem) (float_repr : Q -> string)
    (n : Z) (rows : list row) :
  forall d d',
    load_rows disk float_repr d rows = Ok d' ->
    Py.dict_keys (content (record_at d' n))
    = Py.dict_keys (content (record_at d n))
      ++ first_names (Py.dict_keys (content (record_at d n)))
           (placeholders_of n rows).
Proof.
  induction rows as [|r rows IH]; intros d d'; cbn [load_rows].
  - intros [= <-]. cbn. now rewrite app_nil_r.
  - destruct (load_row disk float_repr d r) as [d1|e] eqn:Hrow; [|discriminate].
    intros Hrest. rewrite (IH d1 d' Hrest).
    destruct (load_row_ok _ _ _ _ _ Hrow) as [n0 [im [Hn0 [Hd1 _]]]].
    unfold placeholders_of. cbn [filter]. rewrite Hn0.
    fold (placeholders_of n rows).
    destruct (Z.eqb_spec n0 n) as [->|Hne].
    + assert (Hrec : record_at d1 n
                     = mk_SlideData (slide_num (record_at d n))
                         (content_set (content (record_at d n))
                            (row_placeholder r) (value_of float_repr r)) im).
      { unfold record_at at 1. rewrite Hd1. unfold slides_get, slides_set.
        now rewrite (dict_get_set_same Z.eqb Zeqb_eq). }
      rewrite Hrec. cbn [content map first_names]. unfold content_set.
      rewrite (dict_keys_set String.eqb), names_seen_is_mem.
      destruct (Py.dict_mem String.eqb (content (record_at d n)) (row_placeholder r));
        [reflexivity | now rewrite <- app_assoc].
    + assert (Hrec : record_at d1 n = record_at d n).
      { unfold record_at. rewrite Hd1. unfold slides_get, slides_set.
        now rewrite (dict_get_set_other Z.eqb Zeqb_eq). }
      now rewrite Hrec.
Qed.

(** X23. The keys of the content of a loaded record are the placeholders
    of the rows of its slide, each once, in the order in which they first
    occur in the table: a later row for a placeholder changes its value and
    not its place, which is the order in which the hyperlink rewriter takes
    the keys. *)
Theorem content_keeps_first_seen_order (disk : filesystem)
    (float_repr : Q -> string) (rows : list row) (recs : list SlideData)
    (rec : SlideData) :
  load_slide_data disk float_repr rows = Ok recs ->
  In rec recs ->
  Py.dict_keys (content rec)
  = first_names [] (placeholders_of (slide_num rec) rows).
Proof.
  unfold load_slide_data.
  destruct (load_rows disk float_repr [] rows) as [d|e] eqn:Hrows; [|discriminate].
  intros [= <-] Hin.
  assert (Hkeyed : keyed d) by (eapply load_rows_keyed; [|exact Hrows]; constructor).
  assert (Hnodup : NoDup (Py.dict_keys d)).
  { destruct (load_rows_keys disk float_repr rows [] d Hrows) as [nums [_ ->]].
    cbn. apply first_seen_nodup. }
  unfold Py.dict_values in Hin. apply in_map_iff in Hin.
  destruct Hin as [[n sd] [Hsd Hin]]. cbn in Hsd. subst sd.
  unfold keyed in Hkeyed. rewrite Forall_forall in Hkeyed.
  pose proof (Hkeyed _ Hin) as Hnum. cbn in Hnum. rewrite Hnum.
  pose proof (load_rows_content_order disk float_repr n rows [] d Hrows) as Horder.
  cbn in Horder. rewrite <- Horder. f_equal. f_equal.
  unfold record_at.
  assert (Hget : slides_get d n = Some rec).
  { clear - Hin Hnodup. induction d as [|[k v] d IH]; [contradiction|].
    cbn in Hnodup. apply NoDup_cons_iff in Hnodup. destruct Hnodup as [Hk Hd].
    unfold slides_get. cbn. destruct Hin as [Heq|Hin].
    - injection Heq as -> ->. now rewrite Z.eqb_refl.
    - destruct (Z.eqb_spec k n) as [->|Hne].
      + exfalso. apply Hk. unfold Py.dict_keys.
        change n with (fst (n, rec)). now apply in_map.
      + now apply IH. }
  now rewrite Hget.
Qed.

Lemma content_keeps_first_seen_order_witness :
  Py.dict_keys
    (content (mk_SlideData 2 [("title", "Final"); ("3", "/tmp/a.png")]
                [(3%Z, "/tmp/a.png")]))
  = first_names []
      (placeholders_of 2
         [mk_row (CInt 2) "title" (CStr "Draft");
          mk_row (CInt 1) "title" (CStr "Cover");
          mk_row (CInt 2) "3" (CStr "/tmp/a.png");
          mk_row (CInt 2) "title" (CStr "Final")]).
Proof.
  apply (content_keeps_first_seen_order two_pictures no_floats
           [mk_row (CInt 2) "title" (CStr "Draft");
            mk_row (CInt 1) "title" (CStr "Cover");
            mk_row (CInt 2) "3" (CStr "/tmp/a.png");
            mk_row (CInt 2) "title" (CStr "Final")]
           [mk_SlideData 2 [("title", "Final"); ("3", "/tmp/a.png")]
              [(3%Z, "/tmp/a.png")];
            mk_SlideData 1 [("title", "Cover")] []]).
  - reflexivity.
  - now left.
Defined.
